(** * MindMate backend: agent fallbacks, aggregates and session memory

    A shallow embedding of the agent layer of the MindMate backend
    ([backend/app/agents/*.py]) and of the endpoints that feed it
    ([backend/app/api/journal.py], [conversation.py], [insights.py]),
    with the properties the specification states about them.

    Conventions of the embedding.
    - A Python [str] is a [string]; [str.lower] is ASCII lower-casing
      (journal text outside ASCII is not modelled).
    - A Python [float] mood score is an exact rational [Q]; binary64
      rounding is not modelled. Comparing scores ([min], [max],
      [argmax], the trend) gives the same in both. A sum, a mean, a
      variance and [round] are the exact values here, which the code's
      binary64 results only approximate (and Python's [round] and
      numpy's can differ in the last digit), so the properties below
      read them only on inputs where they are exact in binary64 too.
    - A [dict] used as a counter is an association list in insertion
      order, because the order of [dict.items()] is observable through
      [sorted] and [max]; [conversation_memories] and plans are [gmap]s.
    - The hosted language model, [json.loads], the clock and
      [numpy.random] are inputs of the functions that use them. *)

From Stdlib Require Import String Ascii List ZArith QArith Lia Bool.
From Stdlib Require Import Sorting.Sorted.
From stdpp Require Import base option list gmap strings.

Open Scope string_scope.
Open Scope list_scope.
Open Scope stdpp_scope.

(* ================================================================== *)
(** ** Python strings *)

Module PyStr.

(** [c.lower()] on one ASCII character. *)
Definition ascii_lower (c : ascii) : ascii :=
  let n := nat_of_ascii c in
  if (65 <=? n)%nat && (n <=? 90)%nat then ascii_of_nat (n + 32) else c.

(** [s.lower()]. *)
Fixpoint lower (s : string) : string :=
  match s with
  | EmptyString => EmptyString
  | String c s' => String (ascii_lower c) (lower s')
  end.

(** [w in s] for strings: [w] occurs in [s] as a contiguous substring. *)
Fixpoint str_in (w s : string) : bool :=
  String.prefix w s ||
  match s with
  | EmptyString => false
  | String _ s' => str_in w s'
  end.

(** [any(word in s for word in words)]. *)
Definition any_in (words : list string) (s : string) : bool :=
  existsb (fun w => str_in w s) words.

(** [sum(1 for word in words if word in s)]. *)
Definition count_in (words : list string) (s : string) : nat :=
  length (filter (fun w => str_in w s = true) words).

(** [sep.join(ws)] with [sep = " "]. *)
Fixpoint unwords (ws : list string) : string :=
  match ws with
  | [] => ""
  | w :: ws' =>
      match ws' with
      | [] => w
      | _ :: _ => w +:+ " " +:+ unwords ws'
      end
  end.

(** The character [" "] does not occur in [w]. *)
Fixpoint space_free (w : string) : bool :=
  match w with
  | EmptyString => true
  | String c w' => negb (Ascii.eqb c " "%char) && space_free w'
  end.

End PyStr.

(* ================================================================== *)
(** ** The external boundary: model calls and JSON replies *)

(** What a call that may raise gives back: a value, or an exception
    carrying its message ([str(e)]). *)
Inductive outcome (A : Type) : Type :=
| Returned (a : A)
| Raised (e : string).
Arguments Returned {A} a.
Arguments Raised {A} e.

(** The part of a parsed JSON reply the agents look at. *)
#[warnings="-register-all"]
Inductive json : Type :=
| JNull
| JNum (q : Q)
| JStr (s : string)
| JArr (items : list json)
| JObj (fields : list (string * json)).

(** A JSON array of strings. *)
Definition jstrs (l : list string) : json := JArr (map JStr l).

Module Py.

(** [d.get(key)] on the fields of a JSON object. *)
Fixpoint assoc (key : string) (fields : list (string * json)) : option json :=
  match fields with
  | [] => None
  | (k, v) :: rest => if String.eqb k key then Some v else assoc key rest
  end.

(** [v.get(key, default)]: only a [dict] has [get]; on anything else the
    attribute lookup raises. *)
Definition get (v : json) (key : string) (default : json) : outcome json :=
  match v with
  | JObj fields =>
      Returned (match assoc key fields with Some x => x | None => default end)
  | _ => Raised "AttributeError"
  end.

(** Sequencing inside a [try] block: the first exception ends it. *)
Definition bind {A B : Type} (m : outcome A) (k : A -> outcome B) : outcome B :=
  match m with
  | Returned a => k a
  | Raised e => Raised e
  end.

(** [l[:n]] and [l[-n:]] for [n > 0]. *)
Definition first_n {A : Type} (n : nat) (l : list A) : list A := take n l.
Definition last_n {A : Type} (n : nat) (l : list A) : list A :=
  drop (length l - n) l.

(** [x or default] on an optional string: [None] and [""] are falsy. *)
Definition str_or (x : option string) (default : string) : string :=
  match x with
  | Some s => if String.eqb s "" then default else s
  | None => default
  end.

(** [sum(xs)] and [sum(xs) / len(xs)] on scores, in exact arithmetic. *)
Definition qsum (xs : list Q) : Q := fold_left Qplus xs (0 # 1).
Definition mean (xs : list Q) : Q := qsum xs / inject_Z (Z.of_nat (length xs)).

(** [min(xs)] and [max(xs)] for a non-empty [xs]: the first extremal
    element, as the built-ins return it. *)
Definition qmin (x : Q) (xs : list Q) : Q :=
  fold_left (fun m y => if Qlt_le_dec y m then y else m) xs x.
Definition qmax (x : Q) (xs : list Q) : Q :=
  fold_left (fun m y => if Qlt_le_dec m y then y else m) xs x.

(** The conditional expression
    ["improving" if last > first else "declining" if last < first else "stable"]. *)
Definition trend_of (first last : Q) : string :=
  if Qlt_le_dec first last then "improving"
  else if Qlt_le_dec last first then "declining"
  else "stable".

End Py.
#[global] Instance outcome_bind : MBind outcome := fun A B k m => Py.bind m k.

(* ================================================================== *)
(** ** The counting idiom shared by the agents and the journal API

    [counts = {}; for x in xs: counts[x] = counts.get(x, 0) + 1], then
    [sorted(counts.items(), key=lambda x: x[1], reverse=True)[:n]] or
    [max(counts.items(), key=lambda x: x[1])]. *)

Module Freq.

(** A counter: keys in insertion order, as [dict.items()] yields them. *)
Abbreviation counter := (list (string * nat)).

(** [counts[x] = counts.get(x, 0) + 1]: a known key keeps its place, a
    new key goes to the end. *)
Fixpoint bump (x : string) (counts : counter) : counter :=
  match counts with
  | [] => [(x, 1)]
  | (k, n) :: rest =>
      if String.eqb k x then (k, S n) :: rest else (k, n) :: bump x rest
  end.

Definition count_items (xs : list string) : counter :=
  fold_left (fun counts x => bump x counts) xs [].

(** One step of a stable descending sort: [x] stood before every element
    of [sorted_rest] in the input, so it goes before the first element
    whose count is not larger. *)
Fixpoint insert_desc (x : string * nat) (sorted_rest : counter) : counter :=
  match sorted_rest with
  | [] => [x]
  | y :: rest =>
      if (snd y <=? snd x)%nat then x :: y :: rest else y :: insert_desc x rest
  end.

(** [sorted(items, key=lambda x: x[1], reverse=True)]: Python's sort is
    stable and [reverse=True] keeps the input order of equal keys. *)
Definition sorted_desc (items : counter) : counter :=
  fold_right insert_desc [] items.

(** [sorted(...)[:n]]. *)
Definition top (n : nat) (counts : counter) : counter :=
  Py.first_n n (sorted_desc counts).

(** [max(items, key=lambda x: x[1])]: the first item with the largest
    count; [None] stands for the [ValueError] on an empty sequence. *)
Definition max_by_count (items : counter) : option (string * nat) :=
  fold_left
    (fun best x =>
       match best with
       | None => Some x
       | Some b => if (snd b <? snd x)%nat then Some x else Some b
       end)
    items None.

(** Position of the first occurrence of [x] in [xs]. *)
Fixpoint index_of (x : string) (xs : list string) : option nat :=
  match xs with
  | [] => None
  | y :: rest => if String.eqb y x then Some 0 else S <$> index_of x rest
  end.

(** [a] is seen in [xs] before [b] is seen for the first time. *)
Definition first_seen_before (xs : list string) (a b : string) : Prop :=
  exists i, index_of a xs = Some i /\
    forall j, index_of b xs = Some j -> i < j.

(** Descending order of count between two rows. *)
Definition desc (p q : string * nat) : Prop := snd q <= snd p.

(** What the specification asks of a frequency table built from the
    items [seen]: at most [cap] rows, counts in descending order, and
    rows of equal count in the order their keys were first seen. *)
Definition table_ok (cap : nat) (seen : list string) (table : counter) : Prop :=
  length table <= cap /\
  StronglySorted desc table /\
  forall i j a b c,
    i < j -> table !! i = Some (a, c) -> table !! j = Some (b, c) ->
    first_seen_before seen a b.

End Freq.

(* ================================================================== *)
(** ** journal_agent.py *)

Module JournalAgent.

Record Analysis : Type := {
  mood_score : Q;
  mood_label : string;
  themes : list string;
  emotional_triggers : list string;
  stress_level : Z;
  key_insights : list string;
  growth_areas : list string;
  positive_patterns : list string;
  suggested_focus : string
}.

Definition positive_words : list string :=
  ["happy"; "joy"; "excited"; "grateful"; "peaceful"; "content"].
Definition negative_words : list string :=
  ["sad"; "angry"; "frustrated"; "anxious"; "depressed"; "worried"].

Definition positive_count (content : string) : nat :=
  PyStr.count_in positive_words (PyStr.lower content).
Definition negative_count (content : string) : nat :=
  PyStr.count_in negative_words (PyStr.lower content).

(** The [if]/[elif]/[else] on the two counts. *)
Definition fallback_mood (content : string) : Q * string :=
  if (negative_count content <? positive_count content)%nat then (7 # 1, "positive")
  else if (positive_count content <? negative_count content)%nat then (3 # 1, "negative")
  else (5 # 1, "neutral").

(** The four [if any(...)]: [themes.append(...)] in source order. *)
Definition fallback_themes (content : string) : list string :=
  let content_lower := PyStr.lower content in
  (if PyStr.any_in ["work"; "job"; "career"; "office"] content_lower
   then ["work"] else []) ++
  (if PyStr.any_in ["relationship"; "friend"; "family"; "partner"] content_lower
   then ["relationships"] else []) ++
  (if PyStr.any_in ["health"; "exercise"; "diet"; "sleep"] content_lower
   then ["health"] else []) ++
  (if PyStr.any_in ["stress"; "anxiety"; "worry"; "fear"] content_lower
   then ["stress"] else []).

(** [JournalAgent._fallback_analysis]. *)
Definition _fallback_analysis (content : string) : Analysis :=
  {| mood_score := fst (fallback_mood content);
     mood_label := snd (fallback_mood content);
     themes := fallback_themes content;
     emotional_triggers := [];
     stress_level := 5;
     key_insights := ["Analysis completed with fallback method"];
     growth_areas := [];
     positive_patterns := [];
     suggested_focus := "Continue journaling to build patterns" |}.

(** What the model path returns: every field is whatever the model's
    JSON reply held under that key, or the default of the [get]. *)
Record ModelAnalysis : Type := {
  m_mood_score : json;
  m_mood_label : json;
  m_themes : json;
  m_emotional_triggers : json;
  m_stress_level : json;
  m_key_insights : json;
  m_growth_areas : json;
  m_positive_patterns : json;
  m_suggested_focus : json
}.

Inductive AnalysisResult : Type :=
| FromModel (a : ModelAnalysis)
| FromFallback (a : Analysis).

Section WithModel.
(** [self.use_llm], the four chains' [arun] and [json.loads]. *)
Variable use_llm : bool.
Variables mood_analyzer theme_extractor trigger_analyzer : string -> outcome string.
Variable insights_generator : string -> json -> json -> json -> outcome string.
Variable loads : string -> outcome json.

(** The body of the [try] on the model path. *)
Definition model_analysis (content : string) : outcome ModelAnalysis :=
  mood_result ← mood_analyzer content;
  theme_result ← theme_extractor content;
  trigger_result ← trigger_analyzer content;
  mood_analysis ← loads mood_result;
  theme_analysis ← loads theme_result;
  trigger_analysis ← loads trigger_result;
  insights_result ←
    insights_generator content mood_analysis theme_analysis trigger_analysis;
  insights_analysis ← loads insights_result;
  ms ← Py.get mood_analysis "mood_score" (JNum (5 # 1));
  ml ← Py.get mood_analysis "mood_label" (JStr "neutral");
  th ← Py.get theme_analysis "themes" (JArr []);
  tr ← Py.get trigger_analysis "emotional_triggers" (JArr []);
  sl ← Py.get trigger_analysis "stress_level" (JNum (5 # 1));
  ki ← Py.get insights_analysis "key_insights" (JArr []);
  ga ← Py.get insights_analysis "growth_areas" (JArr []);
  pp ← Py.get insights_analysis "positive_patterns" (JArr []);
  sf ← Py.get insights_analysis "suggested_focus" (JStr "");
  Returned {| m_mood_score := ms; m_mood_label := ml; m_themes := th;
              m_emotional_triggers := tr; m_stress_level := sl;
              m_key_insights := ki; m_growth_areas := ga;
              m_positive_patterns := pp; m_suggested_focus := sf |}.

(** [JournalAgent.analyze_journal_entry]: [except Exception] sends
    every failure of the model path to the fallback. *)
Definition analyze_journal_entry (content : string) : AnalysisResult :=
  if use_llm then
    match model_analysis content with
    | Returned a => FromModel a
    | Raised _ => FromFallback (_fallback_analysis content)
    end
  else FromFallback (_fallback_analysis content).

End WithModel.

(** An entry handed to [generate_weekly_summary]: a [dict] whose keys may
    be missing ([None]); [created_at] is carried but never read. *)
Record Entry : Type := {
  entry_mood_score : option Q;
  entry_themes : option (list string);
  entry_emotional_triggers : option (list string);
  entry_created_at : Z
}.

Record WeeklySummary : Type := {
  average_mood : Q;
  mood_trend : string;
  total_entries : nat;
  most_common_themes : Freq.counter;
  most_common_triggers : Freq.counter;
  mood_range : Q * Q;
  most_discussed_theme : string
}.

Inductive SummaryResult : Type :=
| NoEntries (message : string)
| Summary (s : WeeklySummary).

(** [[entry.get("mood_score", 5.0) for entry in entries]]. *)
Definition mood_scores (entries : list Entry) : list Q :=
  map (fun e => default (5 # 1) (entry_mood_score e)) entries.

(** [all_themes] and [all_triggers] after the [extend] loop. *)
Definition all_themes (entries : list Entry) : list string :=
  concat (map (fun e => default [] (entry_themes e)) entries).
Definition all_triggers (entries : list Entry) : list string :=
  concat (map (fun e => default [] (entry_emotional_triggers e)) entries).

(** [JournalAgent.generate_weekly_summary]. Of the three [insights]
    strings only the theme named in the third is kept; the other two
    print [avg_mood] and [mood_trend]. *)
Definition generate_weekly_summary (entries : list Entry) : SummaryResult :=
  match mood_scores entries with
  | [] => NoEntries "No entries to summarize"
  | first :: rest =>
      let scores := first :: rest in
      let theme_counts := Freq.count_items (all_themes entries) in
      let trigger_counts := Freq.count_items (all_triggers entries) in
      Summary
        {| average_mood := Py.mean scores;
           mood_trend := Py.trend_of first (List.last scores first);
           total_entries := length entries;
           most_common_themes := Freq.top 5 theme_counts;
           most_common_triggers := Freq.top 5 trigger_counts;
           mood_range := (Py.qmin first rest, Py.qmax first rest);
           most_discussed_theme :=
             match Freq.max_by_count theme_counts with
             | Some (t, _) => t
             | None => "None"
             end |}
  end.

End JournalAgent.

(* ================================================================== *)
(** ** api/journal.py: the two endpoints that aggregate stored entries *)

Module JournalApi.

(** A row of [journal_entries] as [create_journal_entry] writes it. The
    two text columns hold [json.dumps] of a list of strings and are read
    back with [json.loads]; the row carries the list itself, [None] for
    an empty column. Times are instants on one clock. *)
Record Row : Type := {
  user_id : Z;
  content : string;
  mood_score : Q;
  mood_label : string;
  themes : option (list string);
  emotional_triggers : option (list string);
  created_at : Z
}.

(** [order_by(JournalEntry.created_at.desc())]: one insertion step of
    the descending order on [created_at]. *)
Fixpoint insert_newest_first (r : Row) (rows : list Row) : list Row :=
  match rows with
  | [] => [r]
  | r' :: rest =>
      if (created_at r' <=? created_at r)%Z then r :: r' :: rest
      else r' :: insert_newest_first r rest
  end.

Definition order_by_created_at_desc (rows : list Row) : list Row :=
  fold_right insert_newest_first [] rows.

(** The [entries_data.append({...})] loop of [get_weekly_summary]. *)
Definition entry_of_row (r : Row) : JournalAgent.Entry :=
  {| JournalAgent.entry_mood_score := Some (mood_score r);
     JournalAgent.entry_themes := Some (default [] (themes r));
     JournalAgent.entry_emotional_triggers := Some (default [] (emotional_triggers r));
     JournalAgent.entry_created_at := created_at r |}.

Record WeeklySummaryResponse : Type := {
  summary : JournalAgent.SummaryResult;
  ws_total_entries : nat;
  period : string
}.

(** [get_weekly_summary]: [now] is [datetime.utcnow()], [week] the length
    of [timedelta(days=7)] on the clock of [created_at]. *)
Definition get_weekly_summary (now week : Z) (current_user : Z) (db : list Row)
  : WeeklySummaryResponse :=
  let week_ago := (now - week)%Z in
  let entries :=
    order_by_created_at_desc
      (filter (fun r => user_id r = current_user /\ (week_ago <= created_at r)%Z) db) in
  {| summary := JournalAgent.generate_weekly_summary (map entry_of_row entries);
     ws_total_entries := length entries;
     period := "last_7_days" |}.

Record ThemesResponse : Type := {
  recurring_themes : Freq.counter;
  rt_total_entries : nat;
  unique_themes : nat
}.

(** The themes [get_recurring_themes] collects from the rows it read. *)
Definition collected_themes (entries : list Row) : list string :=
  concat (map (fun r => default [] (themes r)) entries).

(** [get_recurring_themes]. *)
Definition get_recurring_themes (current_user : Z) (db : list Row) : ThemesResponse :=
  let entries :=
    order_by_created_at_desc (filter (fun r => user_id r = current_user) db) in
  let theme_counts := Freq.count_items (collected_themes entries) in
  {| recurring_themes := Freq.top 10 theme_counts;
     rt_total_entries := length entries;
     unique_themes := length theme_counts |}.

End JournalApi.

(* ================================================================== *)
(** ** conversation_agent.py *)

Module ConversationAgent.

(** A [ConversationBufferMemory]: the turns saved so far. *)
Inductive role : Type := Human | AI.
Abbreviation transcript := (list (role * string)).

(** [self.conversation_memories]: one shared, mutable [dict] per agent. *)
Abbreviation memories := (gmap string transcript).

Record Response : Type := {
  response : string;
  conversation_type : string;
  theme : option string;
  session_id : string;
  timestamp : string;
  fallback : bool
}.

(** What [chain.ainvoke] is given. *)
Record ChatPrompt : Type := {
  prompt_template : string;
  prompt_user_message : string;
  prompt_theme : string;
  prompt_session_id : string;
  prompt_conversation_history : transcript
}.

Record EndResult : Type := {
  end_session_id : string;
  end_summary : option string;
  end_message : string;
  end_timestamp : string
}.

(** [ConversationAgent._fallback_response]: the first keyword group that
    matches chooses the reply. *)
Definition fallback_reply (user_message : string) : string :=
  let user_lower := PyStr.lower user_message in
  if PyStr.any_in ["sad"; "depressed"; "down"; "unhappy"] user_lower then
    "I hear that you're feeling down. What's been on your mind lately?"
  else if PyStr.any_in ["happy"; "excited"; "good"; "great"] user_lower then
    "That's wonderful! What's contributing to your positive mood?"
  else if PyStr.any_in ["stress"; "anxious"; "worried"; "nervous"] user_lower then
    "Stress can be really challenging. Can you tell me more about what's causing you concern?"
  else if PyStr.any_in ["work"; "job"; "career"] user_lower then
    "Work can be a significant part of our lives. How are things going for you professionally?"
  else if PyStr.any_in ["relationship"; "friend"; "family"] user_lower then
    "Relationships are so important. What's happening in your relationships right now?"
  else
    "I'm here to listen and support you. What would you like to talk about today?".

Definition _fallback_response (now : string)
    (user_message conversation_type : string) (theme : option string)
    (session_id : string) : Response :=
  {| response := fallback_reply user_message;
     conversation_type := conversation_type;
     theme := theme;
     session_id := session_id;
     timestamp := now;
     fallback := true |}.

(** [ConversationAgent._get_conversation_memory]: get, or create empty
    and store. *)
Definition _get_conversation_memory (session_id : string) (mem : memories)
  : transcript * memories :=
  match mem !! session_id with
  | Some memory => (memory, mem)
  | None => ([], <[session_id := []]> mem)
  end.

(** [memory.save_context({"input": ...}, {"output": ...})] on the buffer
    stored under [session_id]. *)
Definition save_context (session_id input output : string) (mem : memories)
  : memories :=
  alter (fun memory : transcript => (memory ++ [(Human, input); (AI, output)])%list)
    session_id mem.

Section WithModel.
(** [self.use_llm], the chat chain, the summary chain and the clock. *)
Variable use_llm : bool.
Variable ainvoke : ChatPrompt -> outcome string.
Variable summary_chain : transcript -> outcome string.
Variable now : string.

(** [ConversationAgent.generate_response]: the reply and the agent's
    memories afterwards. *)
Definition generate_response (user_message session_id conversation_type : string)
    (theme : option string) (mem : memories) : Response * memories :=
  if use_llm then
    let '(memory, mem1) := _get_conversation_memory session_id mem in
    let template :=
      if String.eqb conversation_type "socratic" then "socratic"
      else if String.eqb conversation_type "cbt" then "cbt"
      else "general" in
    match ainvoke {| prompt_template := template;
                     prompt_user_message := user_message;
                     prompt_theme := Py.str_or theme "general";
                     prompt_session_id := session_id;
                     prompt_conversation_history := memory |} with
    | Returned reply =>
        ({| response := reply;
            conversation_type := conversation_type;
            theme := theme;
            session_id := session_id;
            timestamp := now;
            fallback := false |},
         save_context session_id user_message reply mem1)
    | Raised _ =>
        (_fallback_response now user_message conversation_type theme session_id,
         mem1)
    end
  else
    (_fallback_response now user_message conversation_type theme session_id, mem).

(** [ConversationAgent.end_conversation]: the value returned or the
    exception raised, and the agent's memories afterwards. *)
Definition end_conversation (session_id : string) (mem : memories)
  : outcome EndResult * memories :=
  match mem !! session_id with
  | Some memory =>
      if use_llm then
        match summary_chain memory with
        | Returned summary =>
            (Returned
               {| end_session_id := session_id;
                  end_summary := Some summary;
                  end_message :=
                    "Thank you for sharing with me. I hope our conversation was helpful.";
                  end_timestamp := now |},
             delete session_id mem)
        | Raised e => (Raised e, mem)
        end
      else
        (Returned
           {| end_session_id := session_id;
              end_summary := None;
              end_message := "Thank you for our conversation. I hope it was helpful.";
              end_timestamp := now |},
         delete session_id mem)
  | None =>
      (Returned
         {| end_session_id := session_id;
            end_summary := None;
            end_message := "Thank you for our conversation. I hope it was helpful.";
            end_timestamp := now |},
       mem)
  end.

End WithModel.

(** An entry of [user_history]; a missing key is [None]. *)
Record HistoryEntry : Type := {
  history_themes : option (list string);
  history_mood_label : option string;
  history_growth_areas : option (list string)
}.

(** [ConversationAgent.suggest_conversation_topics]. *)
Definition suggest_conversation_topics (user_history : list HistoryEntry)
  : list string :=
  match user_history with
  | [] =>
      ["How are you feeling today?";
       "What's been on your mind lately?";
       "Is there anything you'd like to explore or discuss?"]
  | _ :: _ =>
      let recent_themes :=
        concat (map (fun e => default [] (history_themes e))
                    (Py.last_n 5 user_history)) in
      let theme_counts := Freq.count_items recent_themes in
      let by_theme :=
        match Freq.max_by_count theme_counts with
        | Some (top_theme, _) =>
            ["Let's explore your thoughts about " +:+ top_theme]
        | None => []
        end in
      let recent_moods :=
        map (fun e => default "neutral" (history_mood_label e))
            (Py.last_n 3 user_history) in
      let by_mood :=
        if existsb (String.eqb "negative") recent_moods then
          ["I notice you've been feeling down lately. Would you like to talk about what's been challenging?"]
        else [] in
      let by_growth :=
        concat (map (fun e =>
                       match default [] (history_growth_areas e) with
                       | area :: _ =>
                           ["I see you've been working on " +:+ area +:+ ". How's that going?"]
                       | [] => []
                       end)
                    (Py.last_n 3 user_history)) in
      let suggestions := by_theme ++ by_mood ++ by_growth in
      let suggestions :=
        match suggestions with
        | [] =>
            ["How has your week been so far?";
             "Is there anything you're looking forward to?";
             "What's been the highlight of your day?"]
        | _ :: _ => suggestions
        end in
      Py.first_n 3 suggestions
  end.


(** The [dict] [start_conversation] returns. *)
Record Session : Type := {
  started_session_id : string;
  opening_message : string;
  started_conversation_type : string;
  started_theme : option string;
  started_user_id : Z;
  started_timestamp : string
}.

(** [opening_messages.get(conversation_type, opening_messages["general"])]. *)
Definition opening_for (conversation_type : string) : string :=
  if String.eqb conversation_type "socratic" then
    "I'd like to explore this topic with you through some thoughtful questions. What's your initial thought about this?"
  else if String.eqb conversation_type "cbt" then
    "Let's take a moment to examine your thoughts and feelings about this. What's going through your mind right now?"
  else
    "I'm here to listen and support you. What would you like to talk about today?".

(** [ConversationAgent.start_conversation]; [uuid4] is [str(uuid.uuid4())]
    and [now] the clock. *)
Definition start_conversation (uuid4 now : string) (user_id : Z)
    (conversation_type : string) (theme : option string) : Session :=
  let opening := opening_for conversation_type in
  let opening :=
    match theme with
    | Some t =>
        if String.eqb t "" then opening
        else "Let's focus on " +:+ t +:+ ". " +:+ opening
    | None => opening
    end in
  {| started_session_id := uuid4;
     opening_message := opening;
     started_conversation_type := conversation_type;
     started_theme := theme;
     started_user_id := user_id;
     started_timestamp := now |}.

End ConversationAgent.

(* ================================================================== *)
(** ** insights_agent.py *)

Module InsightsAgent.

(** [round(x, digits)] in exact arithmetic: to the nearest multiple of
    [10^-digits], a tie going to the even one. *)
Definition round_half_even (q : Q) : Z :=
  let n := Qnum q in
  let d := Z.pos (Qden q) in
  let below := (n / d)%Z in
  match (2 * (n mod d) ?= d)%Z with
  | Lt => below
  | Gt => (below + 1)%Z
  | Eq => if Z.even below then below else (below + 1)%Z
  end.

Definition round_to (digits : nat) (q : Q) : Q :=
  let scale := inject_Z (10 ^ Z.of_nat digits) in
  inject_Z (round_half_even (q * scale)) / scale.

(** [np.argmax] and [np.argmin]: the index of the first largest
    (smallest) score. *)
Fixpoint argmax_from (best_idx : nat) (best : Q) (idx : nat) (xs : list Q) : nat :=
  match xs with
  | [] => best_idx
  | x :: rest =>
      if Qlt_le_dec best x then argmax_from idx x (S idx) rest
      else argmax_from best_idx best (S idx) rest
  end.
Definition argmax (xs : list Q) : nat :=
  match xs with [] => 0 | x :: rest => argmax_from 0 x 1 rest end.

Fixpoint argmin_from (best_idx : nat) (best : Q) (idx : nat) (xs : list Q) : nat :=
  match xs with
  | [] => best_idx
  | x :: rest =>
      if Qlt_le_dec x best then argmin_from idx x (S idx) rest
      else argmin_from best_idx best (S idx) rest
  end.
Definition argmin (xs : list Q) : nat :=
  match xs with [] => 0 | x :: rest => argmin_from 0 x 1 rest end.

(** [np.std(xs) ** 2]: the population variance. [np.std] itself is only
    compared with 2 and with 1, which in exact arithmetic is comparing
    this with 4 and 1. *)
Definition variance (xs : list Q) : Q :=
  let m := Py.mean xs in
  Py.mean (map (fun x => ((x - m) * (x - m))%Q) xs).

Definition volatility_of (xs : list Q) : string :=
  if Qlt_le_dec (4 # 1) (variance xs) then "high"
  else if Qlt_le_dec (1 # 1) (variance xs) then "medium"
  else "low".

(** A mood entry as the caller's [dict]; a missing key is [None]. *)
Record MoodEntry : Type := {
  mood_created_at : option string;
  mood_mood_score : option Q;
  mood_mood_label : option string;
  mood_energy_level : option Z;
  mood_stress_level : option Z
}.

(** An item of [mood_data]. *)
Record MoodDatum : Type := {
  date : option string;
  datum_mood_score : Q;
  datum_mood_label : string;
  datum_energy_level : Z;
  datum_stress_level : Z
}.

Definition mood_datum (entry : MoodEntry) : MoodDatum :=
  {| date := mood_created_at entry;
     datum_mood_score := default (5 # 1) (mood_mood_score entry);
     datum_mood_label := default "neutral" (mood_mood_label entry);
     datum_energy_level := default 5%Z (mood_energy_level entry);
     datum_stress_level := default 5%Z (mood_stress_level entry) |}.

(** The [dict] of mood insights. [best_day], [worst_day] and
    [mood_range] are [None] when the key is absent; a present
    [best_day] holds the entry's date, itself possibly [None]. *)
Record MoodInsights : Type := {
  average_mood : Q;
  mood_trend : string;
  mood_volatility : string;
  best_day : option (option string);
  worst_day : option (option string);
  mood_range : option (Q * Q);
  mood_total_entries : nat;
  mood_insights : json;
  key_changes : json
}.

Inductive MoodResult : Type :=
| MoodMessage (message : string)
| MoodReport (r : MoodInsights).

(** [InsightsAgent._fallback_mood_insights]. *)
Definition _fallback_mood_insights (mood_entries : list MoodEntry) : MoodResult :=
  match mood_entries with
  | [] => MoodMessage "No mood data available"
  | _ :: _ =>
      let mood_scores := map (fun e => default (5 # 1) (mood_mood_score e)) mood_entries in
      let avg_mood := Py.mean mood_scores in
      MoodReport
        {| average_mood := round_to 2 avg_mood;
           mood_trend := "stable";
           mood_volatility := "medium";
           best_day := None;
           worst_day := None;
           mood_range := None;
           mood_total_entries := length mood_entries;
           mood_insights := jstrs ["Basic mood analysis completed"];
           key_changes := JArr [] |}
  end.

(** A habit entry as the endpoint builds its [dict], with the four
    keys present, and one computed correlation. *)
Record HabitEntry : Type := {
  habit_name : string;
  habit_value : Q;
  habit_unit : string;
  habit_created_at : string
}.

Record Correlation : Type := {
  correlation : Q;
  impact : string
}.

Record HabitAnalysis : Type := {
  correlations : list (string * Correlation);
  positive_habits : list string;
  negative_habits : list string;
  habit_insights : json;
  recommendations : json
}.

Inductive HabitResult : Type :=
| HabitMessage (message : string)
| HabitFailure (message error : string)
| HabitReport (r : HabitAnalysis).

(** [habit_df['habit_name'].unique()]: the names in order of first
    appearance. *)
Fixpoint unique (names : list string) : list string :=
  match names with
  | [] => []
  | n :: rest => n :: filter (fun m => m <> n) (unique rest)
  end.

Definition impact_of (correlation : Q) : string :=
  if Qlt_le_dec (3 # 10) correlation then "positive"
  else if Qlt_le_dec correlation (- (3 # 10))%Q then "negative"
  else "neutral".

(** The [for habit_name in ...unique()] loop; [draw k] is what the
    [k]-th call of [np.random.uniform(-0.8, 0.8)] returns. *)
Fixpoint correlate (draw : nat -> Q) (k : nat) (n_mood : nat)
    (habit_entries : list HabitEntry) (names : list string)
  : list (string * Correlation) :=
  match names with
  | [] => []
  | name :: rest =>
      let habit_data := filter (fun h => habit_name h = name) habit_entries in
      if (1 <? length habit_data)%nat && (1 <? n_mood)%nat then
        (name, {| correlation := round_to 3 (draw k); impact := impact_of (draw k) |})
        :: correlate draw (S k) n_mood habit_entries rest
      else correlate draw k n_mood habit_entries rest
  end.

Definition habits_with (label : string) (cs : list (string * Correlation))
  : list string :=
  map fst (filter (fun hc => impact (snd hc) = label) cs).

(** An entry handed to [detect_patterns]. *)
Record JournalEntry : Type := {
  journal_themes : option (list string);
  journal_emotional_triggers : option (list string)
}.

(** The [dict] of detected patterns; [most_common_theme] and
    [most_common_trigger] are [None] when the key is absent. *)
Record Patterns : Type := {
  recurring_themes : Freq.counter;
  emotional_triggers : Freq.counter;
  most_common_theme : option (option string);
  most_common_trigger : option (option string);
  pattern_total_entries : nat;
  pattern_insights : json;
  positive_patterns : json;
  challenging_patterns : json
}.

Inductive PatternResult : Type :=
| PatternMessage (message : string)
| PatternReport (r : Patterns).

Definition journal_all_themes (journal_entries : list JournalEntry) : list string :=
  concat (map (fun e => default [] (journal_themes e)) journal_entries).
Definition journal_all_triggers (journal_entries : list JournalEntry) : list string :=
  concat (map (fun e => default [] (journal_emotional_triggers e)) journal_entries).

(** [InsightsAgent._fallback_pattern_analysis]. *)
Definition _fallback_pattern_analysis (journal_entries : list JournalEntry)
  : PatternResult :=
  match journal_entries with
  | [] => PatternMessage "No journal data available"
  | _ :: _ =>
      let theme_counts := Freq.count_items (journal_all_themes journal_entries) in
      PatternReport
        {| recurring_themes := Freq.top 5 theme_counts;
           emotional_triggers := [];
           most_common_theme := None;
           most_common_trigger := None;
           pattern_total_entries := length journal_entries;
           pattern_insights := jstrs ["Basic pattern analysis completed"];
           positive_patterns := JArr [];
           challenging_patterns := JArr [] |}
  end.

(** [InsightsAgent._fallback_weekly_summary_content]. *)
Definition _fallback_weekly_summary_content : json :=
  JObj [("overall_mood", JStr "neutral");
        ("key_achievements", jstrs ["Completed weekly reflection"]);
        ("areas_of_growth", jstrs ["Continue journaling and mood tracking"]);
        ("recommendations", jstrs ["Keep up the good work"]);
        ("next_week_focus", JStr "General wellness");
        ("encouragement", JStr "You're doing great! Keep reflecting and growing.")].

Record WeeklySummary : Type := {
  week_summary : json;
  summary_mood_insights : MoodResult;
  summary_habit_correlations : HabitResult;
  summary_pattern_analysis : PatternResult;
  generated_at : string
}.

Section WithModel.
(** [self.use_llm], the four chains, [json.loads], the random draws
    and the clock. *)
Variable use_llm : bool.
Variable trend_chain : list MoodDatum -> string -> outcome string.
Variable correlation_chain : list MoodEntry -> list HabitEntry -> outcome string.
Variable pattern_chain : list JournalEntry -> list MoodEntry -> outcome string.
Variable summary_chain : MoodResult -> HabitResult -> PatternResult -> outcome string.
Variable loads : string -> outcome json.
Variable draw : nat -> Q.
Variable now : string.

(** [InsightsAgent.generate_mood_insights]. *)
Definition generate_mood_insights (mood_entries : list MoodEntry)
    (time_period : string) : MoodResult :=
  match map mood_datum mood_entries with
  | [] => MoodMessage "No mood data available for analysis"
  | first :: rest =>
      let mood_data := first :: rest in
      let mood_scores := map datum_mood_score mood_data in
      let avg_mood := Py.mean mood_scores in
      let trend :=
        if (2 <=? length mood_scores)%nat then
          Py.trend_of (datum_mood_score first)
                      (List.last mood_scores (datum_mood_score first))
        else "stable" in
      let best_day_idx := argmax mood_scores in
      let worst_day_idx := argmin mood_scores in
      if use_llm then
        match
          result ← trend_chain mood_data time_period;
          llm_analysis ← loads result;
          insights ← Py.get llm_analysis "insights" (JArr []);
          changes ← Py.get llm_analysis "key_changes" (JArr []);
          Returned
            {| average_mood := round_to 2 avg_mood;
               mood_trend := trend;
               mood_volatility := volatility_of mood_scores;
               best_day := date <$> mood_data !! best_day_idx;
               worst_day := date <$> mood_data !! worst_day_idx;
               mood_range :=
                 Some (Py.qmin (datum_mood_score first) (map datum_mood_score rest),
                       Py.qmax (datum_mood_score first) (map datum_mood_score rest));
               mood_total_entries := length mood_entries;
               mood_insights := insights;
               key_changes := changes |}
        with
        | Returned r => MoodReport r
        | Raised _ => _fallback_mood_insights mood_entries
        end
      else _fallback_mood_insights mood_entries
  end.

(** [InsightsAgent.analyze_habit_correlations]. *)
Definition analyze_habit_correlations (mood_entries : list MoodEntry)
    (habit_entries : list HabitEntry) : HabitResult :=
  match mood_entries, habit_entries with
  | [], _ | _, [] => HabitMessage "Insufficient data for correlation analysis"
  | _ :: _, _ :: _ =>
      let correlations :=
        correlate draw 0 (length mood_entries) habit_entries
                  (unique (map habit_name habit_entries)) in
      if use_llm then
        match
          result ← correlation_chain (Py.first_n 10 mood_entries)
                                     (Py.first_n 10 habit_entries);
          llm_analysis ← loads result;
          insights ← Py.get llm_analysis "insights" (JArr []);
          recs ← Py.get llm_analysis "recommendations" (JArr []);
          Returned
            {| correlations := correlations;
               positive_habits := habits_with "positive" correlations;
               negative_habits := habits_with "negative" correlations;
               habit_insights := insights;
               recommendations := recs |}
        with
        | Returned r => HabitReport r
        | Raised e => HabitFailure "Unable to analyze habit correlations" e
        end
      else
        HabitReport
          {| correlations := correlations;
             positive_habits := habits_with "positive" correlations;
             negative_habits := habits_with "negative" correlations;
             habit_insights := jstrs ["Basic habit correlation analysis completed"];
             recommendations :=
               jstrs ["Continue tracking habits and mood to build patterns"] |}
  end.

(** [InsightsAgent.detect_patterns]. *)
Definition detect_patterns (journal_entries : list JournalEntry)
    (mood_entries : list MoodEntry) : PatternResult :=
  match journal_entries with
  | [] => PatternMessage "No journal data available for pattern analysis"
  | _ :: _ =>
      let theme_counts := Freq.count_items (journal_all_themes journal_entries) in
      let trigger_counts := Freq.count_items (journal_all_triggers journal_entries) in
      if use_llm then
        match
          result ← pattern_chain (Py.first_n 10 journal_entries)
                                 (Py.first_n 10 mood_entries);
          llm_analysis ← loads result;
          insights ← Py.get llm_analysis "insights" (JArr []);
          positive ← Py.get llm_analysis "positive_patterns" (JArr []);
          challenging ← Py.get llm_analysis "challenging_patterns" (JArr []);
          Returned
            {| recurring_themes := Freq.top 5 theme_counts;
               emotional_triggers := Freq.top 5 trigger_counts;
               most_common_theme := Some (fst <$> Freq.max_by_count theme_counts);
               most_common_trigger := Some (fst <$> Freq.max_by_count trigger_counts);
               pattern_total_entries := length journal_entries;
               pattern_insights := insights;
               positive_patterns := positive;
               challenging_patterns := challenging |}
        with
        | Returned r => PatternReport r
        | Raised _ => _fallback_pattern_analysis journal_entries
        end
      else _fallback_pattern_analysis journal_entries
  end.

(** [InsightsAgent.generate_weekly_summary]; both the [try] body and
    [_fallback_weekly_summary] build the same [dict] around the
    summary content. *)
Definition generate_weekly_summary (mood_insights : MoodResult)
    (habit_correlations : HabitResult) (pattern_analysis : PatternResult)
  : WeeklySummary :=
  let summary :=
    if use_llm then
      match
        result ← summary_chain mood_insights habit_correlations pattern_analysis;
        loads result
      with
      | Returned summary => summary
      | Raised _ => _fallback_weekly_summary_content
      end
    else _fallback_weekly_summary_content in
  {| week_summary := summary;
     summary_mood_insights := mood_insights;
     summary_habit_correlations := habit_correlations;
     summary_pattern_analysis := pattern_analysis;
     generated_at := now |}.

End WithModel.

End InsightsAgent.

(* ================================================================== *)
(** ** planner_agent.py *)

Module PlannerAgent.

(** One theme of a plan. *)
Record ThemeItem : Type := {
  theme : string;
  priority : Z;
  conversation_type : string;
  goals : list string;
  rationale : string
}.

(** A plan [dict]: its ["themes"] entry ([None] when the key is
    missing) and every other entry. *)
Record Plan : Type := {
  themes : option (list ThemeItem);
  fields : gmap string json
}.

(** An event of [recent_activity]; a missing key is [None]. *)
Record Activity : Type := {
  activity_type : option string;
  activity_theme : option string;
  activity_key_insights : option (list string)
}.

Definition is_type (kind : string) (activity : Activity) : bool :=
  match activity_type activity with
  | Some t => String.eqb t kind
  | None => false
  end.

(** [completed_themes] after the loop over [recent_activity]: the truthy
    themes of the conversation events, in order. *)
Definition completed_themes (recent_activity : list Activity) : list string :=
  concat (map (fun activity =>
                 if is_type "conversation" activity then
                   match activity_theme activity with
                   | Some t => if String.eqb t "" then [] else [t]
                   | None => []
                   end
                 else [])
              recent_activity).

(** [new_insights] after the loop: the [key_insights] of the journal
    events, concatenated. *)
Definition new_insights (recent_activity : list Activity) : list string :=
  concat (map (fun activity =>
                 if is_type "journal" activity then
                   default [] (activity_key_insights activity)
                 else [])
              recent_activity).

(** [x in xs] on a list of strings. *)
Definition mem (x : string) (xs : list string) : bool :=
  existsb (String.eqb x) xs.

Definition recent_insights_theme : ThemeItem :=
  {| theme := "recent insights";
     priority := 2;
     conversation_type := "socratic";
     goals := ["Explore recent insights"; "Deepen understanding"];
     rationale := "Based on recent journal insights" |}.

(** [PlannerAgent.adjust_plan_based_on_progress]; [now] is
    [datetime.utcnow().isoformat()]. *)
Definition adjust_plan_based_on_progress (now : string) (current_plan : Plan)
    (recent_activity : list Activity) : Plan :=
  let completed := completed_themes recent_activity in
  let kept :=
    filter (fun t => mem (theme t) completed = false)
           (default [] (themes current_plan)) in
  let adjusted_themes :=
    match new_insights recent_activity with
    | [] => kept
    | _ :: _ => kept ++ [recent_insights_theme]
    end in
  {| themes := Some adjusted_themes;
     fields := <["adjusted_at" := JStr now]> (fields current_plan) |}.

(** Entries handed to [create_weekly_plan]. *)
Record JournalEntry : Type := { journal_themes : option (list string) }.
Record MoodPoint : Type := { point_mood_score : option Q }.

Record PatternAnalysis : Type := {
  recurring_themes : Freq.counter;
  mood_trend : string;
  average_mood : Q;
  total_entries : nat;
  conversation_count : nat
}.

(** [PlannerAgent._analyze_patterns]; nothing in its [try] can raise on
    these inputs. *)
Definition _analyze_patterns (journal_entries : list JournalEntry)
    (mood_data : list MoodPoint) (conversation_count : nat) : PatternAnalysis :=
  let recent_entries := Py.last_n 10 journal_entries in
  let recent_moods := Py.last_n 7 mood_data in
  let all_themes := concat (map (fun e => default [] (journal_themes e)) recent_entries) in
  let mood_trends := map (fun m => default (5 # 1) (point_mood_score m)) recent_moods in
  let theme_counts := Freq.count_items all_themes in
  {| recurring_themes := Freq.top 5 theme_counts;
     mood_trend :=
       match mood_trends with
       | first :: _ :: _ => Py.trend_of first (List.last mood_trends first)
       | _ => "stable"
       end;
     average_mood :=
       match mood_trends with
       | [] => 5 # 1
       | _ :: _ => Py.mean mood_trends
       end;
     total_entries := length recent_entries;
     conversation_count := conversation_count |}.

Definition json_of_theme (t : ThemeItem) : json :=
  JObj [("theme", JStr (theme t));
        ("priority", JNum (inject_Z (priority t)));
        ("conversation_type", JStr (conversation_type t));
        ("goals", jstrs (goals t));
        ("rationale", JStr (rationale t))].

(** [PlannerAgent._fallback_theme_selection]. *)
Definition _fallback_theme_selection : json :=
  JObj [("selected_themes",
         jstrs ["personal growth"; "emotional awareness"; "relationships"]);
        ("reasoning", JStr "General wellness themes");
        ("urgency_level", JStr "medium")].

(** [PlannerAgent._fallback_weekly_plan]. *)
Definition _fallback_weekly_plan : json :=
  JObj [("weekly_themes",
         JArr [json_of_theme
                 {| theme := "personal growth";
                    priority := 1;
                    conversation_type := "general";
                    goals := ["Explore current challenges";
                              "Identify growth opportunities"];
                    rationale := "General wellness focus" |}]);
        ("overall_focus", JStr "Personal growth and reflection");
        ("expected_outcomes",
         jstrs ["Increased self-awareness"; "Better emotional understanding"])].

(** The [dict] [create_weekly_plan] returns. *)
Record WeeklyPlan : Type := {
  plan_user_id : Z;
  week_start : string;
  plan_themes : json;
  overall_focus : json;
  expected_outcomes : json;
  pattern_insights : PatternAnalysis;
  status : string;
  created_at : string
}.

(** [PlannerAgent._create_fallback_plan]. *)
Definition _create_fallback_plan (today now : string) (user_id : Z) : WeeklyPlan :=
  {| plan_user_id := user_id;
     week_start := today;
     plan_themes :=
       JArr [json_of_theme
               {| theme := "general wellness";
                  priority := 1;
                  conversation_type := "general";
                  goals := ["Check in on overall wellbeing";
                            "Explore current thoughts and feelings"];
                  rationale := "Basic wellness check" |}];
     overall_focus := JStr "General wellness and reflection";
     expected_outcomes := jstrs ["Better self-awareness"; "Emotional support"];
     pattern_insights :=
       {| recurring_themes := [];
          mood_trend := "stable";
          average_mood := 5 # 1;
          total_entries := 0;
          conversation_count := 0 |};
     status := "active";
     created_at := now |}.

Section WithModel.
(** [self.use_llm], the two chains, [json.loads] and the clock
    ([today] is midnight of [datetime.now()]). *)
Variable use_llm : bool.
Variable theme_selector : PatternAnalysis -> outcome string.
Variable weekly_planner : PatternAnalysis -> json -> outcome string.
Variable loads : string -> outcome json.
Variables today now : string.

(** [PlannerAgent._select_themes]. *)
Definition _select_themes (pattern_analysis : PatternAnalysis) : json :=
  match result ← theme_selector pattern_analysis; loads result with
  | Returned selection => selection
  | Raised _ => _fallback_theme_selection
  end.

(** [PlannerAgent._generate_weekly_plan]. *)
Definition _generate_weekly_plan (pattern_analysis : PatternAnalysis)
    (theme_selection : json) : json :=
  match
    selected ← Py.get theme_selection "selected_themes" (JArr []);
    result ← weekly_planner pattern_analysis selected;
    loads result
  with
  | Returned plan => plan
  | Raised _ => _fallback_weekly_plan
  end.

(** [PlannerAgent.create_weekly_plan]. *)
Definition create_weekly_plan (user_id : Z) (journal_entries : list JournalEntry)
    (mood_data : list MoodPoint) (conversation_count : nat) : WeeklyPlan :=
  let pattern_analysis :=
    _analyze_patterns journal_entries mood_data conversation_count in
  let weekly_plan :=
    if use_llm then
      _generate_weekly_plan pattern_analysis (_select_themes pattern_analysis)
    else _fallback_weekly_plan in
  match
    plan_themes ← Py.get weekly_plan "weekly_themes" (JArr []);
    focus ← Py.get weekly_plan "overall_focus" (JStr "Personal growth and reflection");
    outcomes ← Py.get weekly_plan "expected_outcomes" (JArr []);
    Returned
      {| plan_user_id := user_id;
         week_start := today;
         plan_themes := plan_themes;
         overall_focus := focus;
         expected_outcomes := outcomes;
         pattern_insights := pattern_analysis;
         status := "active";
         created_at := now |}
  with
  | Returned plan => plan
  | Raised _ => _create_fallback_plan today now user_id
  end.

End WithModel.

End PlannerAgent.

(* ================================================================== *)
(** ** Vocabulary of the specification *)

Module Spec.

(** [ws'] is [ws] with words of the fixed positive list put in, at any
    places, and nothing taken out. *)
Inductive adds_positive_words : list string -> list string -> Prop :=
| apw_nil : adds_positive_words [] []
| apw_keep w ws ws' :
    adds_positive_words ws ws' -> adds_positive_words (w :: ws) (w :: ws')
| apw_add p ws ws' :
    In p JournalAgent.positive_words ->
    adds_positive_words ws ws' -> adds_positive_words ws (p :: ws').

(** [c'] extends the text [c] by positive words: both are words joined
    by single blanks, and the words of [c'] are those of [c] with
    positive words added. *)
Definition extends_by_positive_words (c c' : string) : Prop :=
  exists ws ws',
    c = PyStr.unwords ws /\ c' = PyStr.unwords ws' /\ adds_positive_words ws ws'.

(** The journal text of the specification's fallback scenario. *)
Definition anxious_entry : string :=
  "I feel anxious about my job and my family relationship".

(** Two lists hold the same elements. *)
Definition same_set (xs ys : list string) : Prop :=
  forall x, In x xs <-> In x ys.

(** The occurrences of [w] in [text]: the places of [text] at which
    [w] starts. *)
Fixpoint occurrences (w text : string) : nat :=
  (if String.prefix w text then 1 else 0) +
  match text with
  | EmptyString => 0
  | String _ rest => occurrences w rest
  end.

(** The occurrences in [text] of the words of a list, all together. *)
Definition occurrence_count (words : list string) (text : string) : nat :=
  list_sum (map (fun w => occurrences w text) words).

(** The mood of an analysis is decided by the majority of occurrences:
    7.0 and ["positive"] when the positive words occur more often than
    the negative ones, 3.0 and ["negative"] when the negative words
    occur more often, 5.0 and ["neutral"] on a tie. *)
Definition mood_by_occurrences (content : string) (a : JournalAgent.Analysis)
  : Prop :=
  let p := occurrence_count JournalAgent.positive_words content in
  let n := occurrence_count JournalAgent.negative_words content in
  (n < p -> (JournalAgent.mood_score a == 7 # 1)%Q
            /\ JournalAgent.mood_label a = "positive")
  /\ (p < n -> (JournalAgent.mood_score a == 3 # 1)%Q
               /\ JournalAgent.mood_label a = "negative")
  /\ (p = n -> (JournalAgent.mood_score a == 5 # 1)%Q
               /\ JournalAgent.mood_label a = "neutral").

(** [w] occurs in [text]: some part of [text] reads [w]. *)
Definition occurs (w text : string) : Prop :=
  exists pre post, text = pre +:+ w +:+ post.

(** [found] lists, each once, the words of [words] that occur in
    [text]. *)
Definition found_words (words found : list string) (text : string) : Prop :=
  NoDup found /\ forall w, In w found <-> In w words /\ occurs w text.

End Spec.

(* ================================================================== *)
(** ** api/conversation.py *)

Module ConversationApi.

(** A row of [conversations]; [id] is the primary key. *)
Record Row : Type := {
  id : Z;
  user_id : Z;
  session_id : string;
  message : string;
  response : string;
  conversation_type : string;
  theme : option string;
  created_at : Z
}.

#[global] Instance row_eq_dec : EqDecision Row.
Proof. solve_decision. Defined.

(** [order_by(ConversationModel.created_at.desc())]. *)
Fixpoint insert_newest_first (r : Row) (rows : list Row) : list Row :=
  match rows with
  | [] => [r]
  | r' :: rest =>
      if (created_at r' <=? created_at r)%Z then r :: r' :: rest
      else r' :: insert_newest_first r rest
  end.

Definition order_by_created_at_desc (rows : list Row) : list Row :=
  fold_right insert_newest_first [] rows.

(** The [history_data.append({...})] loop of [get_conversation_suggestions]:
    the [dict] has the keys [type], [theme], [conversation_type] and
    [created_at], and none of the keys the agent reads. *)
Definition history_entry_of_row (r : Row) : ConversationAgent.HistoryEntry :=
  {| ConversationAgent.history_themes := None;
     ConversationAgent.history_mood_label := None;
     ConversationAgent.history_growth_areas := None |}.

Record Suggestions : Type := {
  suggestions : list string;
  total_conversations : nat
}.

(** [get_conversation_suggestions]. *)
Definition get_conversation_suggestions (current_user : Z) (db : list Row)
  : Suggestions :=
  let recent_entries :=
    Py.first_n 10
      (order_by_created_at_desc (filter (fun r => user_id r = current_user) db)) in
  {| suggestions :=
       ConversationAgent.suggest_conversation_topics
         (map history_entry_of_row recent_entries);
     total_conversations := length recent_entries |}.

(** An item of [active_sessions]. *)
Record SessionInfo : Type := {
  info_session_id : string;
  last_message : string;
  last_response : string;
  info_conversation_type : string;
  info_theme : option string;
  last_updated : Z
}.

(** [db.query(ConversationModel.session_id).filter(user_id == ...).distinct()]:
    the session ids of the user's rows, each once. *)
Fixpoint distinct (ids : list string) : list string :=
  match ids with
  | [] => []
  | s :: rest => s :: filter (fun s' => s' <> s) (distinct rest)
  end.

(** The [latest] query of [get_active_sessions]: the newest row of the
    session; the filter names the session only. *)
Definition latest_of_session (sid : string) (db : list Row) : option Row :=
  head (order_by_created_at_desc (filter (fun r => session_id r = sid) db)).

(** [get_active_sessions]. *)
Definition get_active_sessions (current_user : Z) (db : list Row)
  : list SessionInfo :=
  let sessions :=
    distinct (map session_id (filter (fun r => user_id r = current_user) db)) in
  concat
    (map (fun sid =>
            match latest_of_session sid db with
            | Some latest =>
                [{| info_session_id := sid;
                    last_message := message latest;
                    last_response := response latest;
                    info_conversation_type := conversation_type latest;
                    info_theme := theme latest;
                    last_updated := created_at latest |}]
            | None => []
            end)
         sessions).

(** [get_conversation_history] for non-negative [skip] and [limit];
    a [session_id] that is [None] or empty does not filter. *)
Definition get_conversation_history (session : option string) (skip limit : nat)
    (current_user : Z) (db : list Row) : list Row :=
  let query := filter (fun r => user_id r = current_user) db in
  let query :=
    match session with
    | Some sid =>
        if String.eqb sid "" then query
        else filter (fun r => session_id r = sid) query
    | None => query
    end in
  take limit (drop skip (order_by_created_at_desc query)).

End ConversationApi.

(* ================================================================== *)
(** ** api/journal.py: reading and deleting one entry *)

Module JournalCrud.

(** The table [journal_entries] by primary key. *)
Abbreviation table := (gmap Z JournalApi.Row).

(** A handler's answer: the value returned, or the [HTTPException]
    raised. *)
Inductive http (A : Type) : Type :=
| Ok (a : A)
| HttpError (status_code : Z) (detail : string).
Arguments Ok {A} a.
Arguments HttpError {A} status_code detail.

(** [db.query(JournalEntry).filter(JournalEntry.id == entry_id,
    JournalEntry.user_id == current_user.id).first()]. *)
Definition find_entry (entry_id current_user : Z) (db : table)
  : option JournalApi.Row :=
  match db !! entry_id with
  | Some entry =>
      if decide (JournalApi.user_id entry = current_user) then Some entry else None
  | None => None
  end.

(** [get_journal_entry]. *)
Definition get_journal_entry (entry_id current_user : Z) (db : table)
  : http JournalApi.Row :=
  match find_entry entry_id current_user db with
  | Some entry => Ok entry
  | None => HttpError 404 "Journal entry not found"
  end.

(** [delete_journal_entry]: the answer and the table afterwards. *)
Definition delete_journal_entry (entry_id current_user : Z) (db : table)
  : http string * table :=
  match find_entry entry_id current_user db with
  | Some _ => (Ok "Journal entry deleted successfully", delete entry_id db)
  | None => (HttpError 404 "Journal entry not found", db)
  end.

End JournalCrud.

(* ================================================================== *)
(** ** api/insights.py: the pattern endpoint *)

Module InsightsApi.

(** A row of [journal_entries] as this endpoint reads it: the two text
    columns are passed on as they are stored, [None] for NULL. *)
Record JournalRow : Type := {
  user_id : Z;
  content : string;
  themes : option string;
  emotional_triggers : option string;
  created_at : Z
}.

(** A row of [mood_entries] as [create_mood_entry] writes it: the
    schema requires the score, the label and both levels. *)
Record MoodRow : Type := {
  mood_user_id : Z;
  mood_score : Q;
  mood_label : string;
  energy_level : Z;
  stress_level : Z;
  mood_created_at : Z
}.

(** Iterating a [str], as [list.extend] does: its characters, each a
    string of length one. *)
Fixpoint chars (s : string) : list string :=
  match s with
  | EmptyString => []
  | String c rest => String c "" :: chars rest
  end.

(** The [dict] built for a journal row, as [detect_patterns] sees it
    when both text columns hold a string. *)
Definition journal_entry_of (themes_text triggers_text : string)
  : InsightsAgent.JournalEntry :=
  {| InsightsAgent.journal_themes := Some (chars themes_text);
     InsightsAgent.journal_emotional_triggers := Some (chars triggers_text) |}.

Definition mood_entry_of (isoformat : Z -> string) (r : MoodRow)
  : InsightsAgent.MoodEntry :=
  {| InsightsAgent.mood_created_at := Some (isoformat (mood_created_at r));
     InsightsAgent.mood_mood_score := Some (mood_score r);
     InsightsAgent.mood_mood_label := Some (mood_label r);
     InsightsAgent.mood_energy_level := Some (energy_level r);
     InsightsAgent.mood_stress_level := Some (stress_level r) |}.

Record PatternResponse : Type := {
  patterns : InsightsAgent.PatternResult;
  total_journal_entries : nat;
  total_mood_entries : nat
}.

Inductive http (A : Type) : Type :=
| Ok (a : A)
| HttpError (status_code : Z) (detail : string).
Arguments Ok {A} a.
Arguments HttpError {A} status_code detail.

Section WithModel.
Variable use_llm : bool.
Variable pattern_chain :
  list InsightsAgent.JournalEntry -> list InsightsAgent.MoodEntry -> outcome string.
Variable loads : string -> outcome json.
Variable isoformat : Z -> string.

(** [insights_agent.detect_patterns(journal_data, mood_data)] on the
    [dict]s this endpoint builds. A NULL themes or triggers column makes
    [extend(None)] raise inside the agent's [try], which sends it to the
    fallback; the fallback extends by the themes only, and a NULL themes
    column makes it raise again, out of the agent. *)
Definition detect_patterns_of_rows (journal_rows : list JournalRow)
    (mood_entries : list InsightsAgent.MoodEntry)
  : outcome InsightsAgent.PatternResult :=
  match journal_rows with
  | [] => Returned (InsightsAgent.detect_patterns use_llm pattern_chain loads []
                      mood_entries)
  | _ :: _ =>
      if forallb (fun r => bool_decide (is_Some (themes r))) journal_rows then
        let journal_data :=
          map (fun r => journal_entry_of (default "" (themes r))
                          (default "" (emotional_triggers r))) journal_rows in
        if forallb (fun r => bool_decide (is_Some (emotional_triggers r)))
                   journal_rows
        then Returned (InsightsAgent.detect_patterns use_llm pattern_chain loads
                         journal_data mood_entries)
        else Returned (InsightsAgent._fallback_pattern_analysis journal_data)
      else Raised "'NoneType' object is not iterable"
  end.

(** [get_pattern_analysis]: [now] is [datetime.utcnow()], [month] the
    length of [timedelta(days=30)]. *)
Definition get_pattern_analysis (now month : Z) (current_user : Z)
    (journal_db : list JournalRow) (mood_db : list MoodRow)
  : http PatternResponse :=
  let start_date := (now - month)%Z in
  let journal_entries :=
    filter (fun r => user_id r = current_user /\ (start_date <= created_at r)%Z)
           journal_db in
  let mood_entries :=
    filter (fun r => mood_user_id r = current_user
                     /\ (start_date <= mood_created_at r)%Z) mood_db in
  match detect_patterns_of_rows journal_entries
          (map (mood_entry_of isoformat) mood_entries) with
  | Returned patterns =>
      Ok {| patterns := patterns;
            total_journal_entries := length journal_entries;
            total_mood_entries := length mood_entries |}
  | Raised e =>
      HttpError 500 ("Error getting pattern analysis: " +:+ e)
  end.

Variable trend_chain : list InsightsAgent.MoodDatum -> string -> outcome string.

(** [order_by(MoodEntry.created_at.desc())]. *)
Fixpoint insert_newest_first (r : MoodRow) (rows : list MoodRow) : list MoodRow :=
  match rows with
  | [] => [r]
  | r' :: rest =>
      if (mood_created_at r' <=? mood_created_at r)%Z then r :: r' :: rest
      else r' :: insert_newest_first r rest
  end.

Definition order_by_created_at_desc (rows : list MoodRow) : list MoodRow :=
  fold_right insert_newest_first [] rows.

Record MoodResponse : Type := {
  insights : InsightsAgent.MoodResult;
  total_entries : nat;
  period : string
}.

(** [get_mood_insights]: [day] is the length of [timedelta(days=1)];
    every period other than ["month"] is a week. *)
Definition get_mood_insights (now day : Z) (time_period : string)
    (current_user : Z) (mood_db : list MoodRow) : MoodResponse :=
  let days :=
    if String.eqb time_period "week" then 7%Z
    else if String.eqb time_period "month" then 30%Z
    else 7%Z in
  let start_date := (now - days * day)%Z in
  let mood_entries :=
    order_by_created_at_desc
      (filter (fun r => mood_user_id r = current_user
                        /\ (start_date <= mood_created_at r)%Z) mood_db) in
  {| insights :=
       InsightsAgent.generate_mood_insights use_llm trend_chain loads
         (map (mood_entry_of isoformat) mood_entries) time_period;
     total_entries := length mood_entries;
     period := time_period |}.

End WithModel.

End InsightsApi.


(* ================================================================== *)
(** * Properties *)

(** ** Strings *)

Lemma prefix_empty (s : string) : String.prefix "" s = true.
Proof. destruct s; reflexivity. Qed.

Lemma prefix_of_empty (w : string) : w <> "" -> String.prefix w "" = false.
Proof. destruct w; [congruence | reflexivity]. Qed.

Lemma prefix_cons (c d : ascii) (w s : string) :
  String.prefix (String c w) (String d s)
  = (if Ascii.ascii_dec c d then String.prefix w s else false).
Proof. reflexivity. Qed.

(** A word without blanks is a prefix of [a ++ " " ++ b] only through [a]. *)
Lemma prefix_sep (w a b : string) :
  PyStr.space_free w = true ->
  String.prefix w (a +:+ " " +:+ b) = String.prefix w a.
Proof.
  revert a. induction w as [|c w IH]; intros a Hw.
  - now rewrite !prefix_empty.
  - simpl in Hw. apply andb_true_iff in Hw as [Hc Hw].
    destruct a as [|d a]; simpl.
    + destruct (Ascii.ascii_dec c " ") as [->|]; [discriminate | reflexivity].
    + destruct (Ascii.ascii_dec c d); [apply IH, Hw | reflexivity].
Qed.

Lemma str_in_empty (w : string) : w <> "" -> PyStr.str_in w "" = false.
Proof. destruct w; [congruence | reflexivity]. Qed.

Lemma str_in_empty_word (s : string) : PyStr.str_in "" s = true.
Proof. destruct s; reflexivity. Qed.

(** Occurrences of a word without blanks do not span a blank. *)
Lemma str_in_sep (w a b : string) :
  PyStr.space_free w = true ->
  PyStr.str_in w (a +:+ " " +:+ b) = PyStr.str_in w a || PyStr.str_in w b.
Proof.
  intros Hw. induction a as [|d a IH].
  - destruct w as [|c w].
    + now rewrite !str_in_empty_word.
    + change ("" +:+ " " +:+ b) with (String " " b).
      cbn [PyStr.str_in]. rewrite prefix_cons.
      simpl in Hw. apply andb_true_iff in Hw as [Hc _].
      destruct (Ascii.ascii_dec c " ") as [->|]; [discriminate|].
      now rewrite prefix_of_empty.
  - change (String d a +:+ " " +:+ b) with (String d (a +:+ " " +:+ b)).
    cbn [PyStr.str_in]. rewrite IH.
    change (String d (a +:+ " " +:+ b)) with (String d a +:+ " " +:+ b).
    rewrite (prefix_sep _ _ _ Hw). now rewrite !orb_assoc.
Qed.

Lemma str_in_unwords (w : string) (ws : list string) :
  PyStr.space_free w = true -> w <> "" ->
  PyStr.str_in w (PyStr.unwords ws) = existsb (PyStr.str_in w) ws.
Proof.
  intros Hw Hne. induction ws as [|t [|t' ws] IH].
  - now apply str_in_empty.
  - simpl. now rewrite orb_false_r.
  - change (PyStr.unwords (t :: t' :: ws))
      with (t +:+ " " +:+ PyStr.unwords (t' :: ws)).
    rewrite str_in_sep by assumption. now rewrite IH.
Qed.

Lemma lower_app (a b : string) :
  PyStr.lower (a +:+ b) = PyStr.lower a +:+ PyStr.lower b.
Proof. induction a as [|c a IH]; simpl; [reflexivity | now rewrite IH]. Qed.

Lemma lower_unwords (ws : list string) :
  PyStr.lower (PyStr.unwords ws) = PyStr.unwords (map PyStr.lower ws).
Proof.
  induction ws as [|t [|t' ws] IH]; [reflexivity | reflexivity |].
  change (PyStr.unwords (t :: t' :: ws))
    with (t +:+ " " +:+ PyStr.unwords (t' :: ws)).
  rewrite !lower_app, IH. reflexivity.
Qed.

Lemma append_cons (c : ascii) (a b : string) :
  String c a +:+ b = String c (a +:+ b).
Proof. reflexivity. Qed.

Lemma append_empty (b : string) : "" +:+ b = b.
Proof. reflexivity. Qed.

(** [str_in] is the substring test. *)
Lemma prefix_spec (w s : string) :
  String.prefix w s = true <-> exists post, s = w +:+ post.
Proof.
  revert s. induction w as [|c w IH]; intros s.
  - rewrite prefix_empty. split; [exists s; reflexivity | reflexivity].
  - destruct s as [|d s].
    + split; [discriminate | intros [post H]; discriminate].
    + rewrite prefix_cons. destruct (Ascii.ascii_dec c d) as [->|Hne].
      * rewrite IH. split; intros [post H]; exists post;
          rewrite append_cons in *; congruence.
      * split; [discriminate | intros [post H]; rewrite append_cons in H; congruence].
Qed.

Lemma str_in_spec (w s : string) :
  PyStr.str_in w s = true <-> exists pre post, s = pre +:+ w +:+ post.
Proof.
  induction s as [|d s IH]; cbn [PyStr.str_in].
  - rewrite orb_false_r, prefix_spec. split.
    + intros [post H]. exists "", post. exact H.
    + intros [[|c pre] [post H]]; [exists post; exact H | discriminate].
  - rewrite orb_true_iff, prefix_spec, IH. split.
    + intros [[post H] | (pre & post & H)].
      * exists "", post. exact H.
      * exists (String d pre), post. rewrite append_cons. now rewrite H.
    + intros ([|c pre] & post & H).
      * left. exists post. exact H.
      * right. exists pre, post. rewrite append_cons in H. congruence.
Qed.

Lemma count_in_le (words : list string) (s s' : string) :
  (forall w, In w words -> PyStr.str_in w s = true -> PyStr.str_in w s' = true) ->
  PyStr.count_in words s <= PyStr.count_in words s'.
Proof.
  unfold PyStr.count_in. induction words as [|w words IH]; intros H; [reflexivity|].
  rewrite !filter_cons.
  assert (Hw := H w (or_introl eq_refl)).
  assert (IH' := IH (fun v Hv => H v (or_intror Hv))).
  destruct (decide (PyStr.str_in w s = true)) as [Hs|Hs].
  - rewrite decide_True by auto. simpl. lia.
  - destruct (decide (PyStr.str_in w s' = true)); simpl; lia.
Qed.

Lemma count_in_eq (words : list string) (s s' : string) :
  (forall w, In w words -> PyStr.str_in w s = PyStr.str_in w s') ->
  PyStr.count_in words s = PyStr.count_in words s'.
Proof.
  intros H. apply Nat.le_antisymm; apply count_in_le; intros w Hw;
    rewrite (H w Hw); auto.
Qed.

(* ------------------------------------------------------------------ *)
(** ** Fallback journal analysis *)

(** C2, as stated, does not hold: on the scenario text the fallback does
    not return themes [{work, relationships, stress}] with label
    ["neutral"] and score 5.0. The text contains ["anxious"], a word of
    the negative list, and none of ["stress"], ["anxiety"], ["worry"],
    ["fear"]. *)
Lemma fallback_scenario_not_neutral :
  ~ (Spec.same_set
       (JournalAgent.themes (JournalAgent._fallback_analysis Spec.anxious_entry))
       ["work"; "relationships"; "stress"]
     /\ JournalAgent.mood_label (JournalAgent._fallback_analysis Spec.anxious_entry)
        = "neutral"
     /\ (JournalAgent.mood_score (JournalAgent._fallback_analysis Spec.anxious_entry)
         == 5 # 1)%Q).
Proof.
  intros (_ & Hlabel & _). vm_compute in Hlabel. discriminate.
Qed.

(** C2, amended: on the scenario text the fallback returns the themes
    [work] and [relationships] (and not [stress]), label ["negative"] and
    score 3.0, one negative word and no positive word being present. *)
Theorem fallback_scenario_negative :
  JournalAgent.themes (JournalAgent._fallback_analysis Spec.anxious_entry)
  = ["work"; "relationships"]
  /\ JournalAgent.mood_label (JournalAgent._fallback_analysis Spec.anxious_entry)
     = "negative"
  /\ JournalAgent.mood_score (JournalAgent._fallback_analysis Spec.anxious_entry)
     = 3 # 1
  /\ JournalAgent.positive_count Spec.anxious_entry = 0
  /\ JournalAgent.negative_count Spec.anxious_entry = 1.
Proof. vm_compute. repeat split. Qed.

(** The [if]/[elif]/[else] of the fallback on its two counts. *)
Lemma fallback_mood_cases (content : string) :
  let a := JournalAgent._fallback_analysis content in
  let p := JournalAgent.positive_count content in
  let n := JournalAgent.negative_count content in
  (n < p /\ JournalAgent.mood_score a = 7 # 1 /\ JournalAgent.mood_label a = "positive")
  \/ (p < n /\ JournalAgent.mood_score a = 3 # 1 /\ JournalAgent.mood_label a = "negative")
  \/ (p = n /\ JournalAgent.mood_score a = 5 # 1 /\ JournalAgent.mood_label a = "neutral").
Proof.
  cbv zeta. unfold JournalAgent._fallback_analysis, JournalAgent.fallback_mood.
  cbn [JournalAgent.mood_score JournalAgent.mood_label].
  destruct (Nat.ltb_spec (JournalAgent.negative_count content)
                         (JournalAgent.positive_count content)) as [H1|H1].
  - left. auto.
  - destruct (Nat.ltb_spec (JournalAgent.positive_count content)
                           (JournalAgent.negative_count content)) as [H2|H2].
    + right; left. auto.
    + right; right. repeat split. lia.
Qed.

(** The words of a list that the fallback finds in a text are the
    words of the list that occur in it, each once. *)
Lemma count_in_found_words (words : list string) (text : string) :
  NoDup words ->
  exists found,
    Spec.found_words words found text /\ length found = PyStr.count_in words text.
Proof.
  intros Hnd.
  exists (filter (fun w => PyStr.str_in w text = true) words).
  split; [split|reflexivity].
  - apply NoDup_filter, Hnd.
  - intros w. rewrite <- list_elem_of_In, list_elem_of_filter, list_elem_of_In.
    unfold Spec.occurs. rewrite <- str_in_spec. tauto.
Qed.

(** C3, as stated, does not hold: the fallback does not count
    occurrences. In ["sad sad sad happy"] the negative words occur three
    times and the positive words once, yet the fallback answers 5.0 and
    ["neutral"], since one word of each list is present. *)
Lemma fallback_does_not_count_occurrences :
  Spec.occurrence_count JournalAgent.negative_words "sad sad sad happy" = 3
  /\ Spec.occurrence_count JournalAgent.positive_words "sad sad sad happy" = 1
  /\ ~ Spec.mood_by_occurrences "sad sad sad happy"
        (JournalAgent._fallback_analysis "sad sad sad happy").
Proof.
  split; [reflexivity|]. split; [reflexivity|].
  intros (_ & Hneg & _).
  assert (Hlt : 1 < 3) by lia.
  destruct (Hneg Hlt) as [_ Hlabel]. vm_compute in Hlabel. discriminate.
Qed.

(** C3, amended: the fallback mood is decided by how many words of each
    list occur in the lower-cased text, a word counting once however
    often it occurs: more positive than negative words present gives 7.0
    and ["positive"], more negative than positive gives 3.0 and
    ["negative"], equally many gives 5.0 and ["neutral"]. *)
Theorem fallback_mood_by_words_present (content : string) :
  exists pos neg,
    Spec.found_words JournalAgent.positive_words pos (PyStr.lower content)
    /\ Spec.found_words JournalAgent.negative_words neg (PyStr.lower content)
    /\ let a := JournalAgent._fallback_analysis content in
       (length neg < length pos
        /\ JournalAgent.mood_score a = 7 # 1 /\ JournalAgent.mood_label a = "positive")
       \/ (length pos < length neg
           /\ JournalAgent.mood_score a = 3 # 1 /\ JournalAgent.mood_label a = "negative")
       \/ (length pos = length neg
           /\ JournalAgent.mood_score a = 5 # 1 /\ JournalAgent.mood_label a = "neutral").
Proof.
  destruct (count_in_found_words JournalAgent.positive_words (PyStr.lower content))
    as (pos & Hpos & Lpos).
  { apply (bool_decide_unpack _). vm_compute. reflexivity. }
  destruct (count_in_found_words JournalAgent.negative_words (PyStr.lower content))
    as (neg & Hneg & Lneg).
  { apply (bool_decide_unpack _). vm_compute. reflexivity. }
  exists pos, neg. split; [exact Hpos|]. split; [exact Hneg|].
  cbv zeta. rewrite Lpos, Lneg. apply fallback_mood_cases.
Qed.

(** The fallback score as a function of the two counts is monotone in the
    positive count. *)
Lemma fallback_score_mono (content content' : string) :
  JournalAgent.negative_count content' = JournalAgent.negative_count content ->
  JournalAgent.positive_count content <= JournalAgent.positive_count content' ->
  (JournalAgent.mood_score (JournalAgent._fallback_analysis content)
   <= JournalAgent.mood_score (JournalAgent._fallback_analysis content'))%Q.
Proof.
  intros Hn Hp.
  unfold JournalAgent._fallback_analysis, JournalAgent.fallback_mood.
  cbn [JournalAgent.mood_score]. rewrite Hn.
  repeat match goal with
         | |- context [(?a <? ?b)%nat] => destruct (Nat.ltb_spec a b)
         end; cbn [fst]; try lia; unfold Qle; simpl; lia.
Qed.

(** No word of the positive list contains a word of the negative list,
    and the positive words are lower-case. *)
Lemma positive_words_clean (w p : string) :
  In w JournalAgent.negative_words -> In p JournalAgent.positive_words ->
  PyStr.str_in w (PyStr.lower p) = false.
Proof.
  intros Hw Hp.
  assert (H : forallb (fun w => forallb (fun p => negb (PyStr.str_in w (PyStr.lower p)))
                                        JournalAgent.positive_words)
                      JournalAgent.negative_words = true) by (vm_compute; reflexivity).
  rewrite forallb_forall in H. specialize (H w Hw).
  rewrite forallb_forall in H. specialize (H p Hp).
  now apply negb_true_iff in H.
Qed.

Lemma mood_words_plain (w : string) :
  In w (JournalAgent.positive_words ++ JournalAgent.negative_words) ->
  PyStr.space_free w = true /\ w <> "".
Proof.
  intros Hw.
  assert (H : forallb (fun w => PyStr.space_free w && negb (String.eqb w ""))
                      (JournalAgent.positive_words ++ JournalAgent.negative_words)
              = true) by (vm_compute; reflexivity).
  rewrite forallb_forall in H. specialize (H w Hw).
  apply andb_true_iff in H as [H1 H2]. split; [exact H1|].
  intros ->. discriminate.
Qed.

(** Adding positive words keeps every word that was found, and finds no
    new negative word. *)
Lemma adds_positive_words_found (w : string) (ws ws' : list string) :
  Spec.adds_positive_words ws ws' ->
  (existsb (PyStr.str_in w) (map PyStr.lower ws) = true ->
   existsb (PyStr.str_in w) (map PyStr.lower ws') = true)
  /\ (In w JournalAgent.negative_words ->
      existsb (PyStr.str_in w) (map PyStr.lower ws')
      = existsb (PyStr.str_in w) (map PyStr.lower ws)).
Proof.
  induction 1 as [|t ws ws' _ [IH1 IH2]|p ws ws' Hp _ [IH1 IH2]]; simpl.
  - auto.
  - split.
    + rewrite !orb_true_iff. intros [H|H]; auto.
    + intros Hw. now rewrite IH2.
  - split.
    + intros H. rewrite orb_true_iff. auto.
    + intros Hw. rewrite (positive_words_clean w p Hw Hp). now apply IH2.
Qed.

(** C4: if [c'] is [c] with words of the positive list added between its
    words and nothing removed, the fallback mood score of [c'] is at
    least that of [c]. *)
Theorem fallback_score_monotone (c c' : string) :
  Spec.extends_by_positive_words c c' ->
  (JournalAgent.mood_score (JournalAgent._fallback_analysis c)
   <= JournalAgent.mood_score (JournalAgent._fallback_analysis c'))%Q.
Proof.
  intros (ws & ws' & -> & -> & Hadd).
  apply fallback_score_mono.
  - unfold JournalAgent.negative_count. apply count_in_eq. intros w Hw.
    destruct (mood_words_plain w) as [Hsf Hne]; [apply in_or_app; now right|].
    rewrite !lower_unwords, !str_in_unwords by assumption.
    now apply (adds_positive_words_found w ws ws' Hadd).
  - unfold JournalAgent.positive_count. apply count_in_le. intros w Hw.
    destruct (mood_words_plain w) as [Hsf Hne]; [apply in_or_app; now left|].
    rewrite !lower_unwords, !str_in_unwords by assumption.
    now apply (adds_positive_words_found w ws ws' Hadd).
Qed.

(** C4 at work: ["sad day"] scores 3.0, ["sad happy day"] scores 5.0. *)
Lemma fallback_score_monotone_witness :
  Spec.extends_by_positive_words "sad day" "sad happy day"
  /\ (JournalAgent.mood_score (JournalAgent._fallback_analysis "sad day")
      <= JournalAgent.mood_score (JournalAgent._fallback_analysis "sad happy day"))%Q.
Proof.
  assert (H : Spec.extends_by_positive_words "sad day" "sad happy day").
  { exists ["sad"; "day"], ["sad"; "happy"; "day"].
    split; [reflexivity|]. split; [reflexivity|].
    apply Spec.apw_keep, Spec.apw_add; [simpl; tauto|].
    apply Spec.apw_keep, Spec.apw_nil. }
  split; [exact H | exact (fallback_score_monotone _ _ H)].
Defined.

(* ------------------------------------------------------------------ *)
(** ** Frequency tables *)

Section FreqFacts.
Import Freq.

Implicit Types (x y : string) (xs ys : list string) (items : counter).

(** *** Positions of first occurrences *)

Lemma index_of_lt x xs i : index_of x xs = Some i -> i < length xs.
Proof.
  revert i. induction xs as [|y xs IH]; intros i; simpl; [discriminate|].
  destruct (String.eqb y x).
  - intros [= <-]. lia.
  - destruct (index_of x xs) as [k|]; simpl; [|discriminate].
    intros [= <-]. specialize (IH k eq_refl). lia.
Qed.

Lemma index_of_In x xs : In x xs <-> is_Some (index_of x xs).
Proof.
  induction xs as [|y xs IH]; simpl.
  - split; [tauto | intros [? [=]]].
  - destruct (String.eqb_spec y x) as [->|Hne].
    + split; eauto.
    + rewrite fmap_is_Some, <- IH. intuition congruence.
Qed.

Lemma index_of_app_l x xs ys i :
  index_of x xs = Some i -> index_of x (xs ++ ys) = Some i.
Proof.
  revert i. induction xs as [|y xs IH]; intros i; simpl; [discriminate|].
  destruct (String.eqb y x); [auto|].
  destruct (index_of x xs) as [k|]; simpl; [|discriminate].
  intros [= <-]. now rewrite (IH k eq_refl).
Qed.

Lemma index_of_app_r x xs ys j :
  index_of x xs = None -> index_of x (xs ++ ys) = Some j -> length xs <= j.
Proof.
  revert j. induction xs as [|y xs IH]; intros j; simpl; [lia|].
  destruct (String.eqb y x); [discriminate|].
  destruct (index_of x xs) as [k|]; simpl; [discriminate|].
  intros _. destruct (index_of x (xs ++ ys)) as [k|] eqn:E; simpl; [|discriminate].
  intros [= <-]. specialize (IH k eq_refl eq_refl). lia.
Qed.

Lemma first_seen_before_app xs ys a b :
  first_seen_before xs a b -> first_seen_before (xs ++ ys) a b.
Proof.
  intros (i & Ha & Hb). exists i. split; [now apply index_of_app_l|].
  intros j Hj. destruct (index_of b xs) as [k|] eqn:E.
  - rewrite (index_of_app_l _ _ _ _ E) in Hj. injection Hj as <-. now apply Hb.
  - apply index_of_lt in Ha. pose proof (index_of_app_r _ _ _ _ E Hj). lia.
Qed.

(** *** The keys of a counter are the items in first-seen order *)

Lemma bump_keys_known x items :
  In x (map fst items) -> map fst (bump x items) = map fst items.
Proof.
  induction items as [|[k n] items IH]; simpl; [tauto|].
  destruct (String.eqb_spec k x) as [->|Hne]; simpl; [reflexivity|].
  intros [?|H]; [congruence|]. now rewrite IH.
Qed.

Lemma bump_keys_new x items :
  ~ In x (map fst items) -> map fst (bump x items) = map fst items ++ [x].
Proof.
  induction items as [|[k n] items IH]; simpl; [reflexivity|].
  destruct (String.eqb_spec k x) as [->|Hne]; simpl; [tauto|].
  intros H. rewrite IH; tauto.
Qed.

Lemma count_items_snoc xs x :
  count_items (xs ++ [x]) = bump x (count_items xs).
Proof. unfold count_items. now rewrite fold_left_app. Qed.

Lemma count_items_keys_In xs x :
  In x (map fst (count_items xs)) <-> In x xs.
Proof.
  induction xs as [|y xs IH] using rev_ind; [reflexivity|].
  rewrite count_items_snoc, in_app_iff. simpl.
  destruct (In_dec string_dec y (map fst (count_items xs))) as [Hy|Hy].
  - rewrite bump_keys_known, IH by exact Hy.
    split; [tauto|]. intros [?|[<-|[]]]; [tauto|]. now apply IH.
  - rewrite bump_keys_new, in_app_iff, IH by exact Hy. simpl. tauto.
Qed.

Lemma count_items_keys_order xs i j a b :
  i < j ->
  map fst (count_items xs) !! i = Some a ->
  map fst (count_items xs) !! j = Some b ->
  first_seen_before xs a b.
Proof.
  revert i j a b. induction xs as [|y xs IH] using rev_ind; intros i j a b Hij.
  - intros H. discriminate H.
  - rewrite count_items_snoc.
    destruct (In_dec string_dec y (map fst (count_items xs))) as [Hy|Hy].
    + rewrite bump_keys_known by exact Hy.
      intros Ha Hb. apply first_seen_before_app. eauto.
    + rewrite bump_keys_new by exact Hy. intros Ha Hb.
      destruct (decide (j < length (map fst (count_items xs)))) as [Hj|Hj].
      * rewrite lookup_app_l in Ha, Hb by lia.
        apply first_seen_before_app. eauto.
      * assert (Hlen : j < length (map fst (count_items xs) ++ [y]))
          by (eapply lookup_lt_Some; eauto).
        rewrite length_app in Hlen. simpl in Hlen.
        rewrite lookup_app_l in Ha by lia.
        rewrite lookup_app_r in Hb by lia.
        replace (j - length (map fst (count_items xs))) with 0 in Hb by lia.
        injection Hb as <-.
        assert (Hin : In a xs).
        { apply count_items_keys_In, list_elem_of_In.
          eapply list_elem_of_lookup_2; eauto. }
        apply index_of_In in Hin as [ia Hia].
        exists ia. split; [now apply index_of_app_l|].
        intros jb Hjb.
        assert (Hnone : index_of y xs = None).
        { destruct (index_of y xs) eqn:E; [|reflexivity].
          exfalso. apply Hy, count_items_keys_In, index_of_In. eauto. }
        apply index_of_lt in Hia.
        pose proof (index_of_app_r _ _ _ _ Hnone Hjb). lia.
Qed.

(** *** The stable descending sort *)

Lemma insert_desc_split p items :
  exists l1 l2,
    items = l1 ++ l2 /\ insert_desc p items = l1 ++ p :: l2 /\
    Forall (fun q => snd p < snd q) l1.
Proof.
  induction items as [|q items (l1 & l2 & E1 & E2 & H)]; simpl.
  - exists [], []. auto.
  - destruct (Nat.leb_spec (snd q) (snd p)).
    + exists [], (q :: items). auto.
    + exists (q :: l1), l2. rewrite E2. subst items. auto.
Qed.

Lemma insert_desc_In p q items :
  In q (insert_desc p items) <-> q = p \/ In q items.
Proof.
  destruct (insert_desc_split p items) as (l1 & l2 & -> & -> & _).
  rewrite !in_app_iff. simpl. intuition congruence.
Qed.

Lemma sorted_desc_In q items : In q (sorted_desc items) <-> In q items.
Proof.
  induction items as [|p items IH]; [reflexivity|].
  simpl. rewrite insert_desc_In, IH. intuition congruence.
Qed.

Lemma sorted_desc_length items : length (sorted_desc items) = length items.
Proof.
  induction items as [|p items IH]; [reflexivity|]. simpl.
  destruct (insert_desc_split p (sorted_desc items)) as (l1 & l2 & E1 & -> & _).
  rewrite <- IH, E1, !length_app. simpl. lia.
Qed.

Lemma insert_desc_sorted p items :
  StronglySorted desc items -> StronglySorted desc (insert_desc p items).
Proof.
  induction 1 as [|q items Hs IH Hq]; simpl.
  - repeat constructor.
  - destruct (Nat.leb_spec (snd q) (snd p)) as [Hle|Hlt].
    + constructor; [now constructor|].
      constructor; [exact Hle|].
      eapply Forall_impl; [exact Hq|]. unfold desc. simpl. intros; lia.
    + constructor; [exact IH|].
      apply Forall_forall. intros r Hr.
      apply list_elem_of_In, insert_desc_In in Hr as [->|Hr].
      * unfold desc. lia.
      * rewrite Forall_forall in Hq. now apply Hq, list_elem_of_In.
Qed.

Lemma sorted_desc_sorted items : StronglySorted desc (sorted_desc items).
Proof.
  induction items; simpl; [constructor | now apply insert_desc_sorted].
Qed.

Lemma StronglySorted_take {A} (R : A -> A -> Prop) n (l : list A) :
  StronglySorted R l -> StronglySorted R (take n l).
Proof.
  intros H. revert n. induction H as [|a l Hs IH Ha]; intros [|n]; simpl;
    try constructor; auto.
  apply Forall_forall. intros b Hb. rewrite Forall_forall in Ha. apply Ha.
  now apply (subseteq_take n l).
Qed.

(** Rows of equal count leave the sort in the order they entered it. *)
Lemma insert_desc_stable p items i j a b :
  i < j -> snd a = snd b ->
  insert_desc p items !! i = Some a -> insert_desc p items !! j = Some b ->
  (a = p /\ In b items)
  \/ exists i' j', i' < j' /\ items !! i' = Some a /\ items !! j' = Some b.
Proof.
  intros Hij Hc.
  destruct (insert_desc_split p items) as (l1 & l2 & -> & -> & Hl1).
  intros Ha Hb.
  destruct (Nat.lt_trichotomy i (length l1)) as [Hi|[Hi|Hi]].
  - rewrite lookup_app_l in Ha by lia.
    destruct (Nat.lt_trichotomy j (length l1)) as [Hj|[Hj|Hj]].
    + rewrite lookup_app_l in Hb by lia. right. exists i, j.
      rewrite !lookup_app_l by lia. auto.
    + subst j. rewrite list_lookup_middle in Hb by reflexivity.
      injection Hb as <-. exfalso.
      rewrite Forall_forall in Hl1.
      assert (snd p < snd a).
      { apply Hl1. eapply list_elem_of_lookup_2; eauto. }
      lia.
    + rewrite lookup_app_r in Hb by lia.
      destruct (j - length l1) as [|k] eqn:E; [lia|]. simpl in Hb.
      right. exists i, (length l1 + k). split; [lia|].
      rewrite lookup_app_l by lia. split; [exact Ha|].
      rewrite lookup_app_r by lia.
      now replace (length l1 + k - length l1) with k by lia.
  - subst i. rewrite list_lookup_middle in Ha by reflexivity.
    injection Ha as <-. left. split; [reflexivity|].
    rewrite lookup_app_r in Hb by lia.
    destruct (j - length l1) as [|k] eqn:E; [lia|]. simpl in Hb.
    apply in_or_app. right. apply list_elem_of_In.
    eapply list_elem_of_lookup_2; eauto.
  - rewrite lookup_app_r in Ha, Hb by lia.
    destruct (i - length l1) as [|k] eqn:E; [lia|].
    destruct (j - length l1) as [|k'] eqn:E'; [lia|]. simpl in Ha, Hb.
    right. exists (length l1 + k), (length l1 + k'). split; [lia|].
    rewrite !lookup_app_r by lia.
    replace (length l1 + k - length l1) with k by lia.
    replace (length l1 + k' - length l1) with k' by lia. auto.
Qed.

Lemma sorted_desc_stable items i j a b :
  i < j -> snd a = snd b ->
  sorted_desc items !! i = Some a -> sorted_desc items !! j = Some b ->
  exists i' j', i' < j' /\ items !! i' = Some a /\ items !! j' = Some b.
Proof.
  revert i j. induction items as [|p items IH]; intros i j Hij Hc; simpl.
  - intros H. discriminate H.
  - intros Ha Hb.
    destruct (insert_desc_stable _ _ _ _ _ _ Hij Hc Ha Hb)
      as [[-> Hin] | (i' & j' & Hij' & Ha' & Hb')].
    + apply (proj1 (sorted_desc_In _ _)) in Hin.
      apply list_elem_of_In, list_elem_of_lookup_1 in Hin as [k Hk].
      exists 0, (S k). split; [lia|]. auto.
    + destruct (IH _ _ Hij' Hc Ha' Hb') as (i2 & j2 & H2 & Ha2 & Hb2).
      exists (S i2), (S j2). split; [lia|]. auto.
Qed.

(** *** [max] and the first row of the sorted table *)




(** *** The table the specification asks for *)

(** [sorted(counts.items(), ...)[:cap]] of the counts of [xs] is a table
    of at most [cap] rows, in descending order of count, rows of equal
    count in first-seen order. *)
Lemma top_table_ok cap xs : table_ok cap xs (top cap (count_items xs)).
Proof.
  unfold table_ok, top, Py.first_n. split; [|split].
  - rewrite length_take. lia.
  - apply StronglySorted_take, sorted_desc_sorted.
  - intros i j a b c Hij Ha Hb.
    apply lookup_take_Some in Ha as [Ha _].
    apply lookup_take_Some in Hb as [Hb _].
    destruct (sorted_desc_stable _ i j (a, c) (b, c) Hij eq_refl Ha Hb)
      as (i' & j' & Hij' & Ha' & Hb').
    apply (count_items_keys_order xs i' j'); [exact Hij'| |].
    + rewrite list_lookup_fmap, Ha'. reflexivity.
    + rewrite list_lookup_fmap, Hb'. reflexivity.
Qed.

Lemma table_ok_nil cap xs : table_ok cap xs [].
Proof.
  split; [simpl; lia|]. split; [constructor|].
  intros i j a b c _ H. discriminate H.
Qed.

End FreqFacts.

(** C6: every theme or trigger frequency table the operations return is
    in descending order of count, rows of equal count in first-seen
    order, and within its cap: 5 for the tables of the journal weekly
    summary, of pattern detection (model path and fallback) and of the
    planner's pattern analysis, 10 for the recurring-themes endpoint; and
    topic suggestions are at most 3. *)
Theorem frequency_tables_sorted_and_capped :
  (forall entries,
     match JournalAgent.generate_weekly_summary entries with
     | JournalAgent.Summary s =>
         Freq.table_ok 5 (JournalAgent.all_themes entries)
                       (JournalAgent.most_common_themes s)
         /\ Freq.table_ok 5 (JournalAgent.all_triggers entries)
                          (JournalAgent.most_common_triggers s)
     | JournalAgent.NoEntries _ => entries = []
     end)
  /\ (forall use_llm pattern_chain loads journal_entries mood_entries,
        match InsightsAgent.detect_patterns use_llm pattern_chain loads
                journal_entries mood_entries with
        | InsightsAgent.PatternReport r =>
            Freq.table_ok 5 (InsightsAgent.journal_all_themes journal_entries)
                          (InsightsAgent.recurring_themes r)
            /\ Freq.table_ok 5 (InsightsAgent.journal_all_triggers journal_entries)
                             (InsightsAgent.emotional_triggers r)
        | InsightsAgent.PatternMessage _ => journal_entries = []
        end)
  /\ (forall journal_entries mood_data conversation_count,
        Freq.table_ok 5
          (concat (map (fun e => default [] (PlannerAgent.journal_themes e))
                       (Py.last_n 10 journal_entries)))
          (PlannerAgent.recurring_themes
             (PlannerAgent._analyze_patterns journal_entries mood_data
                                             conversation_count)))
  /\ (forall current_user db,
        Freq.table_ok 10
          (JournalApi.collected_themes
             (JournalApi.order_by_created_at_desc
                (filter (fun r => JournalApi.user_id r = current_user) db)))
          (JournalApi.recurring_themes
             (JournalApi.get_recurring_themes current_user db)))
  /\ (forall user_history,
        length (ConversationAgent.suggest_conversation_topics user_history) <= 3).
Proof.
  split; [|split; [|split; [|split]]].
  - intros entries. unfold JournalAgent.generate_weekly_summary.
    destruct entries as [|e entries]; [reflexivity|]. simpl.
    split; apply top_table_ok.
  - intros use_llm pattern_chain loads journal_entries mood_entries.
    unfold InsightsAgent.detect_patterns.
    destruct journal_entries as [|e journal_entries]; [reflexivity|].
    assert (Hfallback :
      match InsightsAgent._fallback_pattern_analysis (e :: journal_entries) with
      | InsightsAgent.PatternReport r =>
          Freq.table_ok 5 (InsightsAgent.journal_all_themes (e :: journal_entries))
                        (InsightsAgent.recurring_themes r)
          /\ Freq.table_ok 5 (InsightsAgent.journal_all_triggers (e :: journal_entries))
                           (InsightsAgent.emotional_triggers r)
      | InsightsAgent.PatternMessage _ => e :: journal_entries = []
      end).
    { simpl. split; [apply top_table_ok | apply table_ok_nil]. }
    destruct use_llm; [|exact Hfallback].
    destruct (pattern_chain _ _) as [result|]; [|exact Hfallback]. simpl.
    destruct (loads result) as [llm_analysis|]; [|exact Hfallback]. simpl.
    destruct llm_analysis; try exact Hfallback. simpl.
    split; apply top_table_ok.
  - intros. apply top_table_ok.
  - intros. apply top_table_ok.
  - intros user_history. unfold ConversationAgent.suggest_conversation_topics.
    destruct user_history; [apply Nat.le_refl|].
    unfold Py.first_n. rewrite length_take. lia.
Qed.

(* ------------------------------------------------------------------ *)
(** ** Session memory *)

Section ConversationFacts.
Import ConversationAgent.

(** When [end_conversation] returns, the session is gone from memory. *)
Lemma end_conversation_returned use_llm summary_chain now session_id
    (mem : memories) r :
  (end_conversation use_llm summary_chain now session_id mem).1 = Returned r ->
  (end_conversation use_llm summary_chain now session_id mem).2 !! session_id = None.
Proof.
  unfold end_conversation.
  destruct (mem !! session_id) as [memory|] eqn:E; [|intros _; exact E].
  destruct use_llm; [|intros _; apply lookup_delete_eq].
  destruct (summary_chain memory); [intros _; apply lookup_delete_eq | discriminate].
Qed.

(** When it raises, the summary call failed and memory is untouched. *)
Lemma end_conversation_raised use_llm summary_chain now session_id
    (mem : memories) e :
  (end_conversation use_llm summary_chain now session_id mem).1 = Raised e ->
  use_llm = true
  /\ (exists memory, mem !! session_id = Some memory
                     /\ summary_chain memory = Raised e)
  /\ (end_conversation use_llm summary_chain now session_id mem).2 = mem.
Proof.
  unfold end_conversation.
  destruct (mem !! session_id) as [memory|] eqn:E; [|discriminate].
  destruct use_llm; [|discriminate].
  destruct (summary_chain memory) eqn:Es; [discriminate|].
  intros [= ->]. eauto.
Qed.

(** Other sessions are never touched by [end_conversation]. *)
Lemma end_conversation_other use_llm summary_chain now session_id
    (mem : memories) other :
  other <> session_id ->
  (end_conversation use_llm summary_chain now session_id mem).2 !! other
  = mem !! other.
Proof.
  intros Hne. unfold end_conversation.
  destruct (mem !! session_id) as [memory|]; [|reflexivity].
  destruct use_llm; [destruct (summary_chain memory)|]; simpl;
    try reflexivity; now apply lookup_delete_ne.
Qed.

(** [generate_response] on the fallback path, spelled out. *)
Lemma generate_response_fallback_memories use_llm ainvoke now
    user_message session_id conversation_type theme (mem : memories) :
  fallback (generate_response use_llm ainvoke now user_message session_id
                              conversation_type theme mem).1 = true ->
  (generate_response use_llm ainvoke now user_message session_id
                     conversation_type theme mem).2
  = if use_llm then (_get_conversation_memory session_id mem).2 else mem.
Proof.
  unfold generate_response. destruct use_llm; [|reflexivity].
  destruct (_get_conversation_memory session_id mem) as [memory mem1].
  destruct (ainvoke _); [discriminate | reflexivity].
Qed.

End ConversationFacts.

(** C1 fails on the code: with the model in use and a stored transcript,
    a summary call that raises leaves [end_conversation] by that
    exception, before either [del]; the transcript is still in
    [conversation_memories] afterwards. *)
Theorem end_conversation_keeps_transcript_when_summary_fails :
  let mem : ConversationAgent.memories :=
    {[ "s1" := [(ConversationAgent.Human, "hello"); (ConversationAgent.AI, "hi")] ]} in
  let result :=
    ConversationAgent.end_conversation true (fun _ => Raised "timeout") "t" "s1" mem in
  result.1 = Raised "timeout"
  /\ result.2 !! "s1"
     = Some [(ConversationAgent.Human, "hello"); (ConversationAgent.AI, "hi")].
Proof.
  cbv zeta. unfold ConversationAgent.end_conversation.
  rewrite lookup_singleton_eq. simpl. split; [reflexivity|].
  apply lookup_singleton_eq.
Qed.

(** C10, as stated, does not hold: with the model in use, a failed model
    call on a session never seen before answers with the fallback reply
    and leaves an empty transcript for that session in the map. *)
Lemma fallback_reply_creates_empty_transcript :
  let mem : ConversationAgent.memories := ∅ in
  let result :=
    ConversationAgent.generate_response true (fun _ => Raised "timeout") "t"
      "hello" "s1" "general" None mem in
  ConversationAgent.fallback result.1 = true
  /\ mem !! "s1" = None
  /\ result.2 !! "s1" = Some []
  /\ result.2 <> mem.
Proof.
  cbv zeta. unfold ConversationAgent.generate_response,
    ConversationAgent._get_conversation_memory.
  rewrite lookup_empty. simpl.
  split; [reflexivity|]. split; [reflexivity|].
  split; [apply lookup_insert_eq|].
  intros H. apply (f_equal (fun m => m !! "s1")) in H.
  rewrite lookup_insert_eq, lookup_empty in H. discriminate.
Qed.

(** C10, amended: on the fallback path no turn is appended and no stored
    transcript changes. With the model unavailable the map is unchanged;
    after a failed model call it differs at most by an empty transcript
    created for [session_id] when that session was not in the map. *)
Theorem fallback_reply_leaves_transcripts use_llm ainvoke now
    user_message session_id conversation_type theme
    (mem : ConversationAgent.memories) :
  let result :=
    ConversationAgent.generate_response use_llm ainvoke now user_message
      session_id conversation_type theme mem in
  ConversationAgent.fallback result.1 = true ->
  (use_llm = false -> result.2 = mem)
  /\ (forall s t, mem !! s = Some t -> result.2 !! s = Some t)
  /\ (forall s, s <> session_id -> result.2 !! s = mem !! s)
  /\ (mem !! session_id = None ->
      result.2 !! session_id = if use_llm then Some [] else None).
Proof.
  cbv zeta. intros Hfb.
  rewrite (generate_response_fallback_memories
             use_llm ainvoke now user_message session_id conversation_type theme mem Hfb).
  unfold ConversationAgent._get_conversation_memory.
  destruct use_llm; simpl.
  - destruct (mem !! session_id) as [memory|] eqn:E; simpl.
    + repeat split; auto. congruence.
    + split; [discriminate|]. split; [|split].
      * intros s t Hs. rewrite lookup_insert_ne; [exact Hs | congruence].
      * intros s Hs. now rewrite lookup_insert_ne.
      * intros _. apply lookup_insert_eq.
  - repeat split; auto.
Qed.

(** C10 amended, at work: the model is unavailable and the map stays as
    it was. *)
Lemma fallback_reply_leaves_transcripts_witness :
  ConversationAgent.fallback
    (ConversationAgent.generate_response false (fun _ => Raised "") "t"
       "hello" "s1" "general" None ∅).1 = true
  /\ (ConversationAgent.generate_response false (fun _ => Raised "") "t"
        "hello" "s1" "general" None ∅).2 = ∅.
Proof.
  split; [reflexivity|].
  apply (fallback_reply_leaves_transcripts false (fun _ => Raised "") "t"
           "hello" "s1" "general" None ∅); reflexivity.
Defined.

(* ------------------------------------------------------------------ *)
(** ** Journal weekly summary *)

Lemma trend_of_spec (first last : Q) :
  ((first < last)%Q /\ Py.trend_of first last = "improving")
  \/ ((last < first)%Q /\ Py.trend_of first last = "declining")
  \/ ((first == last)%Q /\ Py.trend_of first last = "stable").
Proof.
  unfold Py.trend_of.
  destruct (Qlt_le_dec first last) as [H|H]; [auto|].
  destruct (Qlt_le_dec last first) as [H'|H']; [auto|].
  right; right. split; [now apply Qle_antisym | reflexivity].
Qed.

(** Through the endpoint the comparison runs against time: for two
    entries of the week, the newer score is taken as the first and the
    older score as the last. *)
Lemma weekly_summary_endpoint_newest_first now week current_user
    (older newer : JournalApi.Row) (db : list JournalApi.Row) :
  JournalApi.user_id older = current_user ->
  JournalApi.user_id newer = current_user ->
  (now - week <= JournalApi.created_at older)%Z ->
  (JournalApi.created_at older < JournalApi.created_at newer)%Z ->
  db = [older; newer] \/ db = [newer; older] ->
  exists s,
    JournalApi.summary (JournalApi.get_weekly_summary now week current_user db)
    = JournalAgent.Summary s
    /\ JournalAgent.mood_trend s
       = Py.trend_of (JournalApi.mood_score newer) (JournalApi.mood_score older).
Proof.
  intros Ho Hn Hweek Hlt Hdb.
  assert (Hsorted :
    JournalApi.order_by_created_at_desc
      (filter (fun r => JournalApi.user_id r = current_user
                        /\ (now - week <= JournalApi.created_at r)%Z) db)
    = [newer; older]).
  { destruct Hdb as [-> | ->];
      rewrite !filter_cons, !decide_True, filter_nil by (split; [assumption | lia]);
      simpl.
    - destruct (Z.leb_spec (JournalApi.created_at newer) (JournalApi.created_at older));
        [lia | reflexivity].
    - destruct (Z.leb_spec (JournalApi.created_at older) (JournalApi.created_at newer));
        [reflexivity | lia]. }
  unfold JournalApi.get_weekly_summary. cbn [JournalApi.summary].
  rewrite Hsorted. eexists. split; reflexivity.
Qed.

(** C5 fails on the code: the endpoint reads the week's entries newest
    first and the agent compares the last score of that list with the
    first. A week whose mood goes from 4.0 to 8.0 is reported as
    ["declining"], although the chronologically last score exceeds the
    first; the mean, 6.0, is right. *)
Theorem weekly_summary_trend_is_reversed :
  let older :=
    {| JournalApi.user_id := 1; JournalApi.content := "rough day";
       JournalApi.mood_score := 4 # 1; JournalApi.mood_label := "negative";
       JournalApi.themes := Some []; JournalApi.emotional_triggers := Some [];
       JournalApi.created_at := 1 |} in
  let newer :=
    {| JournalApi.user_id := 1; JournalApi.content := "good day";
       JournalApi.mood_score := 8 # 1; JournalApi.mood_label := "positive";
       JournalApi.themes := Some []; JournalApi.emotional_triggers := Some [];
       JournalApi.created_at := 2 |} in
  (JournalApi.created_at older < JournalApi.created_at newer)%Z
  /\ (JournalApi.mood_score older < JournalApi.mood_score newer)%Q
  /\ match JournalApi.summary (JournalApi.get_weekly_summary 3 7 1 [older; newer]) with
     | JournalAgent.Summary s =>
         JournalAgent.mood_trend s = "declining"
         /\ (JournalAgent.average_mood s == 6 # 1)%Q
     | JournalAgent.NoEntries _ => False
     end.
Proof.
  cbv zeta. split; [reflexivity|]. split; [reflexivity|].
  vm_compute. split; reflexivity.
Qed.

(* ------------------------------------------------------------------ *)
(** ** Mood insights *)

(** C7, as stated, does not hold: with no model in use the scores
    [4, 6, 8] give average 6.0 but trend ["stable"], and the result
    names no best or worst day. *)
Lemma mood_insights_fallback_is_stable :
  let entry score day :=
    {| InsightsAgent.mood_created_at := Some day;
       InsightsAgent.mood_mood_score := Some score;
       InsightsAgent.mood_mood_label := None;
       InsightsAgent.mood_energy_level := None;
       InsightsAgent.mood_stress_level := None |} in
  match InsightsAgent.generate_mood_insights false
          (fun _ _ => Raised "") (fun _ => Raised "")
          [entry (4 # 1) "mon"; entry (6 # 1) "tue"; entry (8 # 1) "wed"] "week" with
  | InsightsAgent.MoodReport r =>
      (InsightsAgent.average_mood r == 6 # 1)%Q
      /\ InsightsAgent.mood_trend r = "stable"
      /\ InsightsAgent.mood_trend r <> "improving"
      /\ InsightsAgent.best_day r = None
      /\ InsightsAgent.worst_day r = None
  | InsightsAgent.MoodMessage _ => False
  end.
Proof.
  vm_compute. repeat split. discriminate.
Qed.

(** C7, amended: for scores [4, 6, 8] the average is 6.0 on both paths.
    When the model is in use, answers, and its reply parses to a JSON
    object, the trend is ["improving"], [best_day] is the date of entry 2
    and [worst_day] the date of entry 0. Otherwise (the fallback) the
    trend is ["stable"] and no best or worst day is returned. *)
Theorem mood_insights_scenario use_llm trend_chain loads time_period
    (e0 e1 e2 : InsightsAgent.MoodEntry) :
  InsightsAgent.mood_mood_score e0 = Some (4 # 1) ->
  InsightsAgent.mood_mood_score e1 = Some (6 # 1) ->
  InsightsAgent.mood_mood_score e2 = Some (8 # 1) ->
  let mood_entries := [e0; e1; e2] in
  let model_replied :=
    use_llm = true
    /\ exists result fields,
         trend_chain (map InsightsAgent.mood_datum mood_entries) time_period
         = Returned result
         /\ loads result = Returned (JObj fields) in
  exists r,
    InsightsAgent.generate_mood_insights use_llm trend_chain loads
      mood_entries time_period = InsightsAgent.MoodReport r
    /\ (InsightsAgent.average_mood r == 6 # 1)%Q
    /\ ((model_replied
         /\ InsightsAgent.mood_trend r = "improving"
         /\ InsightsAgent.best_day r = Some (InsightsAgent.mood_created_at e2)
         /\ InsightsAgent.worst_day r = Some (InsightsAgent.mood_created_at e0))
        \/ (~ model_replied
            /\ InsightsAgent.mood_trend r = "stable"
            /\ InsightsAgent.best_day r = None
            /\ InsightsAgent.worst_day r = None)).
Proof.
  intros H0 H1 H2. cbv zeta.
  assert (Hs0 : InsightsAgent.datum_mood_score (InsightsAgent.mood_datum e0) = 4 # 1)
    by (unfold InsightsAgent.mood_datum; cbn; now rewrite H0).
  assert (Hs1 : InsightsAgent.datum_mood_score (InsightsAgent.mood_datum e1) = 6 # 1)
    by (unfold InsightsAgent.mood_datum; cbn; now rewrite H1).
  assert (Hs2 : InsightsAgent.datum_mood_score (InsightsAgent.mood_datum e2) = 8 # 1)
    by (unfold InsightsAgent.mood_datum; cbn; now rewrite H2).
  assert (Hmax : InsightsAgent.argmax [4 # 1; 6 # 1; 8 # 1] = 2) by (vm_compute; reflexivity).
  assert (Hmin : InsightsAgent.argmin [4 # 1; 6 # 1; 8 # 1] = 0) by (vm_compute; reflexivity).
  assert (Hfallback : exists r,
    InsightsAgent._fallback_mood_insights [e0; e1; e2] = InsightsAgent.MoodReport r
    /\ (InsightsAgent.average_mood r == 6 # 1)%Q
    /\ InsightsAgent.mood_trend r = "stable"
    /\ InsightsAgent.best_day r = None
    /\ InsightsAgent.worst_day r = None).
  { eexists. split; [reflexivity|].
    cbn [InsightsAgent.average_mood InsightsAgent.mood_trend
         InsightsAgent.best_day InsightsAgent.worst_day map].
    rewrite H0, H1, H2. split; [vm_compute; reflexivity | auto]. }
  destruct Hfallback as (rf & Hrf & Havg & Htrend & Hbest & Hworst).
  unfold InsightsAgent.generate_mood_insights. cbn [map].
  rewrite !Hs0, !Hs1, !Hs2, Hmax, Hmin.
  destruct use_llm.
  2:{ exists rf. split; [exact Hrf|]. split; [exact Havg|]. right.
      split; [|auto]. intros [? _]. discriminate. }
  destruct (trend_chain _ time_period) as [result|e] eqn:Echain.
  2:{ exists rf. split; [exact Hrf|]. split; [exact Havg|]. right.
      split; [|auto]. intros (_ & ? & ? & [=] & _). }
  cbn [mbind outcome_bind Py.bind].
  destruct (loads result) as [llm_analysis|e] eqn:Eloads.
  2:{ exists rf. split; [exact Hrf|]. split; [exact Havg|]. right.
      split; [|auto]. intros (_ & ? & ? & [= <-] & H). congruence. }
  destruct llm_analysis as [| | | |fields];
    try (exists rf; split; [exact Hrf|]; split; [exact Havg|]; right;
         split; [|auto]; intros (_ & ? & ? & [= <-] & H); congruence).
  cbn [Py.get Py.bind]. eexists. split; [reflexivity|].
  cbn [InsightsAgent.average_mood InsightsAgent.mood_trend
       InsightsAgent.best_day InsightsAgent.worst_day].
  split; [vm_compute; reflexivity|]. left.
  split; [split; [reflexivity | eauto] |].
  split; [vm_compute; reflexivity|]. split; reflexivity.
Qed.

(** C7 amended, at work: no model, three days. *)
Lemma mood_insights_scenario_witness :
  exists r,
    InsightsAgent.generate_mood_insights false
      (fun _ _ => Raised "") (fun _ => Raised "")
      [InsightsAgent.Build_MoodEntry (Some "mon") (Some (4 # 1)) None None None;
       InsightsAgent.Build_MoodEntry (Some "tue") (Some (6 # 1)) None None None;
       InsightsAgent.Build_MoodEntry (Some "wed") (Some (8 # 1)) None None None]
      "week" = InsightsAgent.MoodReport r
    /\ (InsightsAgent.average_mood r == 6 # 1)%Q.
Proof.
  destruct (mood_insights_scenario false (fun _ _ => Raised "") (fun _ => Raised "")
              "week"
              (InsightsAgent.Build_MoodEntry (Some "mon") (Some (4 # 1)) None None None)
              (InsightsAgent.Build_MoodEntry (Some "tue") (Some (6 # 1)) None None None)
              (InsightsAgent.Build_MoodEntry (Some "wed") (Some (8 # 1)) None None None)
              eq_refl eq_refl eq_refl) as (r & Hr & Havg & _).
  exists r. split; [exact Hr | exact Havg].
Defined.

(* ------------------------------------------------------------------ *)
(** ** Recovery from model failure *)

(** Where the model call raises, these operations answer with their
    fallback: journal analysis, mood insights, pattern detection, the
    insights weekly summary and the conversation reply. *)
Lemma model_failure_recovered (e : string) :
  (forall theme_extractor trigger_analyzer insights_generator loads content,
     JournalAgent.analyze_journal_entry true (fun _ => Raised e) theme_extractor
       trigger_analyzer insights_generator loads content
     = JournalAgent.FromFallback (JournalAgent._fallback_analysis content))
  /\ (forall loads mood_entries time_period,
        InsightsAgent.generate_mood_insights true (fun _ _ => Raised e) loads
          mood_entries time_period
        = match mood_entries with
          | [] => InsightsAgent.MoodMessage "No mood data available for analysis"
          | _ :: _ => InsightsAgent._fallback_mood_insights mood_entries
          end)
  /\ (forall loads journal_entries mood_entries,
        InsightsAgent.detect_patterns true (fun _ _ => Raised e) loads
          journal_entries mood_entries
        = match journal_entries with
          | [] => InsightsAgent.PatternMessage
                    "No journal data available for pattern analysis"
          | _ :: _ => InsightsAgent._fallback_pattern_analysis journal_entries
          end)
  /\ (forall loads now mood_insights habit_correlations pattern_analysis,
        InsightsAgent.week_summary
          (InsightsAgent.generate_weekly_summary true (fun _ _ _ => Raised e) loads now
             mood_insights habit_correlations pattern_analysis)
        = InsightsAgent._fallback_weekly_summary_content)
  /\ (forall now user_message session_id conversation_type theme mem,
        (ConversationAgent.generate_response true (fun _ => Raised e) now
           user_message session_id conversation_type theme mem).1
        = ConversationAgent._fallback_response now user_message conversation_type
            theme session_id).
Proof.
  split; [|split; [|split; [|split]]].
  - reflexivity.
  - intros loads [|m ms] time_period; reflexivity.
  - intros loads [|j js] mood_entries; reflexivity.
  - reflexivity.
  - intros. unfold ConversationAgent.generate_response.
    now destruct (ConversationAgent._get_conversation_memory session_id mem).
Qed.

(** Plan creation returns a plan on every input; with both model calls
    failing it is the plan built when no model is configured. *)
Lemma create_weekly_plan_recovers (e : string) loads today now
    user_id journal_entries mood_data conversation_count :
  PlannerAgent.create_weekly_plan true (fun _ => Raised e) (fun _ _ => Raised e)
    loads today now user_id journal_entries mood_data conversation_count
  = PlannerAgent.create_weekly_plan false (fun _ => Raised e) (fun _ _ => Raised e)
      loads today now user_id journal_entries mood_data conversation_count.
Proof. reflexivity. Qed.

(** C8 fails on the code for habit correlations: with the model in use
    and data present, a model call that raises, or a reply that does not
    parse, makes [analyze_habit_correlations] return its error [dict]
    (message and [str(e)]) instead of the fallback analysis that the
    same function returns when no model is configured. *)
Theorem habit_correlations_surface_model_failure
    (e : string) loads draw m ms h hs :
  InsightsAgent.analyze_habit_correlations true (fun _ _ => Raised e) loads draw
    (m :: ms) (h :: hs)
  = InsightsAgent.HabitFailure "Unable to analyze habit correlations" e
  /\ InsightsAgent.analyze_habit_correlations true
       (fun _ _ => Returned "not json") (fun _ => Raised e) draw (m :: ms) (h :: hs)
     = InsightsAgent.HabitFailure "Unable to analyze habit correlations" e
  /\ exists r,
       InsightsAgent.analyze_habit_correlations false (fun _ _ => Raised e) loads draw
         (m :: ms) (h :: hs) = InsightsAgent.HabitReport r
       /\ InsightsAgent.habit_insights r
          = jstrs ["Basic habit correlation analysis completed"].
Proof.
  split; [reflexivity|]. split; [reflexivity|].
  eexists. split; reflexivity.
Qed.

(* ------------------------------------------------------------------ *)
(** ** Plan adjustment *)

Section PlannerFacts.
Import PlannerAgent.

Lemma is_type_spec kind (a : Activity) :
  is_type kind a = true <-> activity_type a = Some kind.
Proof.
  unfold is_type. destruct (activity_type a) as [t|].
  - destruct (String.eqb_spec t kind); split; congruence.
  - split; discriminate.
Qed.

Lemma mem_spec x (xs : list string) : mem x xs = true <-> In x xs.
Proof.
  unfold mem. rewrite existsb_exists. split.
  - intros (y & Hy & E). apply String.eqb_eq in E. now subst.
  - intros H. exists x. split; [exact H | apply String.eqb_refl].
Qed.

(** A theme counts as completed when a conversation event carries it
    and it is not the empty string. *)
Lemma completed_themes_spec x (recent_activity : list Activity) :
  In x (completed_themes recent_activity) <->
  x <> "" /\ exists a, In a recent_activity
                       /\ activity_type a = Some "conversation"
                       /\ activity_theme a = Some x.
Proof.
  unfold completed_themes. rewrite in_concat. split.
  - intros (l & Hl & Hx). apply in_map_iff in Hl as (a & <- & Ha).
    destruct (is_type "conversation" a) eqn:Et; [|destruct Hx].
    apply is_type_spec in Et.
    destruct (activity_theme a) as [t|] eqn:Eth; [|destruct Hx].
    destruct (String.eqb_spec t ""); [destruct Hx|].
    destruct Hx as [->|[]]. eauto.
  - intros (Hne & a & Ha & Et & Eth). exists [x]. split; [|simpl; auto].
    apply in_map_iff. exists a. split; [|exact Ha].
    apply is_type_spec in Et. rewrite Et, Eth.
    destruct (String.eqb_spec x ""); congruence.
Qed.

(** Some insight was collected exactly when a journal event carries a
    non-empty [key_insights] list. *)
Lemma new_insights_spec (recent_activity : list Activity) :
  new_insights recent_activity <> [] <->
  exists a insight rest,
    In a recent_activity /\ activity_type a = Some "journal"
    /\ activity_key_insights a = Some (insight :: rest).
Proof.
  unfold new_insights. induction recent_activity as [|a acts IH]; simpl.
  - split; [congruence | intros (? & ? & ? & [] & _)].
  - destruct (is_type "journal" a) eqn:Et.
    + apply is_type_spec in Et.
      destruct (activity_key_insights a) as [[|i r]|] eqn:Ek; simpl.
      * rewrite IH. split.
        -- intros (b & i & r & Hb & H). exists b, i, r. tauto.
        -- intros (b & i & r & [<-|Hb] & H1 & H2); [congruence|]. eauto 6.
      * split; [|congruence]. intros _. exists a, i, r. auto.
      * rewrite IH. split.
        -- intros (b & i & r & Hb & H). exists b, i, r. tauto.
        -- intros (b & i & r & [<-|Hb] & H1 & H2); [congruence|]. eauto 6.
    + simpl. rewrite IH. split.
      * intros (b & i & r & Hb & H). exists b, i, r. tauto.
      * intros (b & i & r & [<-|Hb] & H1 & H2); [|eauto 6].
        apply is_type_spec in H1. congruence.
Qed.

End PlannerFacts.

(** C9, as stated, does not hold: a recent-activity list that holds a
    conversation for theme A may hold one for theme B as well, and then
    both themes are removed. *)
Lemma adjust_plan_removes_every_completed_theme :
  let item name :=
    {| PlannerAgent.theme := name; PlannerAgent.priority := 1;
       PlannerAgent.conversation_type := "general";
       PlannerAgent.goals := []; PlannerAgent.rationale := "" |} in
  let conversation name :=
    {| PlannerAgent.activity_type := Some "conversation";
       PlannerAgent.activity_theme := Some name;
       PlannerAgent.activity_key_insights := None |} in
  let plan :=
    {| PlannerAgent.themes := Some [item "sleep"; item "work"];
       PlannerAgent.fields := ∅ |} in
  let recent_activity := [conversation "sleep"; conversation "work"] in
  In (conversation (PlannerAgent.theme (item "sleep"))) recent_activity
  /\ PlannerAgent.new_insights recent_activity = []
  /\ PlannerAgent.themes
       (PlannerAgent.adjust_plan_based_on_progress "t" plan recent_activity)
     = Some []
  /\ PlannerAgent.themes
       (PlannerAgent.adjust_plan_based_on_progress "t" plan recent_activity)
     <> Some [item "work"].
Proof.
  cbv zeta. split; [simpl; auto|]. split; [reflexivity|].
  split; [vm_compute; reflexivity|]. vm_compute. discriminate.
Qed.

(** C9, amended: for a plan with themes [A, B], A's name not empty, and
    a recent-activity list with a conversation event for A's name and no
    conversation event for B's name, the adjusted plan has themes [B],
    followed by the one "recent insights" theme exactly when some journal
    event carries a non-empty [key_insights] list; [adjusted_at] is set
    to the current time and every other field of the plan is unchanged.
    The function has no model to call. *)
Theorem adjust_plan_removes_completed_theme now (A B : PlannerAgent.ThemeItem)
    (other : gmap string json) (recent_activity : list PlannerAgent.Activity) :
  PlannerAgent.theme A <> "" ->
  (exists a, In a recent_activity
             /\ PlannerAgent.activity_type a = Some "conversation"
             /\ PlannerAgent.activity_theme a = Some (PlannerAgent.theme A)) ->
  (forall a, In a recent_activity ->
             PlannerAgent.activity_type a = Some "conversation" ->
             PlannerAgent.activity_theme a <> Some (PlannerAgent.theme B)) ->
  let adjusted :=
    PlannerAgent.adjust_plan_based_on_progress now
      {| PlannerAgent.themes := Some [A; B]; PlannerAgent.fields := other |}
      recent_activity in
  let journal_insights :=
    exists a insight rest,
      In a recent_activity /\ PlannerAgent.activity_type a = Some "journal"
      /\ PlannerAgent.activity_key_insights a = Some (insight :: rest) in
  ((journal_insights
    /\ PlannerAgent.themes adjusted = Some [B; PlannerAgent.recent_insights_theme])
   \/ (~ journal_insights /\ PlannerAgent.themes adjusted = Some [B]))
  /\ PlannerAgent.fields adjusted !! "adjusted_at" = Some (JStr now)
  /\ forall key, key <> "adjusted_at" ->
                 PlannerAgent.fields adjusted !! key = other !! key.
Proof.
  intros HA Hconv HB. cbv zeta.
  unfold PlannerAgent.adjust_plan_based_on_progress.
  cbn [PlannerAgent.themes PlannerAgent.fields default].
  assert (HmA : PlannerAgent.mem (PlannerAgent.theme A)
                  (PlannerAgent.completed_themes recent_activity) = true).
  { apply mem_spec, completed_themes_spec. auto. }
  assert (HmB : PlannerAgent.mem (PlannerAgent.theme B)
                  (PlannerAgent.completed_themes recent_activity) = false).
  { apply not_true_is_false. intros H.
    apply mem_spec, completed_themes_spec in H as (_ & a & Ha & Ht & Hth).
    exact (HB a Ha Ht Hth). }
  change (id [A; B]) with [A; B].
  rewrite filter_cons, decide_False by congruence.
  rewrite filter_cons, decide_True by exact HmB.
  rewrite filter_nil.
  split; [|split].
  - pose proof (new_insights_spec recent_activity) as Hspec.
    destruct (PlannerAgent.new_insights recent_activity) as [|i r].
    + right. split; [|reflexivity]. intros H. apply Hspec in H. congruence.
    + left. split; [|reflexivity]. apply Hspec. discriminate.
  - apply lookup_insert_eq.
  - intros key Hkey. now apply lookup_insert_ne.
Qed.

(** C9 amended, at work: theme A was talked about, a journal entry
    brought an insight. *)
Lemma adjust_plan_removes_completed_theme_witness :
  let item name :=
    {| PlannerAgent.theme := name; PlannerAgent.priority := 1;
       PlannerAgent.conversation_type := "general";
       PlannerAgent.goals := []; PlannerAgent.rationale := "" |} in
  let recent_activity :=
    [ {| PlannerAgent.activity_type := Some "conversation";
         PlannerAgent.activity_theme := Some "sleep";
         PlannerAgent.activity_key_insights := None |};
      {| PlannerAgent.activity_type := Some "journal";
         PlannerAgent.activity_theme := None;
         PlannerAgent.activity_key_insights := Some ["rest helps"] |} ] in
  PlannerAgent.fields
    (PlannerAgent.adjust_plan_based_on_progress "t"
       {| PlannerAgent.themes := Some [item "sleep"; item "work"];
          PlannerAgent.fields := ∅ |}
       recent_activity) !! "adjusted_at" = Some (JStr "t").
Proof.
  cbv zeta.
  refine (proj1 (proj2 (adjust_plan_removes_completed_theme "t" _ _ ∅ _ _ _ _))).
  - simpl. discriminate.
  - eexists. split; [left; reflexivity|]. split; reflexivity.
  - intros a [<-|[<-|[]]]; simpl; [discriminate | discriminate].
Defined.

(* ================================================================== *)
(** * Further properties of the code *)

(** ** Keyword matching in the fallbacks *)

Lemma ascii_lower_idem (c : ascii) :
  PyStr.ascii_lower (PyStr.ascii_lower c) = PyStr.ascii_lower c.
Proof.
  destruct c as [[] [] [] [] [] [] [] []]; reflexivity.
Qed.

Lemma lower_idem (s : string) : PyStr.lower (PyStr.lower s) = PyStr.lower s.
Proof.
  induction s as [|c s IH]; simpl; [reflexivity|].
  now rewrite ascii_lower_idem, IH.
Qed.

(** X1: the fallback analysis reads the text through [lower()] only:
    a text and its lower-cased form get the same analysis. *)
Theorem fallback_analysis_ignores_case (content : string) :
  JournalAgent._fallback_analysis (PyStr.lower content)
  = JournalAgent._fallback_analysis content.
Proof.
  unfold JournalAgent._fallback_analysis, JournalAgent.fallback_mood,
    JournalAgent.fallback_themes, JournalAgent.positive_count,
    JournalAgent.negative_count.
  now rewrite !lower_idem.
Qed.

(** X2: whatever the text, the fallback analysis has a score of 3, 5 or
    7 (so within 0 to 10), a non-empty label, and themes that are a
    selection of work, relationships, health, stress in that order,
    each at most once. *)
Theorem fallback_analysis_shape (content : string) :
  let a := JournalAgent._fallback_analysis content in
  (0 <= JournalAgent.mood_score a <= 10 # 1)%Q
  /\ In (JournalAgent.mood_score a, JournalAgent.mood_label a)
        [(7 # 1, "positive"); (3 # 1, "negative"); (5 # 1, "neutral")]
  /\ JournalAgent.mood_label a <> ""
  /\ sublist (JournalAgent.themes a) ["work"; "relationships"; "health"; "stress"]
  /\ JournalAgent.emotional_triggers a = [].
Proof.
  cbv zeta. unfold JournalAgent._fallback_analysis, JournalAgent.fallback_mood,
    JournalAgent.fallback_themes.
  cbn [JournalAgent.mood_score JournalAgent.mood_label JournalAgent.themes
       JournalAgent.emotional_triggers].
  split; [|split; [|split; [|split]]].
  - repeat match goal with
           | |- context [(?a <? ?b)%nat] => destruct (a <? b)%nat
           end; cbn [fst]; split; unfold Qle; simpl; lia.
  - repeat match goal with
           | |- context [(?a <? ?b)%nat] => destruct (a <? b)%nat
           end; simpl; auto.
  - repeat match goal with
           | |- context [(?a <? ?b)%nat] => destruct (a <? b)%nat
           end; simpl; discriminate.
  - repeat match goal with
           | |- context [PyStr.any_in ?ws ?s] => destruct (PyStr.any_in ws s)
           end; simpl;
      repeat first [apply sublist_nil | apply sublist_skip | apply sublist_cons].
  - reflexivity.
Qed.

Lemma any_in_eq (words : list string) (s s' : string) :
  (forall w, In w words -> PyStr.str_in w s = PyStr.str_in w s') ->
  PyStr.any_in words s = PyStr.any_in words s'.
Proof.
  unfold PyStr.any_in. induction words as [|w words IH]; intros H; [reflexivity|].
  simpl. rewrite (H w) by (now left). rewrite IH; [reflexivity|].
  intros v Hv. apply H. now right.
Qed.

(** Every keyword the journal fallback looks for: the two mood lists and
    the four theme lists. *)
Lemma journal_keywords_plain (w : string) :
  In w (JournalAgent.positive_words ++ JournalAgent.negative_words
        ++ ["work"; "job"; "career"; "office"]
        ++ ["relationship"; "friend"; "family"; "partner"]
        ++ ["health"; "exercise"; "diet"; "sleep"]
        ++ ["stress"; "anxiety"; "worry"; "fear"]) ->
  PyStr.space_free w = true.
Proof.
  intros Hw.
  match type of Hw with In _ ?l =>
    assert (H : forallb PyStr.space_free l = true) by (vm_compute; reflexivity)
  end.
  rewrite forallb_forall in H. exact (H w Hw).
Qed.

(** The analysis of two texts joined by a blank depends only on which
    keywords each part holds. *)
Lemma fallback_analysis_joined (a b a' b' : string) :
  (forall w, PyStr.space_free w = true ->
     PyStr.str_in w (PyStr.lower a) || PyStr.str_in w (PyStr.lower b)
     = PyStr.str_in w (PyStr.lower a') || PyStr.str_in w (PyStr.lower b')) ->
  JournalAgent._fallback_analysis (a +:+ " " +:+ b)
  = JournalAgent._fallback_analysis (a' +:+ " " +:+ b').
Proof.
  intros H.
  assert (Hw : forall w,
    In w (JournalAgent.positive_words ++ JournalAgent.negative_words
          ++ ["work"; "job"; "career"; "office"]
          ++ ["relationship"; "friend"; "family"; "partner"]
          ++ ["health"; "exercise"; "diet"; "sleep"]
          ++ ["stress"; "anxiety"; "worry"; "fear"]) ->
    PyStr.str_in w (PyStr.lower (a +:+ " " +:+ b))
    = PyStr.str_in w (PyStr.lower (a' +:+ " " +:+ b'))).
  { intros w Hin. apply journal_keywords_plain in Hin.
    rewrite !lower_app. change (PyStr.lower " ") with " ".
    rewrite !str_in_sep by assumption. now apply H. }
  unfold JournalAgent._fallback_analysis, JournalAgent.fallback_mood,
    JournalAgent.fallback_themes, JournalAgent.positive_count,
    JournalAgent.negative_count.
  rewrite (count_in_eq JournalAgent.positive_words _
             (PyStr.lower (a' +:+ " " +:+ b')))
    by (intros w Hin; apply Hw; rewrite !in_app_iff; auto).
  rewrite (count_in_eq JournalAgent.negative_words _
             (PyStr.lower (a' +:+ " " +:+ b')))
    by (intros w Hin; apply Hw; rewrite !in_app_iff; auto).
  rewrite (any_in_eq ["work"; "job"; "career"; "office"] _
             (PyStr.lower (a' +:+ " " +:+ b')))
    by (intros w Hin; apply Hw; rewrite !in_app_iff; auto).
  rewrite (any_in_eq ["relationship"; "friend"; "family"; "partner"] _
             (PyStr.lower (a' +:+ " " +:+ b')))
    by (intros w Hin; apply Hw; rewrite !in_app_iff; auto 6).
  rewrite (any_in_eq ["health"; "exercise"; "diet"; "sleep"] _
             (PyStr.lower (a' +:+ " " +:+ b')))
    by (intros w Hin; apply Hw; rewrite !in_app_iff; auto 7).
  rewrite (any_in_eq ["stress"; "anxiety"; "worry"; "fear"] _
             (PyStr.lower (a' +:+ " " +:+ b')))
    by (intros w Hin; apply Hw; rewrite !in_app_iff; auto 8).
  reflexivity.
Qed.

(** X3: the fallback analysis sees which keywords occur, not how often or
    where: writing a text twice, or swapping two parts joined by a
    blank, leaves the whole analysis unchanged. *)
Theorem fallback_analysis_counts_words_once (a b : string) :
  JournalAgent._fallback_analysis (a +:+ " " +:+ a +:+ " " +:+ b)
  = JournalAgent._fallback_analysis (a +:+ " " +:+ b)
  /\ JournalAgent._fallback_analysis (a +:+ " " +:+ b)
     = JournalAgent._fallback_analysis (b +:+ " " +:+ a).
Proof.
  split.
  - apply fallback_analysis_joined. intros w Hw.
    rewrite !lower_app. change (PyStr.lower " ") with " ".
    rewrite str_in_sep by assumption.
    destruct (PyStr.str_in w (PyStr.lower a)), (PyStr.str_in w (PyStr.lower b));
      reflexivity.
  - apply fallback_analysis_joined. intros w _. apply orb_comm.
Qed.

Lemma append_assoc (a b c : string) : (a +:+ b) +:+ c = a +:+ b +:+ c.
Proof.
  induction a as [|x a IH]; [reflexivity|].
  rewrite !append_cons. now rewrite IH.
Qed.

(** A keyword is found wherever it stands, also inside a longer word. *)
Lemma str_in_embedded (w pre post before after : string) :
  PyStr.lower w = w ->
  PyStr.str_in w (PyStr.lower (pre +:+ (before +:+ w +:+ after) +:+ post)) = true.
Proof.
  intros Hw. apply str_in_spec.
  exists (PyStr.lower pre +:+ PyStr.lower before),
         (PyStr.lower after +:+ PyStr.lower post).
  rewrite !lower_app, Hw, !append_assoc. reflexivity.
Qed.

Lemma count_in_found (words : list string) (w s : string) :
  In w words -> PyStr.str_in w s = true -> 1 <= PyStr.count_in words s.
Proof.
  unfold PyStr.count_in. induction words as [|v words IH]; intros Hin Hs;
    [destruct Hin|].
  rewrite filter_cons. destruct Hin as [<-|Hin].
  - rewrite decide_True by exact Hs. simpl. lia.
  - destruct (decide (PyStr.str_in v s = true)); simpl; [lia | now apply IH].
Qed.

Lemma any_in_found (words : list string) (w s : string) :
  In w words -> PyStr.str_in w s = true -> PyStr.any_in words s = true.
Proof.
  intros Hin Hs. unfold PyStr.any_in. apply existsb_exists. eauto.
Qed.

(** X4: keywords are matched as substrings, so the journal fallback
    counts ["unhappy"] as the positive word ["happy"]: a text holding
    ["unhappy"] and no word of the negative list is labelled
    ["positive"] with score 7.0. *)
Theorem fallback_reads_unhappy_as_positive (pre post : string) :
  JournalAgent.negative_count (pre +:+ "unhappy" +:+ post) = 0 ->
  JournalAgent.mood_label
    (JournalAgent._fallback_analysis (pre +:+ "unhappy" +:+ post)) = "positive"
  /\ JournalAgent.mood_score
       (JournalAgent._fallback_analysis (pre +:+ "unhappy" +:+ post)) = 7 # 1.
Proof.
  intros Hneg.
  assert (Hpos : 1 <= JournalAgent.positive_count (pre +:+ "unhappy" +:+ post)).
  { apply (count_in_found _ "happy"); [simpl; auto|].
    exact (str_in_embedded "happy" pre post "un" "" eq_refl). }
  unfold JournalAgent._fallback_analysis, JournalAgent.fallback_mood.
  cbn [JournalAgent.mood_label JournalAgent.mood_score]. rewrite Hneg.
  destruct (Nat.ltb_spec 0
              (JournalAgent.positive_count (pre +:+ "unhappy" +:+ post)));
    [split; reflexivity | lia].
Qed.

(** X4 at work. *)
Lemma fallback_reads_unhappy_as_positive_witness :
  JournalAgent.mood_label
    (JournalAgent._fallback_analysis ("I am " +:+ "unhappy" +:+ " today"))
  = "positive".
Proof.
  apply (fallback_reads_unhappy_as_positive "I am " " today").
  vm_compute. reflexivity.
Defined.

(** X5: a message holding one of ["sad"], ["depressed"], ["down"],
    ["unhappy"] gets the feeling-down reply whatever else it says; in
    particular ["unhappy"] is not answered as ["happy"]. *)
Theorem fallback_reply_down_first (w pre post : string) :
  In w ["sad"; "depressed"; "down"; "unhappy"] ->
  ConversationAgent.fallback_reply (pre +:+ w +:+ post)
  = "I hear that you're feeling down. What's been on your mind lately?".
Proof.
  intros Hw. unfold ConversationAgent.fallback_reply.
  rewrite (any_in_found _ w); [reflexivity | exact Hw |].
  assert (Hl : PyStr.lower w = w)
    by (destruct Hw as [<-|[<-|[<-|[<-|[]]]]]; reflexivity).
  apply str_in_spec. exists (PyStr.lower pre), (PyStr.lower post).
  now rewrite !lower_app, Hl.
Qed.

(** X5 at work: the message also holds ["happy"] and ["great"]. *)
Lemma fallback_reply_down_first_witness :
  ConversationAgent.fallback_reply ("not " +:+ "unhappy" +:+ ", feeling great")
  = "I hear that you're feeling down. What's been on your mind lately?".
Proof.
  apply (fallback_reply_down_first "unhappy" "not " ", feeling great").
  simpl. auto.
Defined.

(** ** Session transcripts *)

(** X6: when the model answers, the reply is returned as it is, the
    model was shown the transcript stored so far, and exactly the pair
    (user message, reply) is appended to this session's transcript,
    which starts empty for a new session; other sessions are untouched. *)
Theorem model_reply_appends_one_turn ainvoke now user_message session_id
    conversation_type theme (mem : ConversationAgent.memories) reply :
  ainvoke
    {| ConversationAgent.prompt_template :=
         if String.eqb conversation_type "socratic" then "socratic"
         else if String.eqb conversation_type "cbt" then "cbt" else "general";
       ConversationAgent.prompt_user_message := user_message;
       ConversationAgent.prompt_theme := Py.str_or theme "general";
       ConversationAgent.prompt_session_id := session_id;
       ConversationAgent.prompt_conversation_history :=
         default [] (mem !! session_id) |}
  = Returned reply ->
  let result :=
    ConversationAgent.generate_response true ainvoke now user_message
      session_id conversation_type theme mem in
  ConversationAgent.response result.1 = reply
  /\ ConversationAgent.fallback result.1 = false
  /\ result.2 !! session_id
     = Some (default [] (mem !! session_id)
             ++ [(ConversationAgent.Human, user_message);
                 (ConversationAgent.AI, reply)])
  /\ forall other, other <> session_id -> result.2 !! other = mem !! other.
Proof.
  intros Hreply. cbv zeta.
  unfold ConversationAgent.generate_response,
    ConversationAgent._get_conversation_memory,
    ConversationAgent.save_context.
  destruct (mem !! session_id) as [memory|] eqn:E; cbn [from_option id] in Hreply;
    rewrite Hreply; cbn [fst snd ConversationAgent.response ConversationAgent.fallback].
  - split; [reflexivity|]. split; [reflexivity|]. split.
    + now rewrite lookup_alter_eq, E.
    + intros other Hne. now rewrite lookup_alter_ne.
  - split; [reflexivity|]. split; [reflexivity|]. split.
    + now rewrite lookup_alter_eq, lookup_insert_eq.
    + intros other Hne. now rewrite lookup_alter_ne, lookup_insert_ne.
Qed.

(** X6 at work: a first message in a new session. *)
Lemma model_reply_appends_one_turn_witness :
  (ConversationAgent.generate_response true (fun _ => Returned "hi") "t"
     "hello" "s1" "general" None ∅).2 !! "s1"
  = Some [(ConversationAgent.Human, "hello"); (ConversationAgent.AI, "hi")].
Proof.
  destruct (model_reply_appends_one_turn (fun _ => Returned "hi") "t" "hello" "s1"
              "general" None ∅ "hi" eq_refl) as (_ & _ & H & _).
  rewrite lookup_empty in H. exact H.
Defined.

(** X7: [generate_response] only ever appends: on every path and for
    every session, the transcript stored before is a prefix of the one
    stored after, and no session disappears. *)
Theorem transcripts_are_append_only use_llm ainvoke now user_message session_id
    conversation_type theme (mem : ConversationAgent.memories) s t :
  mem !! s = Some t ->
  exists added,
    (ConversationAgent.generate_response use_llm ainvoke now user_message
       session_id conversation_type theme mem).2 !! s = Some (t ++ added).
Proof.
  intros Hs. unfold ConversationAgent.generate_response.
  destruct use_llm; [|exists []; now rewrite app_nil_r].
  unfold ConversationAgent._get_conversation_memory,
    ConversationAgent.save_context.
  destruct (decide (s = session_id)) as [->|Hne].
  - rewrite Hs. destruct (ainvoke _) as [reply|]; simpl.
    + eexists. now rewrite lookup_alter_eq, Hs.
    + exists []. now rewrite app_nil_r.
  - destruct (mem !! session_id) as [memory|]; destruct (ainvoke _) as [reply|];
      simpl; exists []; rewrite app_nil_r;
      rewrite ?lookup_alter_ne, ?lookup_insert_ne by congruence; exact Hs.
Qed.

(** X7 at work. *)
Lemma transcripts_are_append_only_witness :
  exists added,
    (ConversationAgent.generate_response true (fun _ => Returned "hi") "t"
       "hello" "s1" "general" None
       {[ "s1" := [(ConversationAgent.Human, "a"); (ConversationAgent.AI, "b")] ]}).2
    !! "s1"
    = Some ([(ConversationAgent.Human, "a"); (ConversationAgent.AI, "b")] ++ added).
Proof.
  apply (transcripts_are_append_only true (fun _ => Returned "hi") "t" "hello" "s1"
           "general" None
           {[ "s1" := [(ConversationAgent.Human, "a"); (ConversationAgent.AI, "b")] ]}
           "s1").
  apply lookup_singleton_eq.
Defined.

(** Ending a session that has no transcript returns the plain farewell
    and changes nothing; the summary chain is not consulted. *)
Lemma end_conversation_unknown use_llm summary_chain now session_id
    (mem : ConversationAgent.memories) :
  mem !! session_id = None ->
  ConversationAgent.end_conversation use_llm summary_chain now session_id mem
  = (Returned
       {| ConversationAgent.end_session_id := session_id;
          ConversationAgent.end_summary := None;
          ConversationAgent.end_message :=
            "Thank you for our conversation. I hope it was helpful.";
          ConversationAgent.end_timestamp := now |},
     mem).
Proof.
  intros H. unfold ConversationAgent.end_conversation. now rewrite H.
Qed.

(** X8: once [end_conversation] has returned, ending the same session
    again, with any model behaviour, returns the plain farewell without
    a summary and leaves the memories as they are. *)
Theorem end_conversation_twice use_llm summary_chain summary_chain' now now'
    session_id (mem : ConversationAgent.memories) r :
  let first :=
    ConversationAgent.end_conversation use_llm summary_chain now session_id mem in
  first.1 = Returned r ->
  ConversationAgent.end_conversation use_llm summary_chain' now' session_id first.2
  = (Returned
       {| ConversationAgent.end_session_id := session_id;
          ConversationAgent.end_summary := None;
          ConversationAgent.end_message :=
            "Thank you for our conversation. I hope it was helpful.";
          ConversationAgent.end_timestamp := now' |},
     first.2).
Proof.
  cbv zeta. intros H. apply end_conversation_unknown.
  exact (end_conversation_returned _ _ _ _ _ _ H).
Qed.

(** X8 at work. *)
Lemma end_conversation_twice_witness :
  (ConversationAgent.end_conversation false (fun _ => Raised "") "t2" "s1"
     (ConversationAgent.end_conversation false (fun _ => Raised "") "t1" "s1"
        {[ "s1" := [(ConversationAgent.Human, "a")] ]}).2).2
  = (ConversationAgent.end_conversation false (fun _ => Raised "") "t1" "s1"
       {[ "s1" := [(ConversationAgent.Human, "a")] ]}).2.
Proof.
  refine (f_equal snd
            (end_conversation_twice false (fun _ => Raised "") (fun _ => Raised "")
               "t1" "t2" "s1" {[ "s1" := [(ConversationAgent.Human, "a")] ]}
               _ _)).
  unfold ConversationAgent.end_conversation. rewrite lookup_singleton_eq.
  reflexivity.
Defined.

(** ** Conversation openings and suggestions *)

(** X9: a session is opened in the style its messages will be answered
    in: for every conversation type, the opening message is the one of
    the prompt template that [generate_response] picks for that type
    (socratic, cbt, and general for everything else). *)
Theorem opening_matches_prompt_template uuid4 now user_id conversation_type
    user_message session_id theme (mem : ConversationAgent.memories) :
  let template_used :=
    ConversationAgent.response
      (ConversationAgent.generate_response true
         (fun p => Returned (ConversationAgent.prompt_template p)) now
         user_message session_id conversation_type theme mem).1 in
  In template_used ["socratic"; "cbt"; "general"]
  /\ ConversationAgent.opening_message
       (ConversationAgent.start_conversation uuid4 now user_id conversation_type None)
     = ConversationAgent.opening_for template_used.
Proof.
  cbv zeta. unfold ConversationAgent.generate_response.
  destruct (ConversationAgent._get_conversation_memory session_id mem) as [memory mem1].
  cbn [fst ConversationAgent.response ConversationAgent.prompt_template
       ConversationAgent.start_conversation ConversationAgent.opening_message].
  unfold ConversationAgent.opening_for.
  destruct (String.eqb conversation_type "socratic"); [simpl; auto|].
  destruct (String.eqb conversation_type "cbt"); simpl; auto.
Qed.

(** X10: there is always something to suggest: for every history the
    agent returns between one and three topics. *)
Theorem suggestions_between_one_and_three
    (user_history : list ConversationAgent.HistoryEntry) :
  1 <= length (ConversationAgent.suggest_conversation_topics user_history) <= 3.
Proof.
  unfold ConversationAgent.suggest_conversation_topics.
  destruct user_history as [|e user_history]; [simpl; lia|].
  unfold Py.first_n. rewrite length_take.
  match goal with
  | |- context [length ?chosen] =>
      assert (1 <= length chosen);
      [ match goal with
        | |- context [match ?l with [] => _ | _ :: _ => ?l end] =>
            destruct l; cbn [length]; lia
        end
      | lia ]
  end.
Qed.

Lemma conversation_order_length (rows : list ConversationApi.Row) :
  length (ConversationApi.order_by_created_at_desc rows) = length rows.
Proof.
  induction rows as [|r rows IH]; [reflexivity|]. simpl. rewrite <- IH.
  generalize (ConversationApi.order_by_created_at_desc rows) as sorted.
  induction sorted as [|r' sorted IHs]; [reflexivity|]. simpl.
  destruct (ConversationApi.created_at r' <=? ConversationApi.created_at r)%Z;
    simpl; [reflexivity | now rewrite IHs].
Qed.

(** A history whose entries carry none of the keys the agent reads
    yields the three default topics. *)
Lemma suggestions_for_blank_history (rows : list ConversationApi.Row) :
  rows <> [] ->
  ConversationAgent.suggest_conversation_topics
    (map ConversationApi.history_entry_of_row rows)
  = ["How has your week been so far?";
     "Is there anything you're looking forward to?";
     "What's been the highlight of your day?"].
Proof.
  intros Hne. unfold ConversationAgent.suggest_conversation_topics.
  destruct rows as [|r rows]; [congruence|]. cbn [map].
  change (ConversationApi.history_entry_of_row r
          :: map ConversationApi.history_entry_of_row rows)
    with (map ConversationApi.history_entry_of_row (r :: rows)).
  unfold Py.last_n. rewrite <- !fmap_drop, <- !list_fmap_compose.
  assert (Hthemes : forall l : list ConversationApi.Row,
    concat ((fun e => default [] (ConversationAgent.history_themes e))
            ∘ ConversationApi.history_entry_of_row <$> l) = [])
    by (induction l; simpl; auto).
  assert (Hgrowth : forall l : list ConversationApi.Row,
    concat ((fun e =>
               match default [] (ConversationAgent.history_growth_areas e) with
               | [] => []
               | area :: _ =>
                   ["I see you've been working on " +:+ area +:+ ". How's that going?"]
               end) ∘ ConversationApi.history_entry_of_row <$> l) = [])
    by (induction l; simpl; auto).
  assert (Hmoods : forall l : list ConversationApi.Row,
    existsb (String.eqb "negative")
      ((fun e => default "neutral" (ConversationAgent.history_mood_label e))
       ∘ ConversationApi.history_entry_of_row <$> l) = false)
    by (induction l; simpl; auto).
  rewrite Hthemes, Hgrowth, Hmoods. reflexivity.
Qed.

(** X11: the suggestions endpoint hands the agent rows without themes,
    mood labels or growth areas, so its answer depends only on whether
    the user has any stored conversation: the three generic openers if
    not, the three "week" topics otherwise; [total_conversations] is the
    number of the user's rows, capped at 10. *)
Theorem suggestions_endpoint_two_answers current_user
    (db : list ConversationApi.Row) :
  let mine := filter (fun r => ConversationApi.user_id r = current_user) db in
  let answer := ConversationApi.get_conversation_suggestions current_user db in
  ConversationApi.total_conversations answer = min 10 (length mine)
  /\ ConversationApi.suggestions answer
     = match mine with
       | [] => ["How are you feeling today?";
                "What's been on your mind lately?";
                "Is there anything you'd like to explore or discuss?"]
       | _ :: _ => ["How has your week been so far?";
                    "Is there anything you're looking forward to?";
                    "What's been the highlight of your day?"]
       end.
Proof.
  cbv zeta. unfold ConversationApi.get_conversation_suggestions.
  cbn [ConversationApi.total_conversations ConversationApi.suggestions].
  unfold Py.first_n. rewrite length_take, conversation_order_length.
  split; [reflexivity|].
  destruct (filter _ db) as [|r mine] eqn:E; [reflexivity|].
  apply suggestions_for_blank_history.
  intros H. apply (f_equal length) in H.
  rewrite length_take, conversation_order_length in H. simpl in H. lia.
Qed.

(** ** Active sessions *)

Lemma conversation_insert_head (r : ConversationApi.Row)
    (sorted : list ConversationApi.Row) :
  head (ConversationApi.insert_newest_first r sorted)
  = Some match head sorted with
         | Some r' =>
             if (ConversationApi.created_at r' <=? ConversationApi.created_at r)%Z
             then r else r'
         | None => r
         end.
Proof.
  destruct sorted as [|r' sorted]; [reflexivity|]. simpl.
  now destruct (ConversationApi.created_at r' <=? ConversationApi.created_at r)%Z.
Qed.

Lemma conversation_order_head_In (rows : list ConversationApi.Row) r :
  head (ConversationApi.order_by_created_at_desc rows) = Some r -> In r rows.
Proof.
  revert r. induction rows as [|x rows IH]; intros r; [discriminate|].
  simpl. rewrite conversation_insert_head.
  destruct (head (ConversationApi.order_by_created_at_desc rows)) as [r'|].
  - destruct (ConversationApi.created_at r' <=? ConversationApi.created_at x)%Z;
      intros [= <-]; auto.
  - intros [= <-]. auto.
Qed.

(** The row that is strictly newer than every other row comes first. *)
Lemma conversation_order_head_newest (rows : list ConversationApi.Row) r :
  In r rows ->
  (forall r', In r' rows -> r' <> r ->
     (ConversationApi.created_at r' < ConversationApi.created_at r)%Z) ->
  head (ConversationApi.order_by_created_at_desc rows) = Some r.
Proof.
  induction rows as [|x rows IH]; intros Hin Hnew; [destruct Hin|].
  simpl. rewrite conversation_insert_head.
  assert (Hrest : forall r', In r' rows -> r' <> r ->
            (ConversationApi.created_at r' < ConversationApi.created_at r)%Z)
    by (intros r' Hr'; apply Hnew; now right).
  destruct (decide (x = r)) as [->|Hx].
  - destruct (head (ConversationApi.order_by_created_at_desc rows)) as [r'|] eqn:E;
      [|reflexivity].
    apply conversation_order_head_In in E.
    destruct (decide (r' = r)) as [->|Hr'].
    + now destruct (_ <=? _)%Z.
    + specialize (Hrest r' E Hr').
      destruct (Z.leb_spec (ConversationApi.created_at r')
                           (ConversationApi.created_at r)); [reflexivity | lia].
  - destruct Hin as [->|Hin]; [congruence|].
    rewrite (IH Hin Hrest).
    assert (ConversationApi.created_at x < ConversationApi.created_at r)%Z
      by (apply Hnew; [now left | exact Hx]).
    destruct (Z.leb_spec (ConversationApi.created_at r)
                         (ConversationApi.created_at x)); [lia | reflexivity].
Qed.

Lemma distinct_In (s : string) (ids : list string) :
  In s (ConversationApi.distinct ids) <-> In s ids.
Proof.
  induction ids as [|x ids IH]; [reflexivity|]. simpl.
  rewrite <- IH, <- !list_elem_of_In, list_elem_of_filter.
  destruct (decide (s = x)) as [->|Hne]; [tauto|].
  split; [intros [?|[_ ?]]; auto | intros [?|?]; [congruence | auto]].
Qed.

(** X12: the session list is keyed by session id alone. If the user
    has a row in a session, the entry shown for that session is taken
    from the newest row carrying that session id, whoever owns it: the
    last message and reply of another user are listed when that user
    wrote to the same session id later. *)
Theorem active_sessions_show_newest_row_of_any_user current_user
    (db : list ConversationApi.Row) (mine newest : ConversationApi.Row) :
  In mine db -> ConversationApi.user_id mine = current_user ->
  In newest db ->
  ConversationApi.session_id newest = ConversationApi.session_id mine ->
  (forall r, In r db ->
     ConversationApi.session_id r = ConversationApi.session_id mine ->
     r <> newest ->
     (ConversationApi.created_at r < ConversationApi.created_at newest)%Z) ->
  In {| ConversationApi.info_session_id := ConversationApi.session_id mine;
        ConversationApi.last_message := ConversationApi.message newest;
        ConversationApi.last_response := ConversationApi.response newest;
        ConversationApi.info_conversation_type :=
          ConversationApi.conversation_type newest;
        ConversationApi.info_theme := ConversationApi.theme newest;
        ConversationApi.last_updated := ConversationApi.created_at newest |}
     (ConversationApi.get_active_sessions current_user db).
Proof.
  intros Hmine Huser Hnewest Hsid Hnew.
  unfold ConversationApi.get_active_sessions. apply in_concat.
  eexists. split.
  - apply in_map_iff. exists (ConversationApi.session_id mine). split; [reflexivity|].
    apply distinct_In, in_map_iff. exists mine. split; [reflexivity|].
    apply list_elem_of_In, list_elem_of_filter. split; [exact Huser|].
    now apply list_elem_of_In.
  - unfold ConversationApi.latest_of_session.
    rewrite (conversation_order_head_newest _ newest).
    + left. reflexivity.
    + apply list_elem_of_In, list_elem_of_filter. split; [exact Hsid|].
      now apply list_elem_of_In.
    + intros r Hr Hne.
      apply list_elem_of_In, list_elem_of_filter in Hr as [Hrs Hr].
      apply list_elem_of_In in Hr. now apply Hnew.
Qed.

(** X12 at work: user 1 wrote to session ["s"] at time 1, user 2 wrote
    to the same session id at time 2; user 1 is shown user 2's message. *)
Lemma active_sessions_show_newest_row_of_any_user_witness :
  let mine :=
    {| ConversationApi.id := 1; ConversationApi.user_id := 1;
       ConversationApi.session_id := "s"; ConversationApi.message := "mine";
       ConversationApi.response := "r1";
       ConversationApi.conversation_type := "general";
       ConversationApi.theme := None; ConversationApi.created_at := 1 |} in
  let theirs :=
    {| ConversationApi.id := 2; ConversationApi.user_id := 2;
       ConversationApi.session_id := "s"; ConversationApi.message := "theirs";
       ConversationApi.response := "r2";
       ConversationApi.conversation_type := "general";
       ConversationApi.theme := None; ConversationApi.created_at := 2 |} in
  In {| ConversationApi.info_session_id := "s";
        ConversationApi.last_message := "theirs";
        ConversationApi.last_response := "r2";
        ConversationApi.info_conversation_type := "general";
        ConversationApi.info_theme := None;
        ConversationApi.last_updated := 2 |}
     (ConversationApi.get_active_sessions 1 [mine; theirs]).
Proof.
  intros mine theirs.
  apply (active_sessions_show_newest_row_of_any_user 1 [mine; theirs] mine theirs).
  - left. reflexivity.
  - reflexivity.
  - right. left. reflexivity.
  - reflexivity.
  - intros r [<-|[<-|[]]] _ Hne; [unfold mine, theirs; simpl; lia | congruence].
Defined.

(** ** Counters and tables *)

Section CounterFacts.
Import Freq.

Implicit Types (x y k : string) (xs : list string) (items : counter).

Lemma bump_In_other x y n items :
  x <> y -> In (y, n) (bump x items) <-> In (y, n) items.
Proof.
  intros Hne. induction items as [|[k c] items IH]; simpl.
  - split; [intros [[= ? ?]|[]]; congruence | tauto].
  - destruct (String.eqb_spec k x) as [->|Hk]; simpl.
    + split; intros [[= ? ?]|H]; try congruence; auto.
    + rewrite IH. reflexivity.
Qed.

Lemma bump_In_same x n items :
  NoDup (map fst items) ->
  In (x, n) (bump x items) <->
  (exists m, In (x, m) items /\ n = S m) \/ (~ In x (map fst items) /\ n = 1).
Proof.
  induction items as [|[k c] items IH]; intros Hnd; simpl.
  - split.
    + intros [[= <-]|[]]. right. tauto.
    + intros [(m & [] & _)|[_ ->]]. auto.
  - inversion Hnd as [|? ? Hk Hnd']; subst. specialize (IH Hnd').
    assert (Hfresh : forall m, In (k, m) items -> False).
    { intros m Hm. apply Hk, list_elem_of_In, in_map_iff. now exists (k, m). }
    destruct (String.eqb_spec k x) as [->|Hkx]; simpl.
    + split.
      * intros [[= <-]|Hin]; [left; eauto | destruct (Hfresh _ Hin)].
      * intros [(m & [[= <-]|Hin] & ->)|[Hnot _]];
          [auto | destruct (Hfresh _ Hin) | tauto].
    + rewrite IH. split.
      * intros [[= ? ?]|[(m & Hin & ->)|[Hnot ->]]]; [congruence| |].
        -- left. eauto.
        -- right. split; [|reflexivity]. intros [?|?]; congruence.
      * intros [(m & [[= ? ?]|Hin] & ->)|[Hnot ->]]; [congruence| |].
        -- right. left. eauto.
        -- right. right. tauto.
Qed.

Lemma count_items_keys_NoDup xs : NoDup (map fst (count_items xs)).
Proof.
  induction xs as [|x xs IH] using rev_ind; [constructor|].
  rewrite count_items_snoc.
  destruct (In_dec string_dec x (map fst (count_items xs))) as [Hx|Hx].
  - now rewrite bump_keys_known.
  - rewrite bump_keys_new by exact Hx. apply NoDup_app. split; [exact IH|].
    split; [|apply NoDup_singleton].
    intros y Hy Hy'. apply list_elem_of_In in Hy, Hy'. destruct Hy' as [<-|[]]. auto.
Qed.

(** X13: the counter holds one row for each distinct item, with the
    number of times the item occurs. *)
Theorem count_items_counts xs k n :
  In (k, n) (count_items xs) <-> n = count_occ string_dec xs k /\ 0 < n.
Proof.
  revert k n. induction xs as [|x xs IH] using rev_ind; intros k n.
  - simpl. split; [tauto | intros [-> H]; simpl in H; lia].
  - rewrite count_items_snoc, count_occ_app. simpl.
    destruct (string_dec x k) as [->|Hne].
    + rewrite bump_In_same by apply count_items_keys_NoDup.
      rewrite count_items_keys_In, (count_occ_In string_dec). split.
      * intros [(m & Hm & ->)|[Hnot ->]].
        -- apply IH in Hm as [-> ?]. lia.
        -- lia.
      * intros [-> _].
        destruct (count_occ string_dec xs k) as [|c] eqn:E.
        -- right. split; [lia | reflexivity].
        -- left. exists (S c). split; [apply IH; rewrite E; lia | lia].
    + rewrite bump_In_other by exact Hne. rewrite IH. lia.
Qed.

End CounterFacts.

Lemma StronglySorted_app_between {A} (R : A -> A -> Prop) (l1 l2 : list A) a b :
  StronglySorted R (l1 ++ l2) -> In a l1 -> In b l2 -> R a b.
Proof.
  induction l1 as [|x l1 IH]; intros Hs Ha Hb; [destruct Ha|].
  simpl in Hs. apply StronglySorted_inv in Hs as [Hs Hx].
  destruct Ha as [<-|Ha]; [|now apply IH].
  rewrite Forall_forall in Hx. apply Hx, list_elem_of_In, in_or_app. now right.
Qed.

(** X14: [sorted(...)[:cap]] keeps the rows with the largest counts:
    the table has [min(cap, number of rows)] rows, all taken from the
    counter, and any row of the counter that is not in the table has a
    count no larger than every row that is. *)
Theorem top_keeps_largest_counts (cap : nat) (items : Freq.counter) :
  length (Freq.top cap items) = min cap (length items)
  /\ (forall row, In row (Freq.top cap items) -> In row items)
  /\ (forall kept left_out,
        In kept (Freq.top cap items) -> In left_out items ->
        ~ In left_out (Freq.top cap items) -> snd left_out <= snd kept).
Proof.
  unfold Freq.top, Py.first_n. split; [|split].
  - now rewrite length_take, sorted_desc_length.
  - intros row Hrow. apply sorted_desc_In, list_elem_of_In.
    apply list_elem_of_In in Hrow. now apply (subseteq_take cap).
  - intros kept left_out Hkept Hin Hout.
    apply sorted_desc_In in Hin.
    rewrite <- (take_drop cap (Freq.sorted_desc items)) in Hin.
    apply in_app_or in Hin as [Hin|Hin]; [contradiction|].
    apply (StronglySorted_app_between Freq.desc
             (take cap (Freq.sorted_desc items)) (drop cap (Freq.sorted_desc items)));
      [|assumption|assumption].
    rewrite take_drop. apply sorted_desc_sorted.
Qed.


(** ** Aggregates over mood scores *)




(** ** Best and worst day *)

Lemma argmax_from_spec (pre xs : list Q) (best_idx : nat) (best : Q) :
  pre !! best_idx = Some best ->
  (forall y, In y pre -> (y <= best)%Q) ->
  (forall j y, j < best_idx -> pre !! j = Some y -> (y < best)%Q) ->
  exists m,
    (pre ++ xs) !! InsightsAgent.argmax_from best_idx best (length pre) xs = Some m
    /\ (forall y, In y (pre ++ xs) -> (y <= m)%Q)
    /\ (forall j y, j < InsightsAgent.argmax_from best_idx best (length pre) xs ->
                    (pre ++ xs) !! j = Some y -> (y < m)%Q).
Proof.
  revert pre best_idx best. induction xs as [|x xs IH]; intros pre bi b Hb Hle Hlt.
  - simpl. rewrite app_nil_r. eauto.
  - cbn [InsightsAgent.argmax_from].
    replace (pre ++ x :: xs) with ((pre ++ [x]) ++ xs) by (now rewrite <- app_assoc).
    replace (S (length pre)) with (length (pre ++ [x]))
      by (rewrite length_app; simpl; lia).
    destruct (Qlt_le_dec b x) as [Hbx|Hxb].
    + apply (IH (pre ++ [x]) (length pre) x).
      * now rewrite list_lookup_middle.
      * intros y Hy. apply in_app_or in Hy as [Hy|[<-|[]]]; [|apply Qle_refl].
        apply Qlt_le_weak, Qle_lt_trans with b; auto.
      * intros j y Hj Hy. rewrite lookup_app_l in Hy by exact Hj.
        apply Qle_lt_trans with b; [|exact Hbx].
        apply Hle, list_elem_of_In. eapply list_elem_of_lookup_2; eauto.
    + assert (Hbi : bi < length pre) by (eapply lookup_lt_Some; eauto).
      apply IH.
      * now rewrite lookup_app_l.
      * intros y Hy. apply in_app_or in Hy as [Hy|[<-|[]]]; auto.
      * intros j y Hj Hy. rewrite lookup_app_l in Hy by lia. eauto.
Qed.

Lemma argmin_from_spec (pre xs : list Q) (best_idx : nat) (best : Q) :
  pre !! best_idx = Some best ->
  (forall y, In y pre -> (best <= y)%Q) ->
  (forall j y, j < best_idx -> pre !! j = Some y -> (best < y)%Q) ->
  exists m,
    (pre ++ xs) !! InsightsAgent.argmin_from best_idx best (length pre) xs = Some m
    /\ (forall y, In y (pre ++ xs) -> (m <= y)%Q)
    /\ (forall j y, j < InsightsAgent.argmin_from best_idx best (length pre) xs ->
                    (pre ++ xs) !! j = Some y -> (m < y)%Q).
Proof.
  revert pre best_idx best. induction xs as [|x xs IH]; intros pre bi b Hb Hle Hlt.
  - simpl. rewrite app_nil_r. eauto.
  - cbn [InsightsAgent.argmin_from].
    replace (pre ++ x :: xs) with ((pre ++ [x]) ++ xs) by (now rewrite <- app_assoc).
    replace (S (length pre)) with (length (pre ++ [x]))
      by (rewrite length_app; simpl; lia).
    destruct (Qlt_le_dec x b) as [Hxb|Hbx].
    + apply (IH (pre ++ [x]) (length pre) x).
      * now rewrite list_lookup_middle.
      * intros y Hy. apply in_app_or in Hy as [Hy|[<-|[]]]; [|apply Qle_refl].
        apply Qlt_le_weak, Qlt_le_trans with b; auto.
      * intros j y Hj Hy. rewrite lookup_app_l in Hy by exact Hj.
        apply Qlt_le_trans with b; [exact Hxb|].
        apply Hle, list_elem_of_In. eapply list_elem_of_lookup_2; eauto.
    + assert (Hbi : bi < length pre) by (eapply lookup_lt_Some; eauto).
      apply IH.
      * now rewrite lookup_app_l.
      * intros y Hy. apply in_app_or in Hy as [Hy|[<-|[]]]; auto.
      * intros j y Hj Hy. rewrite lookup_app_l in Hy by lia. eauto.
Qed.

(** X17: [np.argmax] and [np.argmin] as used for the best and worst
    day: on a non-empty list of scores the index is in range, the score
    there is the largest (smallest) of all, and every earlier score is
    strictly smaller (larger), so among equal days the earliest is
    chosen. *)
Theorem best_and_worst_index (x : Q) (xs : list Q) :
  (exists best,
     (x :: xs) !! InsightsAgent.argmax (x :: xs) = Some best
     /\ (forall y, In y (x :: xs) -> (y <= best)%Q)
     /\ (forall j y, j < InsightsAgent.argmax (x :: xs) ->
                     (x :: xs) !! j = Some y -> (y < best)%Q))
  /\ (exists worst,
        (x :: xs) !! InsightsAgent.argmin (x :: xs) = Some worst
        /\ (forall y, In y (x :: xs) -> (worst <= y)%Q)
        /\ (forall j y, j < InsightsAgent.argmin (x :: xs) ->
                        (x :: xs) !! j = Some y -> (worst < y)%Q)).
Proof.
  split.
  - apply (argmax_from_spec [x] xs 0 x); [reflexivity| |lia].
    intros y [<-|[]]. apply Qle_refl.
  - apply (argmin_from_spec [x] xs 0 x); [reflexivity| |lia].
    intros y [<-|[]]. apply Qle_refl.
Qed.

(** ** Best and worst day *)


(** ** Habit correlations *)

Lemma unique_NoDup (names : list string) : NoDup (InsightsAgent.unique names).
Proof.
  induction names as [|n names IH]; simpl; [constructor|].
  constructor; [|now apply NoDup_filter].
  rewrite list_elem_of_filter. tauto.
Qed.

Lemma unique_In (names : list string) n :
  In n (InsightsAgent.unique names) <-> In n names.
Proof.
  induction names as [|x names IH]; [reflexivity|]. simpl.
  rewrite <- IH, <- !list_elem_of_In, list_elem_of_filter.
  destruct (decide (n = x)) as [->|Hne]; [tauto|].
  split; [intros [?|[_ ?]]; auto | intros [?|?]; [congruence | auto]].
Qed.

Lemma correlate_keys draw k n_mood (habit_entries : list InsightsAgent.HabitEntry)
    (names : list string) :
  map fst (InsightsAgent.correlate draw k n_mood habit_entries names)
  = filter (fun name =>
              2 <= length (filter (fun h => InsightsAgent.habit_name h = name)
                                  habit_entries)
              /\ 2 <= n_mood)
           names.
Proof.
  revert k. induction names as [|name names IH]; intros k; [reflexivity|].
  cbn [InsightsAgent.correlate]. rewrite filter_cons.
  destruct (Nat.ltb_spec 1 (length (filter (fun h => InsightsAgent.habit_name h = name)
                                           habit_entries)));
    destruct (Nat.ltb_spec 1 n_mood); cbn [andb].
  - rewrite decide_True by lia. cbn [map fst]. now rewrite IH.
  - rewrite decide_False by lia. apply IH.
  - rewrite decide_False by lia. apply IH.
  - rewrite decide_False by lia. apply IH.
Qed.

Lemma habits_with_In label (cs : list (string * InsightsAgent.Correlation)) h :
  In h (InsightsAgent.habits_with label cs) <->
  exists c, In (h, c) cs /\ InsightsAgent.impact c = label.
Proof.
  unfold InsightsAgent.habits_with. rewrite in_map_iff. split.
  - intros ([h' c] & <- & Hin).
    apply list_elem_of_In, list_elem_of_filter in Hin as [Hc Hin].
    exists c. split; [now apply list_elem_of_In | exact Hc].
  - intros (c & Hin & Hc). exists (h, c). split; [reflexivity|].
    apply list_elem_of_In, list_elem_of_filter. split; [exact Hc|].
    now apply list_elem_of_In.
Qed.

Lemma keys_NoDup_functional {A} (l : list (string * A)) k (a b : A) :
  NoDup (map fst l) -> In (k, a) l -> In (k, b) l -> a = b.
Proof.
  induction l as [|[k' c] l IH]; intros Hnd Ha Hb; [destruct Ha|].
  simpl in Hnd. inversion Hnd as [|? ? Hk Hnd']; subst.
  assert (Hfresh : forall c', In (k', c') l -> False).
  { intros c' Hc'. apply Hk, list_elem_of_In, in_map_iff. now exists (k', c'). }
  destruct Ha as [Ha|Ha], Hb as [Hb|Hb].
  - congruence.
  - injection Ha as -> ->. destruct (Hfresh _ Hb).
  - injection Hb as -> ->. destruct (Hfresh _ Ha).
  - now apply IH.
Qed.

(** X20: habit correlations are the message exactly when the mood
    entries or the habit entries are empty. For habit entries that
    carry their name, whenever correlations are reported there is one
    row for each habit name that has at least two entries, in order of
    first appearance, provided there are at least two mood entries, and
    no row at all otherwise; a habit listed as positive is not also
    listed as negative, and both lists name rows of the table. *)
Theorem habit_correlation_rows use_llm correlation_chain loads draw
    (mood_entries : list InsightsAgent.MoodEntry)
    (habit_entries : list InsightsAgent.HabitEntry) :
  let result :=
    InsightsAgent.analyze_habit_correlations use_llm correlation_chain loads draw
      mood_entries habit_entries in
  (mood_entries = [] \/ habit_entries = []
   <-> result
       = InsightsAgent.HabitMessage "Insufficient data for correlation analysis")
  /\ match result with
     | InsightsAgent.HabitReport r =>
         map fst (InsightsAgent.correlations r)
         = filter (fun name =>
                     2 <= length (filter (fun h => InsightsAgent.habit_name h = name)
                                         habit_entries)
                     /\ 2 <= length mood_entries)
                  (InsightsAgent.unique (map InsightsAgent.habit_name habit_entries))
         /\ NoDup (map fst (InsightsAgent.correlations r))
         /\ (forall h, In h (InsightsAgent.positive_habits r) ->
                       ~ In h (InsightsAgent.negative_habits r))
         /\ (forall h, In h (InsightsAgent.positive_habits r
                             ++ InsightsAgent.negative_habits r) ->
                       In h (map fst (InsightsAgent.correlations r)))
     | InsightsAgent.HabitMessage _ | InsightsAgent.HabitFailure _ _ => True
     end.
Proof.
  set (cs := InsightsAgent.correlate draw 0 (length mood_entries) habit_entries
               (InsightsAgent.unique (map InsightsAgent.habit_name habit_entries))).
  assert (Hkeys : map fst cs
    = filter (fun name =>
                2 <= length (filter (fun h => InsightsAgent.habit_name h = name)
                                    habit_entries)
                /\ 2 <= length mood_entries)
             (InsightsAgent.unique (map InsightsAgent.habit_name habit_entries)))
    by apply correlate_keys.
  assert (Hnd : NoDup (map fst cs))
    by (rewrite Hkeys; apply NoDup_filter, unique_NoDup).
  assert (Hdisj : forall h, In h (InsightsAgent.habits_with "positive" cs) ->
                            ~ In h (InsightsAgent.habits_with "negative" cs)).
  { intros h Hp Hn.
    apply habits_with_In in Hp as (c1 & H1 & Hc1).
    apply habits_with_In in Hn as (c2 & H2 & Hc2).
    pose proof (keys_NoDup_functional cs h c1 c2 Hnd H1 H2) as ->. congruence. }
  assert (Hsub : forall h, In h (InsightsAgent.habits_with "positive" cs
                                 ++ InsightsAgent.habits_with "negative" cs) ->
                           In h (map fst cs)).
  { intros h Hh. apply in_app_or in Hh as [Hh|Hh];
      apply habits_with_In in Hh as (c & Hin & _);
      apply in_map_iff; now exists (h, c). }
  cbv zeta. unfold InsightsAgent.analyze_habit_correlations.
  destruct mood_entries as [|m ms]; [split; [split; auto|exact I]|].
  destruct habit_entries as [|h hs]; [split; [split; auto|exact I]|].
  fold cs.
  assert (Hfull : ~ (m :: ms = [] \/ h :: hs = [])) by (intros [?|?]; discriminate).
  destruct use_llm; [|split; [split; [tauto|discriminate]|cbn; auto]].
  destruct (correlation_chain _ _) as [result|];
    [|split; [split; [tauto|discriminate]|exact I]].
  cbn [mbind outcome_bind Py.bind].
  destruct (loads result) as [llm_analysis|];
    [|split; [split; [tauto|discriminate]|exact I]].
  destruct llm_analysis;
    cbn [Py.get mbind outcome_bind Py.bind];
    (split; [split; [tauto|discriminate]|]); try exact I.
  cbn. auto.
Qed.

(** ** More on plans *)

(** X21: adjusting a plan never invents or reorders themes: the
    adjusted themes are the plan's themes whose name no conversation
    event carries, in their order, followed by at most one "recent
    insights" theme; a plan without a ["themes"] key is treated as
    having none. *)
Theorem adjust_plan_keeps_open_themes now (current_plan : PlannerAgent.Plan)
    (recent_activity : list PlannerAgent.Activity) :
  let old := default [] (PlannerAgent.themes current_plan) in
  exists kept extra,
    PlannerAgent.themes
      (PlannerAgent.adjust_plan_based_on_progress now current_plan recent_activity)
    = Some (kept ++ extra)
    /\ sublist kept old
    /\ (forall t, In t kept <->
                  In t old /\ ~ In (PlannerAgent.theme t)
                                   (PlannerAgent.completed_themes recent_activity))
    /\ (extra = [] \/ extra = [PlannerAgent.recent_insights_theme])
    /\ length (kept ++ extra) <= length old + 1.
Proof.
  cbv zeta. unfold PlannerAgent.adjust_plan_based_on_progress.
  cbn [PlannerAgent.themes].
  set (old := default [] (PlannerAgent.themes current_plan)).
  set (kept := filter _ old).
  assert (Hlen : length kept <= length old) by apply length_filter.
  exists kept, (match PlannerAgent.new_insights recent_activity with
                | [] => []
                | _ :: _ => [PlannerAgent.recent_insights_theme]
                end).
  split; [|split; [|split; [|split]]].
  - destruct (PlannerAgent.new_insights recent_activity);
      [now rewrite app_nil_r | reflexivity].
  - apply sublist_filter.
  - intros t. unfold kept.
    rewrite <- !list_elem_of_In, list_elem_of_filter, !list_elem_of_In.
    rewrite <- mem_spec.
    destruct (PlannerAgent.mem (PlannerAgent.theme t)
                (PlannerAgent.completed_themes recent_activity));
      split; intros [? ?]; split; auto; congruence.
  - destruct (PlannerAgent.new_insights recent_activity); auto.
  - rewrite length_app.
    destruct (PlannerAgent.new_insights recent_activity); simpl; lia.
Qed.

Lemma filter_idem {A} (P : A -> Prop) `{!forall x, Decision (P x)} (l : list A) :
  filter P (filter P l) = filter P l.
Proof.
  induction l as [|x l IH]; [reflexivity|].
  rewrite filter_cons. destruct (decide (P x)) as [Hx|Hx]; [|exact IH].
  rewrite filter_cons, decide_True by exact Hx. now rewrite IH.
Qed.

(** X22: adjusting is not idempotent. When the activity holds journal
    insights and no conversation about "recent insights", each
    adjustment with that activity appends another "recent insights"
    theme: after two adjustments the plan ends with two of them. *)
Theorem adjust_plan_twice_adds_two now now' (current_plan : PlannerAgent.Plan)
    (recent_activity : list PlannerAgent.Activity) :
  PlannerAgent.new_insights recent_activity <> [] ->
  ~ In "recent insights" (PlannerAgent.completed_themes recent_activity) ->
  exists kept,
    PlannerAgent.themes
      (PlannerAgent.adjust_plan_based_on_progress now current_plan recent_activity)
    = Some (kept ++ [PlannerAgent.recent_insights_theme])
    /\ PlannerAgent.themes
         (PlannerAgent.adjust_plan_based_on_progress now'
            (PlannerAgent.adjust_plan_based_on_progress now current_plan
               recent_activity)
            recent_activity)
       = Some (kept ++ [PlannerAgent.recent_insights_theme;
                        PlannerAgent.recent_insights_theme]).
Proof.
  intros Hins Hri. unfold PlannerAgent.adjust_plan_based_on_progress.
  cbn [PlannerAgent.themes].
  destruct (PlannerAgent.new_insights recent_activity) as [|i r]; [congruence|].
  eexists. split; [reflexivity|].
  change (default [] (Some ?l)) with l.
  rewrite filter_app, filter_idem.
  rewrite filter_cons, decide_True, filter_nil.
  - now rewrite <- app_assoc.
  - apply not_true_is_false. intros H. apply mem_spec in H. exact (Hri H).
Qed.

(** X22 at work: one journal event with an insight, an empty plan. *)
Lemma adjust_plan_twice_adds_two_witness :
  let recent_activity :=
    [ {| PlannerAgent.activity_type := Some "journal";
         PlannerAgent.activity_theme := None;
         PlannerAgent.activity_key_insights := Some ["rest helps"] |} ] in
  let current_plan :=
    {| PlannerAgent.themes := Some []; PlannerAgent.fields := ∅ |} in
  exists kept,
    PlannerAgent.themes
      (PlannerAgent.adjust_plan_based_on_progress "t2"
         (PlannerAgent.adjust_plan_based_on_progress "t1" current_plan
            recent_activity)
         recent_activity)
    = Some (kept ++ [PlannerAgent.recent_insights_theme;
                     PlannerAgent.recent_insights_theme]).
Proof.
  intros recent_activity current_plan.
  destruct (adjust_plan_twice_adds_two "t1" "t2" current_plan recent_activity)
    as (kept & _ & H).
  - discriminate.
  - simpl. tauto.
  - exists kept. exact H.
Defined.

Lemma last_n_idem {A} (n : nat) (l : list A) :
  Py.last_n n (Py.last_n n l) = Py.last_n n l.
Proof.
  unfold Py.last_n. rewrite length_drop.
  replace (length l - (length l - n) - n) with 0 by lia. reflexivity.
Qed.

(** X23: the planner's pattern analysis looks at a window only: it is
    determined by the last 10 journal entries and the last 7 mood
    points, and never counts more than 10 entries. *)
Theorem analyze_patterns_window (journal_entries : list PlannerAgent.JournalEntry)
    (mood_data : list PlannerAgent.MoodPoint) conversation_count :
  PlannerAgent._analyze_patterns journal_entries mood_data conversation_count
  = PlannerAgent._analyze_patterns (Py.last_n 10 journal_entries)
      (Py.last_n 7 mood_data) conversation_count
  /\ PlannerAgent.total_entries
       (PlannerAgent._analyze_patterns journal_entries mood_data conversation_count)
     = min 10 (length journal_entries).
Proof.
  unfold PlannerAgent._analyze_patterns. rewrite !last_n_idem.
  split; [reflexivity|]. cbn [PlannerAgent.total_entries].
  unfold Py.last_n. rewrite length_drop. lia.
Qed.

(** ** Conversation history pages *)

Lemma conversation_insert_In (r x : ConversationApi.Row)
    (sorted : list ConversationApi.Row) :
  In x (ConversationApi.insert_newest_first r sorted) <-> x = r \/ In x sorted.
Proof.
  induction sorted as [|r' sorted IH]; simpl; [intuition congruence|].
  destruct (ConversationApi.created_at r' <=? ConversationApi.created_at r)%Z;
    simpl; [intuition congruence|]. rewrite IH. intuition congruence.
Qed.

Lemma conversation_order_In (rows : list ConversationApi.Row) x :
  In x (ConversationApi.order_by_created_at_desc rows) <-> In x rows.
Proof.
  induction rows as [|r rows IH]; [reflexivity|]. simpl.
  rewrite conversation_insert_In, IH. intuition congruence.
Qed.

(** X24: paging through the conversation history loses and repeats
    nothing: for non-negative [skip] and [limit], a page of [a + b]
    rows is the page of [a] rows followed by the page of [b] rows that
    starts [a] later; a page has at most [limit] rows, all of them rows
    of the caller, and of the requested session when one is named. *)
Theorem history_pages_compose (session : option string) (skip a b limit : nat)
    (current_user : Z) (db : list ConversationApi.Row) :
  ConversationApi.get_conversation_history session skip (a + b) current_user db
  = ConversationApi.get_conversation_history session skip a current_user db
    ++ ConversationApi.get_conversation_history session (skip + a) b current_user db
  /\ length (ConversationApi.get_conversation_history session skip limit
               current_user db) <= limit
  /\ forall r,
       In r (ConversationApi.get_conversation_history session skip limit
               current_user db) ->
       In r db /\ ConversationApi.user_id r = current_user
       /\ match session with
          | Some sid => sid = "" \/ ConversationApi.session_id r = sid
          | None => True
          end.
Proof.
  unfold ConversationApi.get_conversation_history.
  set (query := match session with
                | Some sid => if String.eqb sid "" then _ else _
                | None => _
                end).
  split; [|split].
  - now rewrite <- drop_drop, take_take_drop.
  - rewrite length_take. lia.
  - intros r Hr. apply list_elem_of_In in Hr.
    apply (subseteq_take limit), (subseteq_drop skip) in Hr.
    apply list_elem_of_In in Hr. apply (proj1 (conversation_order_In _ _)) in Hr.
    unfold query in Hr. destruct session as [sid|].
    + destruct (String.eqb_spec sid "") as [->|Hsid].
      * apply list_elem_of_In, list_elem_of_filter in Hr as [Hu Hr].
        apply list_elem_of_In in Hr. auto.
      * apply list_elem_of_In, list_elem_of_filter in Hr as [Hs Hr].
        apply list_elem_of_filter in Hr as [Hu Hr].
        apply list_elem_of_In in Hr. auto.
    + apply list_elem_of_In, list_elem_of_filter in Hr as [Hu Hr].
      apply list_elem_of_In in Hr. auto.
Qed.

(** ** Reading and deleting a journal entry *)

(** X25: deleting touches at most the one entry asked for, and only if
    the caller owns it. Whatever the outcome, entries with another id or
    another owner are still stored unchanged, no entry is added, and the
    caller no longer finds the entry; the deletion succeeds exactly when
    the caller could read the entry before. *)
Theorem delete_journal_entry_effect (entry_id current_user : Z)
    (db : JournalCrud.table) :
  let result := JournalCrud.delete_journal_entry entry_id current_user db in
  (forall id entry, result.2 !! id = Some entry -> db !! id = Some entry)
  /\ (forall id entry,
        db !! id = Some entry ->
        id <> entry_id \/ JournalApi.user_id entry <> current_user ->
        result.2 !! id = Some entry)
  /\ JournalCrud.get_journal_entry entry_id current_user result.2
     = JournalCrud.HttpError 404 "Journal entry not found"
  /\ (result.1 = JournalCrud.Ok "Journal entry deleted successfully"
      <-> exists entry,
            JournalCrud.get_journal_entry entry_id current_user db
            = JournalCrud.Ok entry).
Proof.
  cbv zeta. unfold JournalCrud.delete_journal_entry, JournalCrud.get_journal_entry,
    JournalCrud.find_entry.
  destruct (db !! entry_id) as [entry|] eqn:E.
  - destruct (decide (JournalApi.user_id entry = current_user)) as [Hu|Hu];
      cbn [fst snd].
    + split; [|split; [|split]].
      * intros id e He. destruct (decide (id = entry_id)) as [->|Hne].
        -- rewrite lookup_delete_eq in He. discriminate.
        -- now rewrite lookup_delete_ne in He.
      * intros id e He [Hne|Hne].
        -- now rewrite lookup_delete_ne.
        -- destruct (decide (id = entry_id)) as [->|Hid];
             [congruence | now rewrite lookup_delete_ne].
      * now rewrite lookup_delete_eq.
      * split; eauto.
    + split; [auto|]. split; [auto|]. split.
      * rewrite E. now rewrite decide_False.
      * split; [discriminate | intros [? [=]]].
  - cbn [fst snd]. split; [auto|]. split; [auto|]. split.
    + now rewrite E.
    + split; [discriminate | intros [? [=]]].
Qed.

(** ** The pattern endpoint *)

Lemma chars_length (s c : string) : In c (InsightsApi.chars s) -> String.length c = 1.
Proof.
  induction s as [|a s IH]; simpl; [tauto|]. intros [<-|H]; [reflexivity | auto].
Qed.

Lemma top_keys_seen cap (xs : list string) k n :
  In (k, n) (Freq.top cap (Freq.count_items xs)) -> In k xs.
Proof.
  intros H. unfold Freq.top, Py.first_n in H.
  apply list_elem_of_In in H. apply (subseteq_take cap) in H.
  apply list_elem_of_In in H. apply (proj1 (sorted_desc_In _ _)) in H.
  apply count_items_keys_In, in_map_iff. now exists (k, n).
Qed.

(** X26: the pattern endpoint hands the agent the stored JSON text of
    the themes and triggers columns, not the decoded lists, and the agent
    extends its item lists by the characters of that text. If a journal
    row of the caller within the 30 days has a NULL themes column, the
    endpoint answers 500 with the message of the [TypeError]. Otherwise
    it answers with the number of these rows and the patterns, which
    are a message exactly when there is no such row and else a report
    in which every key of the frequency tables is a single
    character. *)
Theorem pattern_endpoint_counts_characters use_llm pattern_chain loads isoformat
    now month current_user (journal_db : list InsightsApi.JournalRow)
    (mood_db : list InsightsApi.MoodRow) :
  let rows :=
    filter (fun r => InsightsApi.user_id r = current_user
                     /\ (now - month <= InsightsApi.created_at r)%Z) journal_db in
  let answer :=
    InsightsApi.get_pattern_analysis use_llm pattern_chain loads isoformat
      now month current_user journal_db mood_db in
  ((exists r, In r rows /\ InsightsApi.themes r = None) ->
   answer
   = InsightsApi.HttpError 500
       "Error getting pattern analysis: 'NoneType' object is not iterable")
  /\ ((forall r, In r rows -> InsightsApi.themes r <> None) ->
      exists response,
        answer = InsightsApi.Ok response
        /\ InsightsApi.total_journal_entries response = length rows
        /\ match InsightsApi.patterns response with
           | InsightsAgent.PatternReport r =>
               rows <> []
               /\ forall key count,
                    In (key, count) (InsightsAgent.recurring_themes r
                                     ++ InsightsAgent.emotional_triggers r) ->
                    String.length key = 1
           | InsightsAgent.PatternMessage _ => rows = []
           end).
Proof.
  cbv zeta. unfold InsightsApi.get_pattern_analysis.
  set (rows := filter _ journal_db). set (moods := map _ (filter _ mood_db)).
  unfold InsightsApi.detect_patterns_of_rows.
  destruct rows as [|row rows].
  { split; [intros (r & [] & _)|]. intros _. eexists. split; [reflexivity|].
    split; reflexivity. }
  destruct (forallb (fun r => bool_decide (is_Some (InsightsApi.themes r)))
                    (row :: rows)) eqn:Hall.
  2:{ split; [reflexivity|]. intros Hsome. exfalso.
      assert (Hb : forallb (fun r => bool_decide (is_Some (InsightsApi.themes r)))
                           (row :: rows) = true).
      { apply forallb_forall. intros r Hr. apply bool_decide_eq_true_2.
        specialize (Hsome r Hr). destruct (InsightsApi.themes r); [eauto|congruence]. }
      congruence. }
  split.
  { intros (r & Hr & Hnone). exfalso.
    rewrite forallb_forall in Hall. specialize (Hall r Hr).
    apply bool_decide_eq_true_1 in Hall. rewrite Hnone in Hall.
    destruct Hall as [? [=]]. }
  intros _.
  set (journal_data := map _ (row :: rows)).
  assert (Hthemes : forall c, In c (InsightsAgent.journal_all_themes journal_data) ->
                              String.length c = 1).
  { intros c Hc. unfold InsightsAgent.journal_all_themes in Hc.
    apply in_concat in Hc as (l & Hl & Hc).
    apply in_map_iff in Hl as (e & <- & He).
    apply in_map_iff in He as (r & <- & _). simpl in Hc.
    now apply chars_length in Hc. }
  assert (Htriggers : forall c, In c (InsightsAgent.journal_all_triggers journal_data) ->
                                String.length c = 1).
  { intros c Hc. unfold InsightsAgent.journal_all_triggers in Hc.
    apply in_concat in Hc as (l & Hl & Hc).
    apply in_map_iff in Hl as (e & <- & He).
    apply in_map_iff in He as (r & <- & _). simpl in Hc.
    now apply chars_length in Hc. }
  assert (Hfallback :
    exists r,
      InsightsAgent._fallback_pattern_analysis journal_data
      = InsightsAgent.PatternReport r
      /\ forall key count,
           In (key, count) (InsightsAgent.recurring_themes r
                            ++ InsightsAgent.emotional_triggers r) ->
           String.length key = 1).
  { unfold journal_data. cbn [map InsightsAgent._fallback_pattern_analysis].
    eexists. split; [reflexivity|].
    cbn [InsightsAgent.recurring_themes InsightsAgent.emotional_triggers].
    intros key count Hin. rewrite app_nil_r in Hin.
    apply top_keys_seen in Hin. now apply Hthemes. }
  destruct Hfallback as (rf & Hrf & Hkeys).
  assert (Hdone : forall patterns,
    patterns = InsightsAgent.PatternReport rf ->
    exists response,
      InsightsApi.Ok
        {| InsightsApi.patterns := patterns;
           InsightsApi.total_journal_entries := length (row :: rows);
           InsightsApi.total_mood_entries := length (filter
             (fun r => InsightsApi.mood_user_id r = current_user
                       /\ (now - month <= InsightsApi.mood_created_at r)%Z) mood_db) |}
      = InsightsApi.Ok response
      /\ InsightsApi.total_journal_entries response = length (row :: rows)
      /\ match InsightsApi.patterns response with
         | InsightsAgent.PatternReport r =>
             row :: rows <> []
             /\ forall key count,
                  In (key, count) (InsightsAgent.recurring_themes r
                                   ++ InsightsAgent.emotional_triggers r) ->
                  String.length key = 1
         | InsightsAgent.PatternMessage _ => row :: rows = []
         end).
  { intros patterns ->. eexists. split; [reflexivity|]. split; [reflexivity|].
    cbn [InsightsApi.patterns]. split; [discriminate|exact Hkeys]. }
  clear Hall.
  destruct (forallb _ (row :: rows)); [|apply Hdone; exact Hrf].
  unfold InsightsAgent.detect_patterns. unfold journal_data at 1. cbn [map].
  fold (map (fun r => InsightsApi.journal_entry_of
                        (default "" (InsightsApi.themes r))
                        (default "" (InsightsApi.emotional_triggers r)))
            (row :: rows)).
  fold journal_data.
  destruct use_llm; [|apply Hdone; exact Hrf].
  destruct (pattern_chain _ _) as [result|]; [|apply Hdone; exact Hrf].
  cbn [mbind outcome_bind Py.bind].
  destruct (loads result) as [llm_analysis|]; [|apply Hdone; exact Hrf].
  destruct llm_analysis; try (apply Hdone; exact Hrf).
  cbn [Py.get mbind outcome_bind Py.bind].
  eexists. split; [reflexivity|]. split; [reflexivity|].
  cbn [InsightsApi.patterns InsightsAgent.recurring_themes
       InsightsAgent.emotional_triggers].
  split; [discriminate|].
  intros key count Hin. apply in_app_or in Hin as [Hin|Hin];
    apply top_keys_seen in Hin; auto.
Qed.

(** ** The model path of journal analysis *)

(** X27: journal analysis is all or nothing. The result comes from the
    model only if the model is in use, all four calls returned and all
    four replies parsed to JSON objects; each of the nine fields is then
    the value its reply holds under the field's key, or the default
    when the key is missing (5.0, "neutral", 5, empty lists, the empty
    string). In every other case the
    result is exactly the fallback analysis of the text, and nothing
    the model said is used. *)
Theorem journal_analysis_all_or_nothing use_llm mood_analyzer theme_extractor
    trigger_analyzer insights_generator loads (content : string) :
  match JournalAgent.analyze_journal_entry use_llm mood_analyzer theme_extractor
          trigger_analyzer insights_generator loads content with
  | JournalAgent.FromFallback a => a = JournalAgent._fallback_analysis content
  | JournalAgent.FromModel a =>
      use_llm = true
      /\ exists r1 r2 r3 r4 mood themes triggers insights,
           mood_analyzer content = Returned r1
           /\ theme_extractor content = Returned r2
           /\ trigger_analyzer content = Returned r3
           /\ loads r1 = Returned (JObj mood)
           /\ loads r2 = Returned (JObj themes)
           /\ loads r3 = Returned (JObj triggers)
           /\ insights_generator content (JObj mood) (JObj themes) (JObj triggers)
              = Returned r4
           /\ loads r4 = Returned (JObj insights)
           /\ JournalAgent.m_mood_score a
              = default (JNum (5 # 1)) (Py.assoc "mood_score" mood)
           /\ JournalAgent.m_mood_label a
              = default (JStr "neutral") (Py.assoc "mood_label" mood)
           /\ JournalAgent.m_themes a = default (JArr []) (Py.assoc "themes" themes)
           /\ JournalAgent.m_emotional_triggers a
              = default (JArr []) (Py.assoc "emotional_triggers" triggers)
           /\ JournalAgent.m_stress_level a
              = default (JNum (5 # 1)) (Py.assoc "stress_level" triggers)
           /\ JournalAgent.m_key_insights a
              = default (JArr []) (Py.assoc "key_insights" insights)
           /\ JournalAgent.m_growth_areas a
              = default (JArr []) (Py.assoc "growth_areas" insights)
           /\ JournalAgent.m_positive_patterns a
              = default (JArr []) (Py.assoc "positive_patterns" insights)
           /\ JournalAgent.m_suggested_focus a
              = default (JStr "") (Py.assoc "suggested_focus" insights)
  end.
Proof.
  unfold JournalAgent.analyze_journal_entry, JournalAgent.model_analysis.
  destruct use_llm; [|reflexivity].
  destruct (mood_analyzer content) as [r1|] eqn:E1; [|reflexivity].
  destruct (theme_extractor content) as [r2|] eqn:E2; [|reflexivity].
  destruct (trigger_analyzer content) as [r3|] eqn:E3; [|reflexivity].
  cbn [mbind outcome_bind Py.bind].
  destruct (loads r1) as [j1|] eqn:L1; [|reflexivity].
  destruct (loads r2) as [j2|] eqn:L2; [|reflexivity].
  destruct (loads r3) as [j3|] eqn:L3; [|reflexivity].
  cbn [mbind outcome_bind Py.bind].
  destruct (insights_generator content j1 j2 j3) as [r4|] eqn:E4; [|reflexivity].
  cbn [mbind outcome_bind Py.bind].
  destruct (loads r4) as [j4|] eqn:L4; [|reflexivity].
  cbn [mbind outcome_bind Py.bind].
  destruct j1 as [| | | |mood]; try reflexivity.
  destruct j2 as [| | | |themes]; try reflexivity.
  destruct j3 as [| | | |triggers]; try reflexivity.
  destruct j4 as [| | | |insights]; try reflexivity.
  cbn [mbind outcome_bind Py.get Py.bind]. split; [reflexivity|].
  exists r1, r2, r3, r4, mood, themes, triggers, insights.
  cbn [JournalAgent.m_mood_score JournalAgent.m_mood_label JournalAgent.m_themes
       JournalAgent.m_emotional_triggers JournalAgent.m_stress_level
       JournalAgent.m_key_insights JournalAgent.m_growth_areas
       JournalAgent.m_positive_patterns JournalAgent.m_suggested_focus].
  repeat split; try assumption;
    match goal with |- context [Py.assoc ?k ?f] => now destruct (Py.assoc k f) end.
Qed.

(** ** Stages of plan creation *)

(** X28: the stages of plan creation fail on their own. When theme
    selection fails, the weekly planner is still asked, with the three
    generic themes; if it answers with a JSON object, the plan's themes
    are that object's ["weekly_themes"] and the pattern insights are
    those computed from the user's data. *)
Theorem plan_survives_failed_theme_selection (e : string) weekly_planner loads
    today now user_id journal_entries mood_data conversation_count reply plan :
  weekly_planner
    (PlannerAgent._analyze_patterns journal_entries mood_data conversation_count)
    (jstrs ["personal growth"; "emotional awareness"; "relationships"])
  = Returned reply ->
  loads reply = Returned (JObj plan) ->
  let created :=
    PlannerAgent.create_weekly_plan true (fun _ => Raised e) weekly_planner loads
      today now user_id journal_entries mood_data conversation_count in
  PlannerAgent.plan_themes created = default (JArr []) (Py.assoc "weekly_themes" plan)
  /\ PlannerAgent.pattern_insights created
     = PlannerAgent._analyze_patterns journal_entries mood_data conversation_count
  /\ PlannerAgent.status created = "active"
  /\ PlannerAgent.plan_user_id created = user_id.
Proof.
  intros Hplanner Hloads. cbv zeta.
  unfold PlannerAgent.create_weekly_plan, PlannerAgent._generate_weekly_plan,
    PlannerAgent._select_themes.
  cbn [mbind outcome_bind Py.bind].
  change (Py.get PlannerAgent._fallback_theme_selection "selected_themes" (JArr []))
    with (Returned (jstrs ["personal growth"; "emotional awareness"; "relationships"])).
  cbn [mbind outcome_bind Py.bind]. rewrite Hplanner.
  cbn [mbind outcome_bind Py.bind]. rewrite Hloads.
  cbn [mbind outcome_bind Py.get Py.bind PlannerAgent.plan_themes PlannerAgent.pattern_insights
       PlannerAgent.status PlannerAgent.plan_user_id].
  repeat split.
Qed.

(** X28 at work. *)
Lemma plan_survives_failed_theme_selection_witness :
  PlannerAgent.plan_themes
    (PlannerAgent.create_weekly_plan true (fun _ => Raised "timeout")
       (fun _ _ => Returned "plan")
       (fun _ => Returned (JObj [("weekly_themes", jstrs ["sleep"])]))
       "today" "now" 1 [] [] 0)
  = jstrs ["sleep"].
Proof.
  apply (plan_survives_failed_theme_selection "timeout"
           (fun _ _ => Returned "plan")
           (fun _ => Returned (JObj [("weekly_themes", jstrs ["sleep"])]))
           "today" "now" 1 [] [] 0 "plan"
           [("weekly_themes", jstrs ["sleep"])] eq_refl eq_refl).
Defined.

(** ** The mood endpoint *)

(** X29: the mood endpoint reads the entries newest first, so on the
    model path the trend sets the oldest score against the newest: for
    two entries in the window it is the trend from the newer score to
    the older one, ["improving"] when the mood went down. *)
Theorem mood_endpoint_trend_runs_backwards loads isoformat trend_chain
    now day time_period current_user (older newer : InsightsApi.MoodRow)
    (mood_db : list InsightsApi.MoodRow) reply fields :
  InsightsApi.mood_user_id older = current_user ->
  InsightsApi.mood_user_id newer = current_user ->
  (now - (if String.eqb time_period "week" then 7
          else if String.eqb time_period "month" then 30 else 7) * day
   <= InsightsApi.mood_created_at older)%Z ->
  (InsightsApi.mood_created_at older < InsightsApi.mood_created_at newer)%Z ->
  mood_db = [older; newer] \/ mood_db = [newer; older] ->
  (forall mood_data, trend_chain mood_data time_period = Returned reply) ->
  loads reply = Returned (JObj fields) ->
  exists r,
    InsightsApi.insights
      (InsightsApi.get_mood_insights true loads isoformat trend_chain
         now day time_period current_user mood_db)
    = InsightsAgent.MoodReport r
    /\ InsightsAgent.mood_trend r
       = Py.trend_of (InsightsApi.mood_score newer) (InsightsApi.mood_score older).
Proof.
  intros Ho Hn Hstart Hlt Hdb Hchain Hloads.
  unfold InsightsApi.get_mood_insights. cbn [InsightsApi.insights].
  set (start := (now - _ * day)%Z) in *.
  assert (Hsorted :
    InsightsApi.order_by_created_at_desc
      (filter (fun r => InsightsApi.mood_user_id r = current_user
                        /\ (start <= InsightsApi.mood_created_at r)%Z) mood_db)
    = [newer; older]).
  { destruct Hdb as [-> | ->];
      rewrite !filter_cons, !decide_True, filter_nil by (split; [assumption | lia]);
      simpl.
    - destruct (Z.leb_spec (InsightsApi.mood_created_at newer)
                           (InsightsApi.mood_created_at older));
        [lia | reflexivity].
    - destruct (Z.leb_spec (InsightsApi.mood_created_at older)
                           (InsightsApi.mood_created_at newer));
        [reflexivity | lia]. }
  rewrite Hsorted. unfold InsightsAgent.generate_mood_insights. cbn [map].
  rewrite Hchain. cbn [mbind outcome_bind Py.bind]. rewrite Hloads.
  cbn [mbind outcome_bind Py.get Py.bind].
  eexists. split; [reflexivity|]. reflexivity.
Qed.

(** X29 at work: the mood fell from 8 to 4 and is reported as
    improving. *)
Lemma mood_endpoint_trend_runs_backwards_witness :
  let older := InsightsApi.Build_MoodRow 1 (8 # 1) "good" 5 5 1 in
  let newer := InsightsApi.Build_MoodRow 1 (4 # 1) "low" 5 5 2 in
  exists r,
    InsightsApi.insights
      (InsightsApi.get_mood_insights true
         (fun _ => Returned (JObj [])) (fun _ => "") (fun _ _ => Returned "{}")
         3 1 "week" 1 [older; newer])
    = InsightsAgent.MoodReport r
    /\ InsightsAgent.mood_trend r = "improving".
Proof.
  intros older newer.
  assert (Hstart : (3 - (if String.eqb "week" "week" then 7
                         else if String.eqb "week" "month" then 30 else 7) * 1
                    <= InsightsApi.mood_created_at older)%Z)
    by (vm_compute; discriminate).
  assert (Hlt : (InsightsApi.mood_created_at older
                 < InsightsApi.mood_created_at newer)%Z) by reflexivity.
  destruct (mood_endpoint_trend_runs_backwards
              (fun _ => Returned (JObj [])) (fun _ => "") (fun _ _ => Returned "{}")
              3 1 "week" 1 older newer [older; newer] "{}" []
              eq_refl eq_refl Hstart Hlt (or_introl eq_refl)
              (fun _ => eq_refl) eq_refl)
    as (r & Hr & Ht).
  exists r. split; [exact Hr | exact Ht].
Defined.
